(** * Personal invite link store: a shallow embedding of [database.py],
      [services/link_generator.py], [services/link_cleanup.py] and
      [services/channel_monitor.py]

    The SQLite tables are lists of records in insertion order, timestamps are
    integers (seconds), and every operation is a function from a store to a
    result and a new store.  The three clock sources the code reads are kept
    apart, as arguments of the operations:
    - [now]    the value of SQL [CURRENT_TIMESTAMP],
    - [pynow]  the value of Python [datetime.now()],
    - [today]  the value of Python [datetime.now().date()].

    Strings are strings of code points 0..255. *)

From Stdlib Require Import ZArith List String Ascii Bool Lia.
From Stdlib Require Import DecimalPos DecimalFacts.
Import ListNotations.
Open Scope string_scope.
Open Scope list_scope.
Open Scope Z_scope.

Set Implicit Arguments.
Set Warnings "-register-all".

(** ** Python values *)

(** The values [set_setting] is given and [get_setting] returns.
    [PyOpaque] stands for a decoded value outside the modelled fragment: a
    float, or a [str] holding a code point above U+00FF. *)
Inductive pyval : Type :=
| PyNone
| PyBool (b : bool)
| PyInt (z : Z)
| PyStr (s : string)
| PyList (l : list pyval)
| PyDict (d : list (string * pyval))
| PyOpaque.

(** ** Characters and Python string methods (ASCII range) *)

Module Chars.

Definition code (c : ascii) : Z := Z.of_N (N_of_ascii c).

Definition chr (n : Z) : ascii := ascii_of_N (Z.to_N n).

Definition is_digit (c : ascii) : bool := (48 <=? code c) && (code c <=? 57).

Definition digit_val (c : ascii) : Z := code c - 48.

Definition digit_chr (d : Z) : ascii := chr (48 + d).

(** [str.lower] on one character. *)
Definition lower_chr (c : ascii) : ascii :=
  if (65 <=? code c) && (code c <=? 90) then chr (code c + 32) else c.

(** The characters [str.strip()] removes, below U+0100. *)
Definition is_py_space (c : ascii) : bool :=
  let n := code c in
  ((9 <=? n) && (n <=? 13)) || ((28 <=? n) && (n <=? 32))
  || (n =? 133) || (n =? 160).

Fixpoint lstrip (s : list ascii) : list ascii :=
  match s with
  | c :: r => if is_py_space c then lstrip r else s
  | [] => []
  end.

Definition strip (s : list ascii) : list ascii :=
  rev (lstrip (rev (lstrip s))).

Definition lower (s : list ascii) : list ascii := map lower_chr s.

(** [str.isdigit]: non-empty and only digits. *)
Definition isdigit (s : list ascii) : bool :=
  match s with
  | [] => false
  | _ => forallb is_digit s
  end.

(** Value of a digit string, most significant digit first. *)
Fixpoint digits_to_Z_acc (acc : Z) (s : list ascii) : Z :=
  match s with
  | [] => acc
  | c :: r => digits_to_Z_acc (10 * acc + digit_val c) r
  end.

Definition digits_to_Z (s : list ascii) : Z := digits_to_Z_acc 0 s.

Fixpoint uint_digits (d : Decimal.uint) : list ascii :=
  match d with
  | Decimal.Nil => []
  | Decimal.D0 r => digit_chr 0 :: uint_digits r
  | Decimal.D1 r => digit_chr 1 :: uint_digits r
  | Decimal.D2 r => digit_chr 2 :: uint_digits r
  | Decimal.D3 r => digit_chr 3 :: uint_digits r
  | Decimal.D4 r => digit_chr 4 :: uint_digits r
  | Decimal.D5 r => digit_chr 5 :: uint_digits r
  | Decimal.D6 r => digit_chr 6 :: uint_digits r
  | Decimal.D7 r => digit_chr 7 :: uint_digits r
  | Decimal.D8 r => digit_chr 8 :: uint_digits r
  | Decimal.D9 r => digit_chr 9 :: uint_digits r
  end.

(** [str(n)] and [json.dumps(n)] of an integer. *)
Definition Z_to_digits (z : Z) : list ascii :=
  match z with
  | Z0 => [digit_chr 0]
  | Zpos p => uint_digits (Pos.to_uint p)
  | Zneg p => "-"%char :: uint_digits (Pos.to_uint p)
  end.

Definition hex_chr (d : Z) : ascii :=
  if d <? 10 then chr (48 + d) else chr (87 + d).

Definition hex_val (c : ascii) : option Z :=
  let n := code c in
  if (48 <=? n) && (n <=? 57) then Some (n - 48)
  else if (97 <=? n) && (n <=? 102) then Some (n - 87)
  else if (65 <=? n) && (n <=? 70) then Some (n - 55)
  else None.

End Chars.

(** ** The [json] module of the Python standard library

    [json.dumps] with its default arguments (separators [", "] and [": "],
    [ensure_ascii=True]) and [json.loads] with its default (strict) decoder.
    The library is not part of the repository; [set_setting] and
    [get_setting] call it.  Floats are not modelled, nor is the
    interpreter's limit on the number of digits of an integer. *)

Module Json.
Import Chars.

Definition quote : ascii := chr 34.
Definition backslash : ascii := chr 92.

(** *** Encoder *)

Definition escape_chr (c : ascii) : list ascii :=
  let n := code c in
  if n =? 34 then [backslash; quote]
  else if n =? 92 then [backslash; backslash]
  else if n =? 8 then [backslash; "b"%char]
  else if n =? 12 then [backslash; "f"%char]
  else if n =? 10 then [backslash; "n"%char]
  else if n =? 13 then [backslash; "r"%char]
  else if n =? 9 then [backslash; "t"%char]
  else if (32 <=? n) && (n <=? 126) then [c]
  else [backslash; "u"%char; "0"%char; "0"%char; hex_chr (n / 16); hex_chr (n mod 16)].

Definition encode_str (s : list ascii) : list ascii :=
  quote :: flat_map escape_chr s ++ [quote].

Definition sep_comma : list ascii := [","%char; " "%char].
Definition sep_colon : list ascii := [":"%char; " "%char].

Fixpoint join (sep : list ascii) (l : list (list ascii)) : list ascii :=
  match l with
  | [] => []
  | [x] => x
  | x :: r => x ++ sep ++ join sep r
  end.

(** [f] on every element, unless one fails. *)
Fixpoint traverse (A B : Type) (f : A -> option B) (l : list A) : option (list B) :=
  match l with
  | [] => Some []
  | x :: r =>
      match f x, traverse f r with
      | Some a, Some b => Some (a :: b)
      | _, _ => None
      end
  end.

(** [None] is the [TypeError] the encoder raises on a value it cannot
    serialise. *)
Fixpoint encode (v : pyval) : option (list ascii) :=
  match v with
  | PyNone => Some (list_ascii_of_string "null")
  | PyBool true => Some (list_ascii_of_string "true")
  | PyBool false => Some (list_ascii_of_string "false")
  | PyInt z => Some (Z_to_digits z)
  | PyStr s => Some (encode_str (list_ascii_of_string s))
  | PyList l =>
      match traverse encode l with
      | Some parts => Some ("["%char :: join sep_comma parts ++ ["]"%char])
      | None => None
      end
  | PyDict d =>
      match
        traverse
          (fun kv : string * pyval =>
             match encode (snd kv) with
             | Some a =>
                 Some (encode_str (list_ascii_of_string (fst kv)) ++ sep_colon ++ a)
             | None => None
             end) d
      with
      | Some parts => Some ("{"%char :: join sep_comma parts ++ ["}"%char])
      | None => None
      end
  | PyOpaque => None
  end.

Definition dumps (v : pyval) : option string :=
  option_map string_of_list_ascii (encode v).

(** *** Decoder *)

Definition is_ws (c : ascii) : bool :=
  let n := code c in
  (n =? 32) || (n =? 9) || (n =? 10) || (n =? 13).

Fixpoint skip_ws (s : list ascii) : list ascii :=
  match s with
  | c :: r => if is_ws c then skip_ws r else s
  | [] => []
  end.

Fixpoint span_digits (s : list ascii) : list ascii * list ascii :=
  match s with
  | c :: r =>
      if is_digit c then let (ds, r') := span_digits r in (c :: ds, r')
      else ([], s)
  | [] => ([], [])
  end.

(** The integer part, [0|[1-9]\d*]. *)
Definition scan_int_part (s : list ascii) : option (list ascii * list ascii) :=
  match s with
  | c :: r =>
      if code c =? 48 then Some ([c], r)
      else if is_digit c then let (ds, r') := span_digits r in Some (c :: ds, r')
      else None
  | [] => None
  end.

(** The fraction, [\.\d+]. *)
Definition scan_frac (s : list ascii) : option (list ascii) :=
  match s with
  | p :: c :: r =>
      if (code p =? 46) && is_digit c then Some (snd (span_digits r)) else None
  | _ => None
  end.

(** The exponent, [[eE][-+]?\d+]. *)
Definition scan_exp (s : list ascii) : option (list ascii) :=
  match s with
  | e :: r =>
      if (code e =? 101) || (code e =? 69) then
        let r1 := match r with
                  | g :: r' => if (code g =? 45) || (code g =? 43) then r' else r
                  | [] => r
                  end in
        match r1 with
        | c :: r2 => if is_digit c then Some (snd (span_digits r2)) else None
        | [] => None
        end
      else None
  | [] => None
  end.

Definition scan_number (s : list ascii) : option (pyval * list ascii) :=
  let '(neg, s1) := match s with
                    | c :: r => if code c =? 45 then (true, r) else (false, s)
                    | [] => (false, s)
                    end in
  match scan_int_part s1 with
  | None => None
  | Some (ds, r) =>
      match scan_frac r with
      | Some r1 =>
          Some (PyOpaque, match scan_exp r1 with Some r2 => r2 | None => r1 end)
      | None =>
          match scan_exp r with
          | Some r2 => Some (PyOpaque, r2)
          | None =>
              Some (PyInt (if neg then - digits_to_Z ds else digits_to_Z ds), r)
          end
      end
  end.

Definition unescape (e : ascii) : option ascii :=
  let n := code e in
  if n =? 34 then Some quote
  else if n =? 92 then Some backslash
  else if n =? 47 then Some "/"%char
  else if n =? 98 then Some (chr 8)
  else if n =? 102 then Some (chr 12)
  else if n =? 110 then Some (chr 10)
  else if n =? 114 then Some (chr 13)
  else if n =? 116 then Some (chr 9)
  else None.

Definition hex4 (a b c d : ascii) : option Z :=
  match hex_val a, hex_val b, hex_val c, hex_val d with
  | Some x, Some y, Some z, Some w => Some (((x * 16 + y) * 16 + z) * 16 + w)
  | _, _, _, _ => None
  end.

(** The body of a string literal, after its opening quote.  The decoded text
    is [None] when it holds a code point above U+00FF. *)
Fixpoint scan_string (s : list ascii) : option (option (list ascii) * list ascii) :=
  match s with
  | [] => None
  | c :: r =>
      if code c =? 34 then Some (Some [], r)
      else if code c =? 92 then
        match r with
        | [] => None
        | e :: r1 =>
            if code e =? 117 then
              match r1 with
              | h1 :: h2 :: h3 :: h4 :: r2 =>
                  match hex4 h1 h2 h3 h4, scan_string r2 with
                  | Some n, Some (body, r3) =>
                      Some (if n <? 256 then option_map (cons (chr n)) body
                            else None, r3)
                  | _, _ => None
                  end
              | _ => None
              end
            else
              match unescape e, scan_string r1 with
              | Some ch, Some (body, r3) => Some (option_map (cons ch) body, r3)
              | _, _ => None
              end
        end
      else if code c <? 32 then None
      else
        match scan_string r with
        | Some (body, r3) => Some (option_map (cons c) body, r3)
        | None => None
        end
  end.

Definition str_value (body : option (list ascii)) : pyval :=
  match body with
  | Some t => PyStr (string_of_list_ascii t)
  | None => PyOpaque
  end.

Fixpoint starts_with (p s : list ascii) : option (list ascii) :=
  match p, s with
  | [], _ => Some s
  | a :: p', b :: s' => if Ascii.eqb a b then starts_with p' s' else None
  | _ :: _, [] => None
  end.

(** [d[k] = v] on a dict kept in insertion order. *)
Fixpoint dict_set (k : string) (v : pyval) (d : list (string * pyval))
  : list (string * pyval) :=
  match d with
  | [] => [(k, v)]
  | (k', v') :: r =>
      if String.eqb k k' then (k, v) :: r else (k', v') :: dict_set k v r
  end.

(** [dict(pairs)]; [PyOpaque] when a key lies outside the model. *)
Definition make_dict (pairs : list (option (list ascii) * pyval)) : pyval :=
  match
    fold_left
      (fun acc kv =>
         match acc, fst kv with
         | Some d, Some k => Some (dict_set (string_of_list_ascii k) (snd kv) d)
         | _, _ => None
         end) pairs (Some [])
  with
  | Some d => PyDict d
  | None => PyOpaque
  end.

Fixpoint scan_once (fuel : nat) (s : list ascii) {struct fuel}
  : option (pyval * list ascii) :=
  match fuel with
  | O => None
  | S f =>
      match s with
      | [] => None
      | c :: r =>
          if code c =? 34 then
            match scan_string r with
            | Some (body, r') => Some (str_value body, r')
            | None => None
            end
          else if code c =? 123 then
            match skip_ws r with
            | c1 :: r1 =>
                if code c1 =? 125 then Some (PyDict [], r1)
                else
                  match scan_members f (c1 :: r1) with
                  | Some (pairs, r') => Some (make_dict pairs, r')
                  | None => None
                  end
            | [] => None
            end
          else if code c =? 91 then
            match skip_ws r with
            | c1 :: r1 =>
                if code c1 =? 93 then Some (PyList [], r1)
                else
                  match scan_elems f (c1 :: r1) with
                  | Some (l, r') => Some (PyList l, r')
                  | None => None
                  end
            | [] => None
            end
          else
            match starts_with (list_ascii_of_string "null") s,
                  starts_with (list_ascii_of_string "true") s,
                  starts_with (list_ascii_of_string "false") s with
            | Some r', _, _ => Some (PyNone, r')
            | _, Some r', _ => Some (PyBool true, r')
            | _, _, Some r' => Some (PyBool false, r')
            | _, _, _ =>
                match scan_number s with
                | Some res => Some res
                | None =>
                    match starts_with (list_ascii_of_string "NaN") s,
                          starts_with (list_ascii_of_string "Infinity") s,
                          starts_with (list_ascii_of_string "-Infinity") s with
                    | Some r', _, _ => Some (PyOpaque, r')
                    | _, Some r', _ => Some (PyOpaque, r')
                    | _, _, Some r' => Some (PyOpaque, r')
                    | _, _, _ => None
                    end
                end
            end
      end
  end

(** The elements of an array, from its first element to the closing
    bracket. *)
with scan_elems (fuel : nat) (s : list ascii) {struct fuel}
  : option (list pyval * list ascii) :=
  match fuel with
  | O => None
  | S f =>
      match scan_once f s with
      | None => None
      | Some (v, r) =>
          match skip_ws r with
          | c :: r1 =>
              if code c =? 93 then Some ([v], r1)
              else if code c =? 44 then
                match scan_elems f (skip_ws r1) with
                | Some (l, r') => Some (v :: l, r')
                | None => None
                end
              else None
          | [] => None
          end
      end
  end

(** The members of an object, from the opening quote of its first key to
    the closing brace. *)
with scan_members (fuel : nat) (s : list ascii) {struct fuel}
  : option (list (option (list ascii) * pyval) * list ascii) :=
  match fuel with
  | O => None
  | S f =>
      match s with
      | q :: r =>
          if code q =? 34 then
            match scan_string r with
            | None => None
            | Some (key, r0) =>
                match skip_ws r0 with
                | c0 :: r1 =>
                    if code c0 =? 58 then
                      match scan_once f (skip_ws r1) with
                      | None => None
                      | Some (v, r2) =>
                          match skip_ws r2 with
                          | c :: r3 =>
                              if code c =? 125 then Some ([(key, v)], r3)
                              else if code c =? 44 then
                                match scan_members f (skip_ws r3) with
                                | Some (l, r') => Some ((key, v) :: l, r')
                                | None => None
                                end
                              else None
                          | [] => None
                          end
                      end
                    else None
                | [] => None
                end
            end
          else None
      | [] => None
      end
  end.

(** [json.loads]: one value, surrounded by optional white space; [None] is
    the [JSONDecodeError]. *)
Definition loads (s : string) : option pyval :=
  let l := list_ascii_of_string s in
  match scan_once (2 * List.length l + 2)%nat (skip_ws l) with
  | Some (v, r) => match skip_ws r with [] => Some v | _ => None end
  | None => None
  end.

End Json.

(** ** The tables of [Database._create_tables] *)

Record Channel : Type := mkChannel {
  ch_id : Z;
  ch_chat_id : string;
  ch_title : string;
  ch_username : option string;
  ch_invite_link : option string;
  ch_is_active : bool;
  ch_bot_is_admin : bool;
  ch_updated_at : Z
}.

(** A row of [users] ([passed_captcha], which no operation below reads or
    writes, is left out). *)
Record User : Type := mkUser {
  u_user_id : Z;
  u_username : option string;
  u_full_name : option string;
  u_first_seen : Z;
  u_last_activity : Z;
  u_is_banned : bool
}.

Definition set_banned (b : bool) (u : User) : User :=
  mkUser (u_user_id u) (u_username u) (u_full_name u) (u_first_seen u)
    (u_last_activity u) b.

Record Link : Type := mkLink {
  id : Z;
  user_id : Z;
  channel_id : Z;
  invite_link : string;
  link_token : string;
  expire_date : Z;
  max_uses : Z;
  current_uses : Z;
  is_active : bool;
  created_at : Z;
  used_at : option Z
}.

Record LinkUsage : Type := mkLinkUsage {
  lu_link_id : Z;
  lu_user_id : Z;
  lu_used_at : Z;
  lu_success : bool;
  lu_error_message : option string
}.

Record ChannelStat : Type := mkChannelStat {
  cs_channel_id : Z;
  cs_date : Z;
  links_generated : Z;
  links_used : Z;
  unique_users : Z
}.

(** A [Database] object: its two attributes, the six tables, and the
    AUTOINCREMENT counters of [channels] and [personal_invite_links] (the
    largest id given out so far). *)
Record Store : Type := mkStore {
  LINK_EXPIRE_HOURS : Z;
  MAX_LINK_USES : Z;
  channels : list Channel;
  users : list User;
  personal_invite_links : list Link;
  link_usage : list LinkUsage;
  channel_stats : list ChannelStat;
  bot_settings : list (string * string);
  seq_channels : Z;
  seq_links : Z
}.

(** [Database(db_path, expire_hours, max_uses)] on a fresh file. *)
Definition empty_store (expire_hours max_uses : Z) : Store :=
  mkStore expire_hours max_uses [] [] [] [] [] [] 0 0.

Definition with_channels (s : Store) (cs : list Channel) (seq : Z) : Store :=
  mkStore (LINK_EXPIRE_HOURS s) (MAX_LINK_USES s) cs (users s)
    (personal_invite_links s) (link_usage s) (channel_stats s)
    (bot_settings s) seq (seq_links s).

Definition with_users (s : Store) (us : list User) : Store :=
  mkStore (LINK_EXPIRE_HOURS s) (MAX_LINK_USES s) (channels s) us
    (personal_invite_links s) (link_usage s) (channel_stats s)
    (bot_settings s) (seq_channels s) (seq_links s).

Definition with_links (s : Store) (ls : list Link) : Store :=
  mkStore (LINK_EXPIRE_HOURS s) (MAX_LINK_USES s) (channels s) (users s)
    ls (link_usage s) (channel_stats s)
    (bot_settings s) (seq_channels s) (seq_links s).

Definition with_usage (s : Store) (us : list LinkUsage) : Store :=
  mkStore (LINK_EXPIRE_HOURS s) (MAX_LINK_USES s) (channels s) (users s)
    (personal_invite_links s) us (channel_stats s)
    (bot_settings s) (seq_channels s) (seq_links s).

Definition with_stats (s : Store) (cs : list ChannelStat) : Store :=
  mkStore (LINK_EXPIRE_HOURS s) (MAX_LINK_USES s) (channels s) (users s)
    (personal_invite_links s) (link_usage s) cs
    (bot_settings s) (seq_channels s) (seq_links s).

Definition with_settings (s : Store) (bs : list (string * string)) : Store :=
  mkStore (LINK_EXPIRE_HOURS s) (MAX_LINK_USES s) (channels s) (users s)
    (personal_invite_links s) (link_usage s) (channel_stats s)
    bs (seq_channels s) (seq_links s).

(** ** SQL statements on a table *)

Module Sql.

Section Table.
Variable A : Type.

(** [UPDATE t SET ... WHERE p]. *)
Definition update_where (p : A -> bool) (f : A -> A) (rows : list A) : list A :=
  map (fun r => if p r then f r else r) rows.

(** [DELETE FROM t WHERE p]. *)
Definition delete_where (p : A -> bool) (rows : list A) : list A :=
  filter (fun r => negb (p r)) rows.

(** [cursor.rowcount] after an UPDATE or DELETE with condition [p]. *)
Definition rowcount (p : A -> bool) (rows : list A) : Z :=
  Z.of_nat (List.length (filter p rows)).

(** [SELECT ... WHERE p] followed by [fetchone()]. *)
Definition fetchone (p : A -> bool) (rows : list A) : option A := find p rows.

End Table.

End Sql.

Definition set_active (b : bool) (l : Link) : Link :=
  mkLink (id l) (user_id l) (channel_id l) (invite_link l) (link_token l)
    (expire_date l) (max_uses l) (current_uses l) b (created_at l) (used_at l).

Definition set_used_at (t : Z) (l : Link) : Link :=
  mkLink (id l) (user_id l) (channel_id l) (invite_link l) (link_token l)
    (expire_date l) (max_uses l) (current_uses l) (is_active l) (created_at l)
    (Some t).

Definition set_uses (n t : Z) (l : Link) : Link :=
  mkLink (id l) (user_id l) (channel_id l) (invite_link l) (link_token l)
    (expire_date l) (max_uses l) n (is_active l) (created_at l) (Some t).

(** [DELETE FROM personal_invite_links WHERE p], with its
    [ON DELETE CASCADE] to [link_usage]: the usage rows of the deleted links
    go with them. *)
Definition delete_links (p : Link -> bool) (s : Store) : Store :=
  let gone := filter p (personal_invite_links s) in
  with_usage
    (with_links s (Sql.delete_where p (personal_invite_links s)))
    (Sql.delete_where
       (fun u => existsb (fun l => id l =? lu_link_id u) gone) (link_usage s)).

(** [DELETE FROM channels WHERE p], with its cascades to
    [personal_invite_links] (and from there to [link_usage]) and to
    [channel_stats]. *)
Definition delete_channels (p : Channel -> bool) (s : Store) : Store :=
  let gone := filter p (channels s) in
  let hit := fun c => existsb (fun ch => ch_id ch =? c) gone in
  let s1 := with_channels s (Sql.delete_where p (channels s)) (seq_channels s) in
  let s2 := delete_links (fun l => hit (channel_id l)) s1 in
  with_stats s2
    (Sql.delete_where (fun st => hit (cs_channel_id st)) (channel_stats s2)).

Inductive StatType : Type := LinksGenerated | LinksUsed.

(** What [logger] is told on the way out of [use_personal_link]. *)
Inductive UseLog : Type :=
| LogNotFoundOrExpired
| LogLimitExceeded
| LogUsed.

(** The result of [use_personal_link]: the returned bool, the message
    logged, the database state at each [connection.commit()] in order, and
    the state at return. *)
Record UseResult : Type := mkUseResult {
  use_ok : bool;
  use_log : UseLog;
  use_commits : list Store;
  use_db : Store
}.

(** The result of an operation that may call the Telegram API: the returned
    link, the number of [create_chat_invite_link] calls made, and the state
    at return. *)
Record GenResult : Type := mkGenResult {
  gen_link : option string;
  gen_calls : nat;
  gen_db : Store
}.

(** What [bot.create_chat_invite_link] does when it is called: it returns a
    link, raises [TelegramBadRequest] or [TelegramForbiddenError], or raises
    something else. *)
Inductive ProviderReply : Type :=
| Issued (url : string)
| Refused
| Crashed.

(** ** [class Database] *)

Module Database.
Import Chars.

Definition get_channel_by_id (s : Store) (cid : Z) : option Channel :=
  Sql.fetchone (fun c => ch_id c =? cid) (channels s).

Definition get_channel_by_chat_id (s : Store) (chat : string) : option Channel :=
  Sql.fetchone (fun c => String.eqb (ch_chat_id c) chat) (channels s).

(** The rows with [is_active = 1], in table order ([ORDER BY title] is left
    out: no result below depends on the order). *)
Definition get_active_channels (s : Store) : list Channel :=
  filter ch_is_active (channels s).

(** [INSERT OR REPLACE INTO channels]: a row with the same [chat_id] is
    deleted first (with its cascades), and the new row gets a fresh id. *)
Definition add_channel (s : Store) (chat title : string)
    (username invite : option string) (now : Z) : bool * Store :=
  let s1 := delete_channels (fun c => String.eqb (ch_chat_id c) chat) s in
  let newid := seq_channels s + 1 in
  (true,
   with_channels s1
     (channels s1 ++ [mkChannel newid chat title username invite true false now])
     newid).

Definition update_channel (s : Store) (chat : string) (title : option string)
    (username invite_link : option string) (bot_is_admin : option bool)
    (now : Z) : bool * Store :=
  match title, username, invite_link, bot_is_admin with
  | None, None, None, None => (true, s)
  | _, _, _, _ =>
      let upd c :=
        mkChannel (ch_id c) (ch_chat_id c)
          (match title with Some t => t | None => ch_title c end)
          (match username with Some u => Some u | None => ch_username c end)
          (match invite_link with Some l => Some l | None => ch_invite_link c end)
          (ch_is_active c)
          (match bot_is_admin with Some b => b | None => ch_bot_is_admin c end)
          now in
      (true,
       with_channels s
         (Sql.update_where (fun c => String.eqb (ch_chat_id c) chat) upd (channels s))
         (seq_channels s))
  end.

Definition remove_channel (s : Store) (chat : string) (now : Z) : bool * Store :=
  let off c :=
    mkChannel (ch_id c) (ch_chat_id c) (ch_title c) (ch_username c)
      (ch_invite_link c) false (ch_bot_is_admin c) now in
  let s1 :=
    with_channels s
      (Sql.update_where (fun c => String.eqb (ch_chat_id c) chat) off (channels s))
      (seq_channels s) in
  (* (SELECT id FROM channels WHERE chat_id = ?) *)
  let sub := option_map ch_id (get_channel_by_chat_id s1 chat) in
  let hit l := match sub with Some cid => channel_id l =? cid | None => false end in
  (true,
   with_links s1 (Sql.update_where hit (set_active false) (personal_invite_links s1))).

(** [INSERT INTO users ... ON CONFLICT(user_id) DO UPDATE SET username,
    full_name, last_activity]: a known user keeps [first_seen] and
    [is_banned]; a new row gets the defaults. *)
Definition add_or_update_user (s : Store) (uid : Z)
    (username full_name : option string) (now : Z) : bool * Store :=
  if existsb (fun u => u_user_id u =? uid) (users s) then
    (true,
     with_users s
       (Sql.update_where (fun u => u_user_id u =? uid)
          (fun u => mkUser (u_user_id u) username full_name (u_first_seen u)
                      now (u_is_banned u))
          (users s)))
  else
    (true,
     with_users s (users s ++ [mkUser uid username full_name now now false])).

Definition ban_user (s : Store) (uid : Z) : bool * Store :=
  let s1 :=
    with_users s
      (Sql.update_where (fun u => u_user_id u =? uid)
         (set_banned true) (users s)) in
  (true,
   with_links s1
     (Sql.update_where (fun l => user_id l =? uid) (set_active false)
        (personal_invite_links s1))).

Definition unban_user (s : Store) (uid : Z) : bool * Store :=
  (true,
   with_users s
     (Sql.update_where (fun u => u_user_id u =? uid)
        (set_banned false) (users s))).

(** The WHERE clause of [get_active_personal_link]. *)
Definition is_usable (now uid cid : Z) (l : Link) : bool :=
  (user_id l =? uid) && (channel_id l =? cid) && is_active l
  && (now <? expire_date l) && (current_uses l <? max_uses l).

(** [ORDER BY created_at DESC LIMIT 1]; among rows of equal [created_at] the
    first in table order is taken. *)
Fixpoint newest (rows : list Link) : option Link :=
  match rows with
  | [] => None
  | r :: rest =>
      match newest rest with
      | Some b => if created_at r <? created_at b then Some b else Some r
      | None => Some r
      end
  end.

Definition get_active_personal_link (s : Store) (uid cid now : Z) : option Link :=
  newest (filter (is_usable now uid cid) (personal_invite_links s)).

Definition bump (stat : StatType) (inc : Z) (r : ChannelStat) : ChannelStat :=
  match stat with
  | LinksGenerated =>
      mkChannelStat (cs_channel_id r) (cs_date r) (links_generated r + inc)
        (links_used r) (unique_users r)
  | LinksUsed =>
      mkChannelStat (cs_channel_id r) (cs_date r) (links_generated r)
        (links_used r + inc) (unique_users r)
  end.

(** The INSERT of a new stats row fails on its foreign key when the channel
    is gone; the error is logged and the store is left as it was. *)
Definition _update_channel_stats (s : Store) (cid : Z) (stat : StatType)
    (inc today : Z) : Store :=
  let here r := (cs_channel_id r =? cid) && (cs_date r =? today) in
  match Sql.fetchone here (channel_stats s) with
  | Some _ => with_stats s (Sql.update_where here (bump stat inc) (channel_stats s))
  | None =>
      match get_channel_by_id s cid with
      | Some _ =>
          with_stats s
            (channel_stats s ++
               [bump stat inc (mkChannelStat cid today 0 0 0)])
      | None => s
      end
  end.

(** [INSERT INTO personal_invite_links (user_id, channel_id, invite_link,
    link_token, expire_date, max_uses)].  [None] is the [IntegrityError] of
    a foreign key without its parent row or of a [link_token] already
    present. *)
Definition insert_link (s : Store) (uid cid : Z) (url token : string)
    (expire maxu now : Z) : option Store :=
  if existsb (fun u => u_user_id u =? uid) (users s)
     && existsb (fun c => ch_id c =? cid) (channels s)
     && negb (existsb (fun l => String.eqb (link_token l) token)
                (personal_invite_links s))
  then
    let newid := seq_links s + 1 in
    let row := mkLink newid uid cid url token expire maxu 0 true now None in
    Some (mkStore (LINK_EXPIRE_HOURS s) (MAX_LINK_USES s) (channels s) (users s)
            (personal_invite_links s ++ [row]) (link_usage s) (channel_stats s)
            (bot_settings s) (seq_channels s) newid)
  else None.

(** [channel.get('invite_link') or f"https://t.me/{channel.get('username', '')}"] *)
Definition base_link (c : Channel) : string :=
  let alt :=
    String.append "https://t.me/"
      (match ch_username c with Some n => n | None => "None" end) in
  match ch_invite_link c with
  | Some l => if String.eqb l EmptyString then alt else l
  | None => alt
  end.

Definition error_link : string := "https://t.me/joinchat/error".

(** [_create_invite_link_async]: every exception becomes the error link. *)
Definition _create_invite_link_async (reply : ProviderReply) : string :=
  match reply with
  | Issued url => url
  | Refused | Crashed => error_link
  end.

(** [in_loop] tells whether [asyncio.get_running_loop()] finds a loop;
    [now] is the clock of the SELECT, [now'] the clock of the INSERT. *)
Definition generate_personal_invite_link (s : Store) (uid cid : Z)
    (in_loop : bool) (reply : ProviderReply) (token : string)
    (now now' pynow today : Z) : GenResult :=
  match get_active_personal_link s uid cid now with
  | Some existing => mkGenResult (Some (invite_link existing)) 0 s
  | None =>
      match get_channel_by_id s cid with
      | None => mkGenResult None 0 s
      | Some channel =>
          let '(link0, calls) :=
            if in_loop then (base_link channel, 0%nat)
            else (_create_invite_link_async reply, 1%nat) in
          let link :=
            if String.eqb link0 EmptyString then
              match ch_invite_link channel with
              | Some l =>
                  if String.eqb l EmptyString then
                    match ch_username channel with
                    | Some n =>
                        if String.eqb n EmptyString then error_link
                        else String.append "https://t.me/" n
                    | None => error_link
                    end
                  else l
              | None =>
                  match ch_username channel with
                  | Some n =>
                      if String.eqb n EmptyString then error_link
                      else String.append "https://t.me/" n
                  | None => error_link
                  end
              end
            else link0 in
          let expire := pynow + 3600 * LINK_EXPIRE_HOURS s in
          match insert_link s uid cid link token expire (MAX_LINK_USES s) now' with
          | None => mkGenResult None calls s
          | Some s1 =>
              mkGenResult (Some link) calls
                (_update_channel_stats s1 cid LinksGenerated 1 today)
          end
      end
  end.

Definition use_personal_link (s : Store) (uid : Z) (token : string)
    (now today : Z) : UseResult :=
  match
    Sql.fetchone
      (fun l => String.eqb (link_token l) token && is_active l
                && (now <? expire_date l))
      (personal_invite_links s)
  with
  | None => mkUseResult false LogNotFoundOrExpired [] s
  | Some row =>
      let link_id := id row in
      if max_uses row <=? current_uses row then
        mkUseResult false LogLimitExceeded [] s
      else
        let new_uses := current_uses row + 1 in
        let by_id l := id l =? link_id in
        let ls1 := Sql.update_where by_id (set_uses new_uses now)
                     (personal_invite_links s) in
        let ls2 :=
          if max_uses row <=? new_uses
          then Sql.update_where by_id (set_active false) ls1
          else ls1 in
        let s1 :=
          with_usage (with_links s ls2)
            (link_usage s ++ [mkLinkUsage link_id uid now true None]) in
        (* connection.commit() *)
        let s2 :=
          match Sql.fetchone by_id (personal_invite_links s1) with
          | Some r => _update_channel_stats s1 (channel_id r) LinksUsed 1 today
          | None => s1
          end in
        mkUseResult true LogUsed [s1; s2] s2
  end.

Definition cleanup_expired_links (s : Store) (now pynow : Z) : Z * Store :=
  let expired l := (expire_date l <=? now) && is_active l in
  let expired_count := Sql.rowcount expired (personal_invite_links s) in
  let s1 :=
    with_links s
      (Sql.update_where expired (set_active false) (personal_invite_links s)) in
  let cleanup_date := pynow - 3600 * (LINK_EXPIRE_HOURS s * 7) in
  (expired_count,
   delete_links (fun l => (expire_date l <=? cleanup_date) && negb (is_active l)) s1).

Definition cleanup_old_usage_records (s : Store) (days pynow : Z) : Z * Store :=
  let old u := lu_used_at u <=? pynow - 86400 * days in
  (Sql.rowcount old (link_usage s),
   with_usage s (Sql.delete_where old (link_usage s))).

(** The first statement of [force_regenerate_all_links]. *)
Definition deactivate_all_links (s : Store) : Store :=
  with_links s (map (set_active false) (personal_invite_links s)).

(** The text [set_setting] stores: [json.dumps(value)] for a dict, list,
    bool or int, [str(value)] otherwise.  [PyOpaque] is outside the
    model. *)
Definition value_text (value : pyval) : option string :=
  match value with
  | PyDict _ | PyList _ | PyBool _ | PyInt _ => Json.dumps value
  | PyStr t => Some t
  | PyNone => Some "None"
  | PyOpaque => None
  end.

(** [INSERT OR REPLACE INTO bot_settings]; [false] when serialising the
    value raises. *)
Definition set_setting (s : Store) (key : string) (value : pyval) : bool * Store :=
  match value_text value with
  | Some value_str =>
      (true,
       with_settings s
         (Sql.delete_where (fun kv => String.eqb (fst kv) key) (bot_settings s)
            ++ [(key, value_str)]))
  | None => (false, s)
  end.

(** What [get_setting] makes of a stored text: the JSON value when it
    parses, else a bool or an int when the stripped, lowered text reads as
    one, else the text itself. *)
Definition decode_setting (value : string) : pyval :=
  match Json.loads value with
  | Some v => v
  | None =>
      let lower_val := lower (strip (list_ascii_of_string value)) in
      if String.eqb (string_of_list_ascii lower_val) "true"
         || String.eqb (string_of_list_ascii lower_val) "false"
      then PyBool (String.eqb (string_of_list_ascii lower_val) "true")
      else if isdigit lower_val then PyInt (digits_to_Z lower_val)
      else PyStr value
  end.

Definition get_setting (s : Store) (key : string) (default : pyval) : pyval :=
  match Sql.fetchone (fun kv => String.eqb (fst kv) key) (bot_settings s) with
  | Some row => decode_setting (snd row)
  | None => default
  end.

End Database.

(** ** [class LinkGeneratorService] *)

(** What one per-channel generation reads from outside the store: the reply
    the Telegram API would give, the token [secrets.token_urlsafe] draws, and
    the clocks ([gi_now] at the SELECT, [gi_now'] at the INSERT). *)
Record GenInput : Type := mkGenInput {
  gi_reply : ProviderReply;
  gi_token : string;
  gi_now : Z;
  gi_now' : Z;
  gi_pynow : Z;
  gi_today : Z
}.

(** One entry of the list [generate_links_for_user] returns. *)
Record LinkEntry : Type := mkLinkEntry {
  le_channel_id : Z;
  le_invite_link : string;
  le_is_new : bool
}.

Module LinkGeneratorService.
Import Database.

(** A setting used as a number: [timedelta(hours=...)] and the SQL parameter
    take an int (a bool counts as one).  A setting of another type is
    outside the model ([None]); the operation is then taken to fail.  The
    handlers store integers only. *)
Definition as_int (v : pyval) : option Z :=
  match v with
  | PyInt z => Some z
  | PyBool b => Some (if b then 1 else 0)
  | _ => None
  end.

Definition _create_personal_invite_link (s : Store) (uid cid : Z)
    (reply : ProviderReply) (token : string) (now now' pynow today : Z)
  : GenResult :=
  match get_channel_by_id s cid with
  | None => mkGenResult None 0 s
  | Some channel =>
      if negb (ch_is_active channel) then mkGenResult None 0 s
      else
        match get_active_personal_link s uid cid now with
        | Some existing => mkGenResult (Some (invite_link existing)) 0 s
        | None =>
            let expire_hours := as_int (get_setting s "link_expire_hours" (PyInt 1)) in
            let max_uses := as_int (get_setting s "max_link_uses" (PyInt 1)) in
            let attempt : option string * nat :=
              if ch_bot_is_admin channel then
                match expire_hours with
                | None => (None, 0%nat)
                | Some _ =>
                    match reply with
                    | Issued url => (Some url, 1%nat)
                    | Refused => (Some (base_link channel), 1%nat)
                    | Crashed => (None, 1%nat)
                    end
                end
              else (Some (base_link channel), 0%nat) in
            match attempt with
            | (None, calls) => mkGenResult None calls s
            | (Some link, calls) =>
                if String.eqb link EmptyString then mkGenResult None calls s
                else
                  match expire_hours, max_uses with
                  | Some h, Some m =>
                      match insert_link s uid cid link token (pynow + 3600 * h) m now' with
                      | None => mkGenResult None calls s
                      | Some s1 =>
                          mkGenResult (Some link) calls
                            (_update_channel_stats s1 cid LinksGenerated 1 today)
                      end
                  | _, _ => mkGenResult None calls s
                  end
            end
        end
  end.

(** [generate_single_link] for one channel. *)
Definition generate_single_link (s : Store) (uid : Z) (channel : Channel)
    (i : GenInput) : option LinkEntry * nat * Store :=
  match get_active_personal_link s uid (ch_id channel) (gi_now i) with
  | Some existing =>
      (Some (mkLinkEntry (ch_id channel) (invite_link existing) false), 0%nat, s)
  | None =>
      let r := _create_personal_invite_link s uid (ch_id channel) (gi_reply i)
                 (gi_token i) (gi_now i) (gi_now' i) (gi_pynow i) (gi_today i) in
      (option_map (fun l => mkLinkEntry (ch_id channel) l true) (gen_link r),
       gen_calls r, gen_db r)
  end.

(** The per-channel tasks, one after the other in the order of
    [get_active_channels]; [env] gives each channel its inputs. *)
Fixpoint generate_each (s : Store) (uid : Z) (env : Z -> GenInput)
    (cs : list Channel) : list LinkEntry * nat * Store :=
  match cs with
  | [] => ([], 0%nat, s)
  | c :: rest =>
      let '(e, n, s1) := generate_single_link s uid c (env (ch_id c)) in
      let '(es, m, s2) := generate_each s1 uid env rest in
      (match e with Some x => x :: es | None => es end, (n + m)%nat, s2)
  end.

Definition generate_links_for_user (s : Store) (uid : Z) (env : Z -> GenInput)
  : list LinkEntry * nat * Store :=
  generate_each s uid env (get_active_channels s).

(** The UPDATE that opens [refresh_user_links]. *)
Definition deactivate_user_links (s : Store) (uid : Z) : Store :=
  with_links s
    (Sql.update_where (fun l => (user_id l =? uid) && is_active l)
       (set_active false) (personal_invite_links s)).

Definition refresh_user_links (s : Store) (uid : Z) (env : Z -> GenInput)
  : list LinkEntry * nat * Store :=
  generate_links_for_user (deactivate_user_links s uid) uid env.

Definition validate_invite_link (link : string) : bool :=
  String.prefix "https://t.me/" link || String.prefix "https://telegram.me/" link.

(** Every active link whose channel is missing or inactive, or whose URL
    fails [validate_invite_link], is deactivated (by id); the count of them
    is returned. *)
Definition cleanup_broken_links (s : Store) : Z * Store :=
  let broken l :=
    is_active l
    && (match get_channel_by_id s (channel_id l) with
        | Some c => negb (ch_is_active c)
        | None => true
        end
        || negb (validate_invite_link (invite_link l))) in
  (Sql.rowcount broken (personal_invite_links s),
   with_links s
     (Sql.update_where broken (set_active false) (personal_invite_links s))).

End LinkGeneratorService.

(** ** [class LinkCleanupService] *)

Module LinkCleanupService.

Definition cleanup_user_links (s : Store) (uid now : Z) : Z * Store :=
  let hit l := (user_id l =? uid) && is_active l in
  (Sql.rowcount hit (personal_invite_links s),
   with_links s
     (Sql.update_where hit (fun l => set_used_at now (set_active false l))
        (personal_invite_links s))).

Definition cleanup_channel_links (s : Store) (cid : Z) : Z * Store :=
  let hit l := (channel_id l =? cid) && is_active l in
  (Sql.rowcount hit (personal_invite_links s),
   with_links s
     (Sql.update_where hit (set_active false) (personal_invite_links s))).

(** The two statements of [emergency_cleanup] that write the store. *)
Definition emergency_cleanup (s : Store) (pynow : Z) : Z * Store :=
  let s1 :=
    with_links s
      (Sql.update_where is_active (set_active false) (personal_invite_links s)) in
  (Sql.rowcount is_active (personal_invite_links s),
   with_usage s1
     (Sql.delete_where (fun u => lu_used_at u <=? pynow - 86400) (link_usage s1))).

Definition _cleanup_old_inactive_channels (s : Store) (pynow : Z) : Z * Store :=
  let old c := negb (ch_is_active c) && (ch_updated_at c <=? pynow - 7 * 86400) in
  (Sql.rowcount old (channels s), delete_channels old s).

Definition cleanup_specific_user_data (s : Store) (uid : Z) : Store :=
  let s1 :=
    with_links s
      (Sql.update_where (fun l => user_id l =? uid) (set_active false)
         (personal_invite_links s)) in
  with_usage s1 (Sql.delete_where (fun u => lu_user_id u =? uid) (link_usage s1)).

Definition cleanup_specific_channel_data (s : Store) (cid : Z) : Store :=
  let s1 := delete_links (fun l => channel_id l =? cid) s in
  let s2 :=
    with_stats s1
      (Sql.delete_where (fun st => cs_channel_id st =? cid) (channel_stats s1)) in
  delete_channels (fun c => ch_id c =? cid) s2.

End LinkCleanupService.

(** ** The operations as a transition system

    One constructor per operation that writes the store; an operation that
    loops over users or channels ([get_user_links_for_all_channels],
    [generate_links_for_user], [bulk_generate_links],
    [force_regenerate_all_links]) is the sequence of the per-pair
    operations it calls, each run to completion. *)

Inductive Op : Type :=
| AddChannel (chat title : string) (username invite : option string) (now : Z)
| UpdateChannel (chat : string) (title username invite : option string)
    (admin : option bool) (now : Z)
| RemoveChannel (chat : string) (now : Z)
| AddOrUpdateUser (uid : Z) (username full_name : option string) (now : Z)
| BanUser (uid : Z)
| UnbanUser (uid : Z)
| Generate (uid cid : Z) (in_loop : bool) (reply : ProviderReply)
    (token : string) (now now' pynow today : Z)
| Create (uid cid : Z) (reply : ProviderReply) (token : string)
    (now now' pynow today : Z)
| Use (uid : Z) (token : string) (now today : Z)
| CleanupExpired (now pynow : Z)
| CleanupOldUsage (days pynow : Z)
| DeactivateAll
| SetSetting (key : string) (value : pyval)
| RefreshDeactivate (uid : Z)
| CleanupBroken
| CleanupUserLinks (uid now : Z)
| CleanupChannelLinks (cid : Z)
| Emergency (pynow : Z)
| CleanupOldChannels (pynow : Z)
| CleanupUserData (uid : Z)
| CleanupChannelData (cid : Z).

Definition run (o : Op) (s : Store) : Store :=
  match o with
  | AddChannel chat title username invite now =>
      snd (Database.add_channel s chat title username invite now)
  | UpdateChannel chat title username invite admin now =>
      snd (Database.update_channel s chat title username invite admin now)
  | RemoveChannel chat now => snd (Database.remove_channel s chat now)
  | AddOrUpdateUser uid username full_name now =>
      snd (Database.add_or_update_user s uid username full_name now)
  | BanUser uid => snd (Database.ban_user s uid)
  | UnbanUser uid => snd (Database.unban_user s uid)
  | Generate uid cid in_loop reply token now now' pynow today =>
      gen_db (Database.generate_personal_invite_link s uid cid in_loop reply
                token now now' pynow today)
  | Create uid cid reply token now now' pynow today =>
      gen_db (LinkGeneratorService._create_personal_invite_link s uid cid reply
                token now now' pynow today)
  | Use uid token now today =>
      use_db (Database.use_personal_link s uid token now today)
  | CleanupExpired now pynow => snd (Database.cleanup_expired_links s now pynow)
  | CleanupOldUsage days pynow =>
      snd (Database.cleanup_old_usage_records s days pynow)
  | DeactivateAll => Database.deactivate_all_links s
  | SetSetting key value => snd (Database.set_setting s key value)
  | RefreshDeactivate uid => LinkGeneratorService.deactivate_user_links s uid
  | CleanupBroken => snd (LinkGeneratorService.cleanup_broken_links s)
  | CleanupUserLinks uid now =>
      snd (LinkCleanupService.cleanup_user_links s uid now)
  | CleanupChannelLinks cid =>
      snd (LinkCleanupService.cleanup_channel_links s cid)
  | Emergency pynow => snd (LinkCleanupService.emergency_cleanup s pynow)
  | CleanupOldChannels pynow =>
      snd (LinkCleanupService._cleanup_old_inactive_channels s pynow)
  | CleanupUserData uid => LinkCleanupService.cleanup_specific_user_data s uid
  | CleanupChannelData cid =>
      LinkCleanupService.cleanup_specific_channel_data s cid
  end.

Definition run_all (ops : list Op) (s : Store) : Store :=
  fold_left (fun st o => run o st) ops s.

(** The readings of [CURRENT_TIMESTAMP] an operation makes: the first and
    the last. *)
Definition clock (o : Op) : option (Z * Z) :=
  match o with
  | AddChannel _ _ _ _ now => Some (now, now)
  | UpdateChannel _ _ _ _ _ now => Some (now, now)
  | RemoveChannel _ now => Some (now, now)
  | AddOrUpdateUser _ _ _ now => Some (now, now)
  | Generate _ _ _ _ _ now now' _ _ => Some (now, now')
  | Create _ _ _ _ now now' _ _ => Some (now, now')
  | Use _ _ now _ => Some (now, now)
  | CleanupExpired now _ => Some (now, now)
  | CleanupUserLinks _ now => Some (now, now)
  | _ => None
  end.

(** The clock does not run backwards. *)
Definition timed (t : Z) (o : Op) : Prop :=
  match clock o with
  | Some (a, b) => t <= a /\ a <= b
  | None => True
  end.

Definition after (t : Z) (o : Op) : Z :=
  match clock o with
  | Some (_, b) => b
  | None => t
  end.

(** The two link settings are written by the handlers only
    ([process_max_uses], [cmd_set_max_uses], [process_expire_time],
    [cmd_set_expire]), after their range check. *)
Definition admissible (o : Op) : Prop :=
  match o with
  | SetSetting key value =>
      (key = "max_link_uses" -> exists m, value = PyInt m /\ 1 <= m <= 100)
      /\ (key = "link_expire_hours" -> exists h, value = PyInt h /\ 1 <= h <= 168)
  | _ => True
  end.

(** The states the operations reach from a fresh database created with
    [expire_hours] and [max_uses]; the index is the latest reading of
    [CURRENT_TIMESTAMP]. *)
Inductive reachable (expire_hours max_uses : Z) : Z -> Store -> Prop :=
| reach_fresh : forall t, reachable expire_hours max_uses t (empty_store expire_hours max_uses)
| reach_run : forall t s o,
    reachable expire_hours max_uses t s ->
    timed t o ->
    admissible o ->
    reachable expire_hours max_uses (after t o) (run o s).

(** ** Notions used in the statements *)

(** The rows of [personal_invite_links] that are active, unexpired and
    under their limit for one (user, channel) pair at time [now]. *)
Definition usable_rows (s : Store) (now uid cid : Z) : list Link :=
  filter (Database.is_usable now uid cid) (personal_invite_links s).

(** The constraints of the schema on [personal_invite_links]: [id] is the
    primary key, handed out by the AUTOINCREMENT counter, and [link_token]
    is UNIQUE. *)
Definition schema_ok (ls : list Link) (q : Z) : Prop :=
  NoDup (map id ls)
  /\ (forall l, In l ls -> id l <= q)
  /\ NoDup (map link_token ls).

(** A row and what an UPDATE of the code may turn it into: the key columns
    stay, [is_active] does not go from 0 to 1, and [current_uses] stays or
    goes up by one from below the limit. *)
Definition descends (l l' : Link) : Prop :=
  id l' = id l
  /\ link_token l' = link_token l
  /\ user_id l' = user_id l
  /\ channel_id l' = channel_id l
  /\ expire_date l' = expire_date l
  /\ max_uses l' = max_uses l
  /\ (is_active l' = true -> is_active l = true)
  /\ (current_uses l' = current_uses l
      \/ (current_uses l' = current_uses l + 1 /\ current_uses l < max_uses l)).

(** How the table and its counter change under the statements the
    operations execute.  An INSERT happens only after a SELECT at time [t]
    found no usable row for the pair; [B] is what is known of the inserted
    row's limit. *)
Inductive evolve (B : Z -> Prop) (t : Z) : list Link * Z -> list Link * Z -> Prop :=
| ev_refl : forall x, evolve B t x x
| ev_update : forall ls q p f,
    (forall l, In l ls -> p l = true -> descends l (f l)) ->
    evolve B t (ls, q) (Sql.update_where p f ls, q)
| ev_delete : forall ls q p,
    evolve B t (ls, q) (Sql.delete_where p ls, q)
| ev_insert : forall ls q uid cid url token expire maxu now,
    existsb (fun l => String.eqb (link_token l) token) ls = false ->
    filter (Database.is_usable t uid cid) ls = [] ->
    B maxu ->
    evolve B t (ls, q)
      (ls ++ [mkLink (q + 1) uid cid url token expire maxu 0 true now None], q + 1)
| ev_trans : forall x y z, evolve B t x y -> evolve B t y z -> evolve B t x z.

Definition table (s : Store) : list Link * Z :=
  (personal_invite_links s, seq_links s).

(** The limit a new row can get: the attribute of the [Database] object or
    the stored setting. *)
Definition limit_source (s : Store) (m : Z) : Prop :=
  m = MAX_LINK_USES s
  \/ LinkGeneratorService.as_int
       (Database.get_setting s "max_link_uses" (PyInt 1)) = Some m.

(** The instant of the first [CURRENT_TIMESTAMP] reading of an operation. *)
Definition started (t : Z) (o : Op) : Z :=
  match clock o with
  | Some (a, _) => a
  | None => t
  end.

(** At most one usable row per pair, from time [t] on. *)
Definition unique_from (t : Z) (ls : list Link) : Prop :=
  forall now uid cid, t <= now ->
    (List.length (filter (Database.is_usable now uid cid) ls) <= 1)%nat.

(** A row and a later row of the same id and owner whose [is_active] did
    not go from 0 to 1. *)
Definition older (l l' : Link) : Prop :=
  id l' = id l
  /\ (is_active l' = true -> is_active l = true)
  /\ user_id l' = user_id l.

(** A database with one channel and two active links on it, of two users. *)
Definition two_link_store : Store :=
  mkStore 1 1
    [mkChannel 1 "-1001" "News" (Some "news") None true false 10]
    [mkUser 7 (Some "ann") (Some "Ann") 12 12 false;
     mkUser 8 (Some "bob") (Some "Bob") 13 13 false]
    [mkLink 1 7 1 "https://t.me/news" "tok-a" 3621 1 0 true 21 None;
     mkLink 2 8 1 "https://t.me/news" "tok-b" 3630 1 0 true 30 None]
    [] [] [] 1 2.

(** A database with one channel, one user and one personal link, built by
    the operations. *)
Definition demo_ops : list Op :=
  [ AddChannel "-1001" "News" (Some "news") None 10;
    AddOrUpdateUser 7 (Some "ann") (Some "Ann") 12;
    Create 7 1 Refused "tok-a" 20 21 21 0 ].

Definition demo_store : Store := run_all demo_ops (empty_store 1 1).

(** The demo database after its user was banned. *)
Definition banned_store : Store := run (BanUser 7) demo_store.

(** The value of a counter of [channel_stats] for a channel and a day; 0
    when the day has no row. *)
Definition stat_value (s : Store) (cid today : Z) (stat : StatType) : Z :=
  match
    Sql.fetchone (fun r => (cs_channel_id r =? cid) && (cs_date r =? today))
      (channel_stats s)
  with
  | Some r =>
      match stat with
      | LinksGenerated => links_generated r
      | LinksUsed => links_used r
      end
  | None => 0
  end.

(** The WHERE clause of the SELECT of [use_personal_link]. *)
Definition matches (token : string) (now : Z) (l : Link) : bool :=
  String.eqb (link_token l) token && is_active l && (now <? expire_date l).

(** What a successful [use_personal_link] makes of the row it found. *)
Definition consumed (now : Z) (row : Link) : Link :=
  mkLink (id row) (user_id row) (channel_id row) (invite_link row)
    (link_token row) (expire_date row) (max_uses row) (current_uses row + 1)
    (negb (max_uses row <=? current_uses row + 1)) (created_at row) (Some now).

(** A database created with [MAX_LINK_USES = 0], and one link generated on
    it by [generate_personal_invite_link]: the link is active, unexpired and
    at its limit from the start. *)
Definition zero_limit_store : Store :=
  run_all
    [ AddChannel "-1001" "News" (Some "news") None 10;
      AddOrUpdateUser 7 (Some "ann") (Some "Ann") 12;
      Generate 7 1 true Refused "tok-z" 20 21 21 0 ]
    (empty_store 1 0).

(** The URL [_create_personal_invite_link] has in hand before it writes the
    row: the provider's when the bot is administrator and the call returned
    one, the channel's base link when the call was refused or the bot is not
    administrator; none when the call failed otherwise. *)
Definition offered (channel : Channel) (reply : ProviderReply) : option string :=
  if ch_bot_is_admin channel then
    match reply with
    | Issued url => Some url
    | Refused => Some (Database.base_link channel)
    | Crashed => None
    end
  else Some (Database.base_link channel).

(** A database with one channel and one user, and no link yet. *)
Definition base_store : Store :=
  run_all
    [ AddChannel "-1001" "News" (Some "news") None 10;
      AddOrUpdateUser 7 (Some "ann") (Some "Ann") 12 ]
    (empty_store 1 1).

(** What may follow a JSON number without being read as part of it. *)
Definition tail_ok (rest : list ascii) : Prop :=
  match rest with
  | [] => True
  | c :: _ =>
      Chars.is_digit c = false
      /\ (Chars.code c =? 46) = false
      /\ (Chars.code c =? 101) = false
      /\ (Chars.code c =? 69) = false
  end.

(** Every row keeps [current_uses] between 0 and [max_uses]. *)
Definition bounded (ls : list Link) : Prop :=
  forall l, In l ls -> 0 <= current_uses l <= max_uses l.

(** The stored use limit, when there is one, passed the handlers' range
    check. *)
Definition limit_setting_ok (s : Store) : Prop :=
  forall m,
    LinkGeneratorService.as_int
      (Database.get_setting s "max_link_uses" (PyInt 1)) = Some m ->
    1 <= m <= 100.

(** [use_personal_link] called once per attempt (caller, clock, day), one
    call after the other, on one token. *)
Fixpoint use_each (s : Store) (token : string) (attempts : list (Z * Z * Z))
  : list bool * Store :=
  match attempts with
  | [] => ([], s)
  | (uid, now, today) :: rest =>
      let r := Database.use_personal_link s uid token now today in
      let (bs, s') := use_each (use_db r) token rest in
      (use_ok r :: bs, s')
  end.

(** Induction on Python values, with the hypothesis for every element of a
    list and every value of a dict. *)
Fixpoint pyval_nested_ind (P : pyval -> Prop)
    (hNone : P PyNone) (hBool : forall b, P (PyBool b))
    (hInt : forall z, P (PyInt z)) (hStr : forall s, P (PyStr s))
    (hList : forall l, Forall P l -> P (PyList l))
    (hDict : forall d, Forall (fun kv => P (snd kv)) d -> P (PyDict d))
    (hOpaque : P PyOpaque) (v : pyval) {struct v} : P v :=
  match v with
  | PyNone => hNone
  | PyBool b => hBool b
  | PyInt z => hInt z
  | PyStr s => hStr s
  | PyList l =>
      hList l
        ((fix go (l : list pyval) : Forall P l :=
            match l with
            | [] => Forall_nil P
            | x :: r =>
                Forall_cons x
                  (pyval_nested_ind hNone hBool hInt hStr hList hDict hOpaque x)
                  (go r)
            end) l)
  | PyDict d =>
      hDict d
        ((fix go (d : list (string * pyval)) : Forall (fun kv => P (snd kv)) d :=
            match d with
            | [] => Forall_nil _
            | kv :: r =>
                Forall_cons kv
                  (pyval_nested_ind hNone hBool hInt hStr hList hDict hOpaque (snd kv))
                  (go r)
            end) d)
  | PyOpaque => hOpaque
  end.

(** The keys of every dict in a value are distinct, as in any Python
    dict. *)
Fixpoint unique_keys (v : pyval) : Prop :=
  match v with
  | PyList l =>
      (fix go (l : list pyval) : Prop :=
         match l with
         | [] => True
         | x :: r => unique_keys x /\ go r
         end) l
  | PyDict d =>
      NoDup (map fst d)
      /\ (fix go (d : list (string * pyval)) : Prop :=
            match d with
            | [] => True
            | kv :: r => unique_keys (snd kv) /\ go r
            end) d
  | _ => True
  end.

(** Fuel that is enough for the decoder to read a value back. *)
Fixpoint weight (v : pyval) : nat :=
  match v with
  | PyList l =>
      S ((fix go (l : list pyval) : nat :=
            match l with
            | [] => O
            | x :: r => S (weight x + go r)
            end) l)
  | PyDict d =>
      S ((fix go (d : list (string * pyval)) : nat :=
            match d with
            | [] => O
            | kv :: r => S (weight (snd kv) + go r)
            end) d)
  | _ => 1%nat
  end.

(** The first character of an encoded value: no white space, no closing
    bracket or brace. *)
Definition head_ok (e : list ascii) : Prop :=
  exists c r,
    e = c :: r
    /\ Json.is_ws c = false
    /\ (Chars.code c =? 93) = false
    /\ (Chars.code c =? 125) = false.

(** The values [set_setting] serialises with [json.dumps]. *)
Definition json_kind (v : pyval) : Prop :=
  match v with
  | PyBool _ | PyInt _ | PyList _ | PyDict _ => True
  | _ => False
  end.

Fixpoint list_weight (l : list pyval) : nat :=
  match l with
  | [] => O
  | x :: r => S (weight x + list_weight r)
  end.

Fixpoint dict_weight (d : list (string * pyval)) : nat :=
  match d with
  | [] => O
  | kv :: r => S (weight (snd kv) + dict_weight r)
  end.

(** The encoder on one member of a dict. *)
Definition encode_member (kv : string * pyval) : option (list ascii) :=
  match Json.encode (snd kv) with
  | Some a =>
      Some (Json.encode_str (list_ascii_of_string (fst kv)) ++ Json.sep_colon ++ a)
  | None => None
  end.

(** A value read back from its encoding, whatever follows it. *)
Definition reads_back (v : pyval) : Prop :=
  forall e, Json.encode v = Some e -> unique_keys v ->
    forall fuel rest, (weight v <= fuel)%nat -> tail_ok rest ->
      Json.scan_once fuel (e ++ rest) = Some (v, rest).

(** A database with one channel, one user and one link that allows three
    uses. *)
Definition three_use_store : Store :=
  mkStore 1 3
    [mkChannel 1 "-1001" "News" (Some "news") None true false 10]
    [mkUser 7 (Some "ann") (Some "Ann") 12 12 false]
    [mkLink 1 7 1 "https://t.me/news" "tok-a" 3621 3 0 true 21 None]
    [] [] [] 1 1.

(** ** The methods of [class Database] that loop over channels and users *)

(** One entry of the list [get_user_links_for_all_channels] returns. *)
Record UserLink : Type := mkUserLink {
  ul_channel_title : string;
  ul_channel_username : option string;
  ul_invite_link : string;
  ul_expire_date : Z
}.

(** What one round of the loop of [get_user_links_for_all_channels] reads
    besides the store: the [CURRENT_TIMESTAMP] of its own SELECT, the inputs
    of the generation, and the [datetime.now()] read after the generation. *)
Record RoundInput : Type := mkRoundInput {
  ri_select : Z;
  ri_gen : GenInput;
  ri_after : Z
}.

Module DatabaseLoops.
Import Database.

(** The loop of [get_user_links_for_all_channels] over the channels [cs];
    [env] gives each channel its inputs.  The result is the list of
    entries, the number of Telegram API calls made, and the store. *)
Fixpoint links_for_channels (s : Store) (uid : Z) (in_loop : bool)
    (env : Z -> RoundInput) (cs : list Channel) : list UserLink * nat * Store :=
  match cs with
  | [] => ([], 0%nat, s)
  | channel :: rest =>
      let i := env (ch_id channel) in
      match get_active_personal_link s uid (ch_id channel) (ri_select i) with
      | Some existing =>
          let '(es, m, s2) := links_for_channels s uid in_loop env rest in
          (mkUserLink (ch_title channel) (ch_username channel)
             (invite_link existing) (expire_date existing) :: es, m, s2)
      | None =>
          let g := ri_gen i in
          let r := generate_personal_invite_link s uid (ch_id channel) in_loop
                     (gi_reply g) (gi_token g) (gi_now g) (gi_now' g)
                     (gi_pynow g) (gi_today g) in
          let '(es, m, s2) := links_for_channels (gen_db r) uid in_loop env rest in
          (match gen_link r with
           | Some link =>
               if String.eqb link EmptyString then es
               else mkUserLink (ch_title channel) (ch_username channel) link
                      (ri_after i + 3600 * LINK_EXPIRE_HOURS s) :: es
           | None => es
           end, (gen_calls r + m)%nat, s2)
      end
  end.

Definition get_user_links_for_all_channels (s : Store) (uid : Z)
    (in_loop : bool) (env : Z -> RoundInput) : list UserLink * nat * Store :=
  links_for_channels s uid in_loop env (get_active_channels s).

(** [SELECT ... FROM users ORDER BY first_seen DESC]: [first_seen] is the
    time of the INSERT and is never updated, so the rows come latest first
    (rows of the same second in an order SQLite leaves open; no result below
    depends on the order). *)
Definition get_all_users (s : Store) : list User := rev (users s).

(** The inner loop of [force_regenerate_all_links], for one user: the
    number of links obtained, the number of API calls, and the store. *)
Fixpoint regenerate_channels (s : Store) (uid : Z) (in_loop : bool)
    (env : Z -> Z -> GenInput) (cs : list Channel) : Z * nat * Store :=
  match cs with
  | [] => (0, 0%nat, s)
  | channel :: rest =>
      let g := env uid (ch_id channel) in
      let r := generate_personal_invite_link s uid (ch_id channel) in_loop
                 (gi_reply g) (gi_token g) (gi_now g) (gi_now' g)
                 (gi_pynow g) (gi_today g) in
      let '(n, m, s2) := regenerate_channels (gen_db r) uid in_loop env rest in
      ((match gen_link r with
        | Some link => if String.eqb link EmptyString then 0 else 1
        | None => 0
        end) + n, (gen_calls r + m)%nat, s2)
  end.

(** The outer loop: banned users are skipped. *)
Fixpoint regenerate_users (s : Store) (in_loop : bool)
    (env : Z -> Z -> GenInput) (us : list User) (cs : list Channel)
  : Z * nat * Store :=
  match us with
  | [] => (0, 0%nat, s)
  | user :: rest =>
      if u_is_banned user then regenerate_users s in_loop env rest cs
      else
        let '(n1, m1, s1) :=
          regenerate_channels s (u_user_id user) in_loop env cs in
        let '(n2, m2, s2) := regenerate_users s1 in_loop env rest cs in
        (n1 + n2, (m1 + m2)%nat, s2)
  end.

Definition force_regenerate_all_links (s : Store) (in_loop : bool)
    (env : Z -> Z -> GenInput) : Z * nat * Store :=
  let s1 := deactivate_all_links s in
  regenerate_users s1 in_loop env (get_all_users s1) (get_active_channels s1).

End DatabaseLoops.

(** ** [class ChannelMonitor] *)

(** What the two Telegram calls of [check_single_channel] give: the chat's
    title and username with the status of the bot in the chat, or
    [TelegramBadRequest] / [TelegramForbiddenError], or another
    exception. *)
Inductive Probe : Type :=
| Answered (title : option string) (username : option string) (status : string)
| Denied
| Failed.

(** The notification [check_single_channel] sends to the administrators. *)
Inductive Notice : Type :=
| ChannelInactive
| BotLostAdmin
| ChannelRemoved.

Module ChannelMonitor.

(** [UPDATE channels SET updated_at = CURRENT_TIMESTAMP WHERE id = ?] *)
Definition touch (now : Z) (c : Channel) : Channel :=
  mkChannel (ch_id c) (ch_chat_id c) (ch_title c) (ch_username c)
    (ch_invite_link c) (ch_is_active c) (ch_bot_is_admin c) now.

(** [channel] is the row as the caller read it; [now] is the clock of the
    first statement executed and [now'] the clock of the second. *)
Definition check_single_channel (s : Store) (channel : Channel) (p : Probe)
    (now now' : Z) : option Notice * Store :=
  let chat_id := ch_chat_id channel in
  match p with
  | Answered title username bot_status =>
      let is_admin := String.eqb bot_status "administrator" in
      let is_active := is_admin || String.eqb bot_status "member" in
      let s1 :=
        snd (Database.update_channel s chat_id title username None
               (Some is_admin) now) in
      if negb is_active && ch_is_active channel then
        (Some ChannelInactive, snd (Database.remove_channel s1 chat_id now'))
      else if negb is_admin && ch_bot_is_admin channel then
        (Some BotLostAdmin, s1)
      else if is_active then
        (None,
         with_channels s1
           (Sql.update_where (fun c => ch_id c =? ch_id channel) (touch now')
              (channels s1))
           (seq_channels s1))
      else (None, s1)
  | Denied => (Some ChannelRemoved, snd (Database.remove_channel s chat_id now))
  | Failed => (None, s)
  end.

Definition force_check_channel (s : Store) (chat_id : string) (p : Probe)
    (now now' : Z) : bool * option Notice * Store :=
  match Database.get_channel_by_chat_id s chat_id with
  | None => (false, None, s)
  | Some channel =>
      let '(notice, s') := check_single_channel s channel p now now' in
      (true, notice, s')
  end.

End ChannelMonitor.

(** ** [perform_full_cleanup] *)

Module FullCleanup.

(** [DELETE FROM channel_stats WHERE date <= ?] with the date 90 days
    before today; dates are day numbers. *)
Definition _cleanup_old_stats (s : Store) (today : Z) : Z * Store :=
  let old st := cs_date st <=? today - 90 in
  (Sql.rowcount old (channel_stats s),
   with_stats s (Sql.delete_where old (channel_stats s))).

(** The four database sweeps of [perform_full_cleanup], in order, with the
    counts it reports ([_cleanup_temp_files] works on the file system and
    leaves the database alone).  Each sweep reads [datetime.now()] for
    itself. *)
Definition perform_full_cleanup (s : Store)
    (now pynow pynow' pynow'' today : Z) : (Z * Z * Z * Z) * Store :=
  let '(expired_links, s1) := Database.cleanup_expired_links s now pynow in
  let '(old_usage_records, s2) := Database.cleanup_old_usage_records s1 30 pynow' in
  let '(inactive_channels, s3) :=
    LinkCleanupService._cleanup_old_inactive_channels s2 pynow'' in
  let '(orphaned_stats, s4) := _cleanup_old_stats s3 today in
  ((expired_links, old_usage_records, inactive_channels, orphaned_stats), s4).

End FullCleanup.

(** The bot is no longer in the channel: the API refused the check, or it
    answered with a status other than administrator or member for a channel
    the caller read as active. *)
Definition membership_lost (channel : Channel) (p : Probe) : Prop :=
  match p with
  | Answered _ _ status =>
      status <> "administrator" /\ status <> "member"
      /\ ch_is_active channel = true
  | Denied => True
  | Failed => False
  end.

(** A database with a banned user, an unbanned user and an active channel,
    each user holding a link. *)
Definition mixed_store : Store :=
  mkStore 1 1
    [mkChannel 1 "-1001" "News" (Some "news") None true false 10]
    [mkUser 7 (Some "ann") (Some "Ann") 12 12 true;
     mkUser 8 (Some "bob") (Some "Bob") 13 13 false]
    [mkLink 1 7 1 "https://t.me/news" "tok-a" 3621 1 0 true 21 None;
     mkLink 2 8 1 "https://t.me/news" "tok-b" 3630 1 0 true 30 None]
    [] [] [] 1 2.

(** ** [_create_personal_invite_link] as a coroutine

    The method gives up control once, at
    [await self.bot.create_chat_invite_link], which it reaches only for a
    channel where the bot is administrator.  What other handlers write
    before it resumes is in the store it resumes on. *)

Module LinkGeneratorAwait.
Import Database.

(** How the part before the [await] ends: with the value returned, with the
    URL to save when no API call is made, or suspended in the API call with
    the channel row read. *)
Inductive Started : Type :=
| Returned (link : option string)
| Ready (link : string)
| Awaiting (channel : Channel).

Definition create_begin (s : Store) (uid cid now : Z) : Started :=
  match get_channel_by_id s cid with
  | None => Returned None
  | Some channel =>
      if negb (ch_is_active channel) then Returned None
      else
        match get_active_personal_link s uid cid now with
        | Some existing => Returned (Some (invite_link existing))
        | None =>
            if ch_bot_is_admin channel then
              match LinkGeneratorService.as_int
                      (get_setting s "link_expire_hours" (PyInt 1)) with
              | None => Returned None
              | Some _ => Awaiting channel
              end
            else Ready (base_link channel)
        end
  end.

(** From [if not invite_link] to the end, on the store as it is then:
    the settings are read again and the row is inserted. *)
Definition create_save (s : Store) (uid cid : Z) (link : string) (calls : nat)
    (token : string) (now' pynow today : Z) : GenResult :=
  if String.eqb link EmptyString then mkGenResult None calls s
  else
    match LinkGeneratorService.as_int
            (get_setting s "link_expire_hours" (PyInt 1)),
          LinkGeneratorService.as_int
            (get_setting s "max_link_uses" (PyInt 1)) with
    | Some h, Some m =>
        match insert_link s uid cid link token (pynow + 3600 * h) m now' with
        | None => mkGenResult None calls s
        | Some s1 =>
            mkGenResult (Some link) calls
              (_update_channel_stats s1 cid LinksGenerated 1 today)
        end
    | _, _ => mkGenResult None calls s
    end.

(** What follows the [await], on the store [s] the coroutine resumes on. *)
Definition create_resume (s : Store) (uid cid : Z) (channel : Channel)
    (reply : ProviderReply) (token : string) (now' pynow today : Z) : GenResult :=
  match reply with
  | Issued url => create_save s uid cid url 1 token now' pynow today
  | Refused => create_save s uid cid (base_link channel) 1 token now' pynow today
  | Crashed => mkGenResult None 1 s
  end.

End LinkGeneratorAwait.

(** A database with one channel where the bot is administrator, and one
    user. *)
Definition admin_ops : list Op :=
  [ AddChannel "-1001" "News" (Some "news") None 10;
    UpdateChannel "-1001" None None None (Some true) 11;
    AddOrUpdateUser 7 (Some "ann") (Some "Ann") 12 ].

Definition admin_store : Store := run_all admin_ops (empty_store 1 1).

(** * Properties *)

(** ** Tables under UPDATE and DELETE *)

Lemma links_update_stats s cid stat inc today :
  table (Database._update_channel_stats s cid stat inc today) = table s.
Proof.
  unfold Database._update_channel_stats, table.
  destruct (Sql.fetchone _ _); [reflexivity|].
  destruct (Database.get_channel_by_id s cid); reflexivity.
Qed.

Lemma table_delete_links p s :
  table (delete_links p s) = (Sql.delete_where p (personal_invite_links s), seq_links s).
Proof. reflexivity. Qed.

Lemma table_delete_channels p s :
  exists q, table (delete_channels p s)
            = (Sql.delete_where q (personal_invite_links s), seq_links s).
Proof. unfold delete_channels. eexists. cbn. reflexivity. Qed.

Lemma descends_refl l : descends l l.
Proof. unfold descends. intuition. Qed.

Lemma descends_set_active l : descends l (set_active false l).
Proof. unfold descends, set_active; cbn. intuition discriminate. Qed.

Lemma descends_set_used_at t l : descends l (set_used_at t (set_active false l)).
Proof. unfold descends, set_used_at, set_active; cbn. intuition discriminate. Qed.

Lemma evolve_deactivate B t ls q p :
  evolve B t (ls, q) (Sql.update_where p (set_active false) ls, q).
Proof. apply ev_update. intros. apply descends_set_active. Qed.

Lemma evolve_deactivate_all B t ls q :
  evolve B t (ls, q) (map (set_active false) ls, q).
Proof.
  replace (map (set_active false) ls)
    with (Sql.update_where (fun _ => true) (set_active false) ls)
    by (unfold Sql.update_where; apply map_ext; reflexivity).
  apply evolve_deactivate.
Qed.

Lemma insert_link_table s uid cid url token expire maxu now s1 :
  Database.insert_link s uid cid url token expire maxu now = Some s1 ->
  existsb (fun l => String.eqb (link_token l) token) (personal_invite_links s) = false
  /\ existsb (fun u => u_user_id u =? uid) (users s) = true
  /\ existsb (fun c => ch_id c =? cid) (channels s) = true
  /\ s1 = mkStore (LINK_EXPIRE_HOURS s) (MAX_LINK_USES s) (channels s) (users s)
            (personal_invite_links s
               ++ [mkLink (seq_links s + 1) uid cid url token expire maxu 0 true now None])
            (link_usage s) (channel_stats s) (bot_settings s) (seq_channels s)
            (seq_links s + 1).
Proof.
  unfold Database.insert_link.
  destruct (existsb _ (users s)); cbn; [|discriminate].
  destruct (existsb _ (channels s)); cbn; [|discriminate].
  destruct (existsb _ (personal_invite_links s)); cbn; [discriminate|].
  intros H; inversion H; auto.
Qed.

Lemma newest_none rows : Database.newest rows = None -> rows = [].
Proof.
  destruct rows as [|r rest]; [reflexivity|]. cbn.
  destruct (Database.newest rest); [destruct (_ <? _)|]; discriminate.
Qed.

Lemma newest_in rows r : Database.newest rows = Some r -> In r rows.
Proof.
  revert r. induction rows as [|a rest IH]; cbn; [discriminate|].
  intros r. destruct (Database.newest rest) as [b|].
  - destruct (_ <? _); intros H; inversion H; subst; auto.
  - intros H; inversion H; auto.
Qed.

Lemma nodup_id_eq (ls : list Link) (a b : Link) :
  NoDup (map id ls) -> In a ls -> In b ls -> id a = id b -> a = b.
Proof.
  induction ls as [|x rest IH]; cbn; [tauto|].
  intros Hnd Ha Hb Heq. inversion Hnd as [|? ? Hnot Hrest]; subst.
  destruct Ha as [->|Ha], Hb as [->|Hb]; auto.
  - exfalso. apply Hnot. rewrite Heq. apply in_map. exact Hb.
  - exfalso. apply Hnot. rewrite <- Heq. apply in_map. exact Ha.
Qed.

Lemma evolve_use B t ls q row now :
  NoDup (map id ls) -> In row ls -> current_uses row < max_uses row ->
  evolve B t (ls, q)
    (Sql.update_where (fun l => id l =? id row)
       (set_uses (current_uses row + 1) now) ls, q).
Proof.
  intros Hnd Hin Hlt. apply ev_update. intros l Hl Hp.
  apply Z.eqb_eq in Hp.
  assert (l = row) by (eapply nodup_id_eq; eauto). subst l.
  unfold descends, set_uses; cbn. intuition.
Qed.

(** Every operation changes the table by the statements of [evolve]. *)
Lemma run_evolve o s t :
  schema_ok (personal_invite_links s) (seq_links s) ->
  evolve (limit_source s) (started t o) (table s) (table (run o s)).
Proof.
  intros [Hnd [Hseq Htok]].
  destruct o; cbn [run started clock].
  - (* add_channel *)
    unfold Database.add_channel. cbn [snd].
    destruct (table_delete_channels
                (fun c => String.eqb (ch_chat_id c) chat) s) as [q Hq].
    unfold table in *. cbn in *. rewrite Hq. apply ev_delete.
  - (* update_channel *)
    unfold Database.update_channel.
    destruct title, username, invite, admin; cbn; apply ev_refl.
  - (* remove_channel *)
    unfold Database.remove_channel, table. cbn. apply evolve_deactivate.
  - unfold Database.add_or_update_user.
    destruct (existsb _ _); cbn; apply ev_refl.
  - unfold Database.ban_user, table. cbn. apply evolve_deactivate.
  - unfold Database.unban_user, table. cbn. apply ev_refl.
  - (* generate_personal_invite_link *)
    unfold Database.generate_personal_invite_link.
    destruct (Database.get_active_personal_link s uid cid now) eqn:Hact;
      [apply ev_refl|].
    destruct (Database.get_channel_by_id s cid); [|apply ev_refl].
    destruct (if in_loop then _ else _) as [link0 calls].
    destruct (Database.insert_link _ _ _ _ _ _ _ _) as [s1|] eqn:Hins;
      [|apply ev_refl].
    cbn [gen_db]. rewrite links_update_stats.
    apply insert_link_table in Hins. destruct Hins as [Hfresh [_ [_ ->]]].
    unfold table. cbn.
    apply ev_insert; auto.
    + apply newest_none. exact Hact.
    + left. reflexivity.
  - (* _create_personal_invite_link *)
    unfold LinkGeneratorService._create_personal_invite_link.
    destruct (Database.get_channel_by_id s cid) as [channel|]; [|apply ev_refl].
    destruct (negb (ch_is_active channel)); [apply ev_refl|].
    destruct (Database.get_active_personal_link s uid cid now) eqn:Hact;
      [apply ev_refl|].
    destruct (if ch_bot_is_admin channel then _ else _) as [[link|] calls];
      [|apply ev_refl].
    destruct (String.eqb link EmptyString); [apply ev_refl|].
    destruct (LinkGeneratorService.as_int
                (Database.get_setting s "link_expire_hours" (PyInt 1)));
      [|apply ev_refl].
    destruct (LinkGeneratorService.as_int
                (Database.get_setting s "max_link_uses" (PyInt 1))) eqn:Hmax;
      [|apply ev_refl].
    destruct (Database.insert_link _ _ _ _ _ _ _ _) as [s1|] eqn:Hins;
      [|apply ev_refl].
    cbn [gen_db]. rewrite links_update_stats.
    apply insert_link_table in Hins. destruct Hins as [Hfresh [_ [_ ->]]].
    unfold table. cbn.
    apply ev_insert; auto.
    + apply newest_none. exact Hact.
    + right. exact Hmax.
  - (* use_personal_link *)
    unfold Database.use_personal_link.
    destruct (Sql.fetchone _ _) as [row|] eqn:Hrow; [|apply ev_refl].
    destruct (max_uses row <=? current_uses row) eqn:Hlim; [apply ev_refl|].
    cbn [use_db].
    apply find_some in Hrow. destruct Hrow as [Hin _].
    apply Z.leb_gt in Hlim.
    match goal with
    | |- evolve _ _ _ (table (match ?m with _ => _ end)) =>
        assert (Ht : forall s1, table (match m with
                          | Some r => Database._update_channel_stats s1
                                        (channel_id r) LinksUsed 1 today
                          | None => s1 end) = table s1)
          by (intros; destruct m; [apply links_update_stats|reflexivity])
    end.
    rewrite Ht. unfold table. cbn.
    eapply ev_trans; [apply evolve_use; eauto|].
    destruct (_ <=? _); [apply evolve_deactivate|apply ev_refl].
  - (* cleanup_expired_links *)
    unfold Database.cleanup_expired_links. cbn [snd].
    rewrite table_delete_links. unfold table. cbn.
    eapply ev_trans; [apply evolve_deactivate|apply ev_delete].
  - unfold Database.cleanup_old_usage_records, table. cbn. apply ev_refl.
  - unfold Database.deactivate_all_links, table. cbn.
    apply evolve_deactivate_all.
  - unfold Database.set_setting.
    destruct (Database.value_text value); cbn; apply ev_refl.
  - unfold LinkGeneratorService.deactivate_user_links, table. cbn.
    apply evolve_deactivate.
  - unfold LinkGeneratorService.cleanup_broken_links, table. cbn.
    apply evolve_deactivate.
  - unfold LinkCleanupService.cleanup_user_links, table. cbn.
    apply ev_update. intros. apply descends_set_used_at.
  - unfold LinkCleanupService.cleanup_channel_links, table. cbn.
    apply evolve_deactivate.
  - unfold LinkCleanupService.emergency_cleanup, table. cbn.
    apply evolve_deactivate.
  - unfold LinkCleanupService._cleanup_old_inactive_channels. cbn [snd].
    destruct (table_delete_channels
                (fun c => negb (ch_is_active c)
                          && (ch_updated_at c <=? pynow - 7 * 86400)) s) as [q Hq].
    rewrite Hq. apply ev_delete.
  - unfold LinkCleanupService.cleanup_specific_user_data, table. cbn.
    apply evolve_deactivate.
  - unfold LinkCleanupService.cleanup_specific_channel_data.
    match goal with
    | |- evolve _ _ _ (table (delete_channels ?p ?s2)) =>
        destruct (table_delete_channels p s2) as [q Hq]; rewrite Hq
    end.
    cbn. eapply ev_trans; apply ev_delete.
Qed.

(** ** Invariants of [evolve] *)

Lemma update_where_in (A : Type) (p : A -> bool) (f : A -> A) rows x :
  In x (Sql.update_where p f rows) ->
  exists y, In y rows /\ ((p y = false /\ x = y) \/ (p y = true /\ x = f y)).
Proof.
  unfold Sql.update_where. intros H. apply in_map_iff in H.
  destruct H as [y [Hy Hin]]. exists y. split; [exact Hin|].
  destruct (p y); auto.
Qed.

Lemma delete_where_in (A : Type) (p : A -> bool) rows x :
  In x (Sql.delete_where p rows) -> In x rows.
Proof. unfold Sql.delete_where. intros H. apply filter_In in H. tauto. Qed.

Lemma nodup_map_filter (A K : Type) (k : A -> K) (p : A -> bool) rows :
  NoDup (map k rows) -> NoDup (map k (filter p rows)).
Proof.
  induction rows as [|x rest IH]; cbn; [auto|].
  intros H. inversion H as [|? ? Hnot Hrest]; subst.
  destruct (p x); cbn; auto.
  constructor; auto.
  intros Hin. apply Hnot. apply in_map_iff in Hin.
  destruct Hin as [y [Hy Hin]]. apply filter_In in Hin.
  apply in_map_iff. exists y. tauto.
Qed.

Lemma update_where_keys (K : Type) (k : Link -> K) p f ls :
  (forall l, In l ls -> p l = true -> k (f l) = k l) ->
  map k (Sql.update_where p f ls) = map k ls.
Proof.
  intros H. unfold Sql.update_where. rewrite map_map.
  apply map_ext_in. intros l Hl. destruct (p l) eqn:E; auto.
Qed.

Lemma evolve_seq B t x y : evolve B t x y -> snd x <= snd y.
Proof. induction 1; cbn; lia. Qed.

Lemma evolve_schema B t x y :
  evolve B t x y -> schema_ok (fst x) (snd x) -> schema_ok (fst y) (snd y).
Proof.
  induction 1 as [x|ls q p f Hd|ls q p|ls q uid cid url token expire maxu now Hfr Hno HB|x y z _ IH1 _ IH2];
    cbn [fst snd]; auto.
  - intros [Hnd [Hseq Htok]]. repeat split.
    + rewrite update_where_keys; auto. intros l Hl Hp. apply (Hd l Hl Hp).
    + intros l' Hl'. apply update_where_in in Hl'.
      destruct Hl' as [y [Hy [[_ ->]|[Hp ->]]]]; auto.
      destruct (Hd y Hy Hp) as [-> _]. auto.
    + rewrite update_where_keys; auto. intros l Hl Hp. apply (Hd l Hl Hp).
  - intros [Hnd [Hseq Htok]]. repeat split.
    + apply nodup_map_filter. exact Hnd.
    + intros l Hl. apply Hseq. eapply delete_where_in. exact Hl.
    + apply nodup_map_filter. exact Htok.
  - intros [Hnd [Hseq Htok]]. repeat split.
    + rewrite map_app. cbn. apply NoDup_app; auto.
      * constructor; [intros []|constructor].
      * intros a Ha [<-|[]]. apply in_map_iff in Ha.
        destruct Ha as [l [Hl Hin]]. apply Hseq in Hin. lia.
    + intros l Hl. apply in_app_or in Hl. destruct Hl as [Hl|[<-|[]]].
      * apply Hseq in Hl. lia.
      * cbn. lia.
    + rewrite map_app. cbn. apply NoDup_app; auto.
      * constructor; [intros []|constructor].
      * intros a Ha [<-|[]]. apply in_map_iff in Ha.
        destruct Ha as [l [Hl Hin]].
        assert (existsb (fun l0 => String.eqb (link_token l0) token) ls = true).
        { apply existsb_exists. exists l. split; auto.
          rewrite Hl. apply String.eqb_refl. }
        congruence.
Qed.

Lemma usable_descends now uid cid l l' :
  descends l l' ->
  Database.is_usable now uid cid l' = true ->
  Database.is_usable now uid cid l = true.
Proof.
  unfold descends, Database.is_usable.
  intros [_ [_ [Hu [Hc [He [Hm [Ha Hcu]]]]]]] H.
  rewrite !andb_true_iff in *.
  destruct H as [[[[H1 H2] H3] H4] H5].
  rewrite Hu in H1. rewrite Hc in H2. rewrite He in H4. rewrite Hm in H5.
  apply Z.ltb_lt in H5.
  repeat split; auto. apply Z.ltb_lt. lia.
Qed.

Lemma usable_later now now' uid cid l :
  now <= now' ->
  Database.is_usable now' uid cid l = true ->
  Database.is_usable now uid cid l = true.
Proof.
  unfold Database.is_usable. intros Hle H.
  rewrite !andb_true_iff in *.
  destruct H as [[[[H1 H2] H3] H4] H5].
  apply Z.ltb_lt in H4.
  repeat split; auto. apply Z.ltb_lt. lia.
Qed.

Lemma filter_update_le (q : Link -> bool) p f ls :
  (forall l, In l ls -> p l = true -> q (f l) = true -> q l = true) ->
  (List.length (filter q (Sql.update_where p f ls)) <= List.length (filter q ls))%nat.
Proof.
  unfold Sql.update_where.
  induction ls as [|x rest IH]; cbn; [lia|].
  intros H.
  assert (IH' := IH (fun l Hl => H l (or_intror Hl))).
  destruct (p x) eqn:Hp.
  - destruct (q (f x)) eqn:Hq.
    + rewrite (H x (or_introl eq_refl) Hp Hq). cbn. lia.
    + destruct (q x); cbn; lia.
  - destruct (q x); cbn; lia.
Qed.

Lemma filter_delete_le (A : Type) (q p : A -> bool) rows :
  (List.length (filter q (Sql.delete_where p rows)) <= List.length (filter q rows))%nat.
Proof.
  unfold Sql.delete_where.
  induction rows as [|x rest IH]; cbn; [lia|].
  destruct (p x); cbn; destruct (q x); cbn; lia.
Qed.

Lemma filter_nil_later now now' uid cid ls :
  now <= now' ->
  filter (Database.is_usable now uid cid) ls = [] ->
  filter (Database.is_usable now' uid cid) ls = [].
Proof.
  intros Hle H. induction ls as [|x rest IH]; cbn in *; [reflexivity|].
  destruct (Database.is_usable now uid cid x) eqn:E; [discriminate|].
  destruct (Database.is_usable now' uid cid x) eqn:E'.
  - apply (usable_later _ _ _ Hle) in E'. congruence.
  - auto.
Qed.

Lemma evolve_unique B t x y :
  evolve B t x y -> unique_from t (fst x) -> unique_from t (fst y).
Proof.
  induction 1 as [x|ls q p f Hd|ls q p|ls q uid cid url token expire maxu now Hfr Hno HB|x y z _ IH1 _ IH2];
    cbn [fst snd]; auto.
  - intros HI now uid cid Hnow.
    eapply Nat.le_trans; [apply filter_update_le|apply HI; exact Hnow].
    intros l Hl Hp. apply usable_descends. apply Hd; auto.
  - intros HI now uid cid Hnow.
    eapply Nat.le_trans; [apply filter_delete_le|apply HI; exact Hnow].
  - intros HI now' uid' cid' Hnow.
    rewrite filter_app, length_app. cbn [filter].
    destruct (Database.is_usable now' uid' cid' _) eqn:E.
    + unfold Database.is_usable in E. cbn in E.
      rewrite !andb_true_iff in E. destruct E as [[[[E1 E2] _] _] _].
      apply Z.eqb_eq in E1, E2. subst uid' cid'.
      rewrite (filter_nil_later _ _ _ Hnow Hno). cbn. lia.
    + specialize (HI now' uid' cid' Hnow). cbn. lia.
Qed.

Lemma unique_from_later t t' ls :
  t <= t' -> unique_from t ls -> unique_from t' ls.
Proof. intros Hle H now uid cid Hnow. apply H. lia. Qed.

Lemma reachable_schema h m t s :
  reachable h m t s -> schema_ok (personal_invite_links s) (seq_links s).
Proof.
  induction 1 as [t|t s o Hr IH Ht Ha].
  - cbn. repeat split; try constructor. intros l [].
  - apply (evolve_schema (@run_evolve o s t IH)). exact IH.
Qed.

Lemma timed_started t o : timed t o -> t <= started t o /\ started t o <= after t o.
Proof.
  unfold timed, started, after. destruct (clock o) as [[a b]|]; lia.
Qed.

(** C1, for operations run one after the other.  In every state reached
    from a fresh database by the operations, each run to completion before
    the next starts, and at every instant from the latest clock reading on,
    a (user, channel) pair has at most one row of [personal_invite_links]
    that is active, unexpired and under its use limit. *)
Theorem at_most_one_usable_link :
  forall expire_hours max_uses t s,
    reachable expire_hours max_uses t s ->
    forall now uid cid, t <= now ->
      (List.length (usable_rows s now uid cid) <= 1)%nat.
Proof.
  intros h m t s Hr.
  change (unique_from t (personal_invite_links s)).
  induction Hr as [t|t s o Hr IH Ht Ha].
  - intros now uid cid _. cbn. lia.
  - destruct (timed_started _ _ Ht) as [H1 H2].
    apply (unique_from_later H2).
    apply (evolve_unique (@run_evolve o s t (reachable_schema Hr))).
    apply (unique_from_later H1). exact IH.
Qed.

Lemma demo_reachable : reachable 1 1 21 demo_store.
Proof.
  unfold demo_store, demo_ops, run_all. cbn [fold_left].
  refine (@reach_run 1 1 12 _ (Create 7 1 Refused "tok-a" 20 21 21 0) _ _ _);
    [|cbn; lia|exact I].
  refine (@reach_run 1 1 10 _ (AddOrUpdateUser 7 (Some "ann") (Some "Ann") 12) _ _ _);
    [|cbn; lia|exact I].
  refine (@reach_run 1 1 0 _ (AddChannel "-1001" "News" (Some "news") None 10) _ _ _);
    [|cbn; lia|exact I].
  apply reach_fresh.
Defined.

Lemma at_most_one_usable_link_witness :
  reachable 1 1 21 demo_store
  /\ 21 <= 30
  /\ (List.length (usable_rows demo_store 30 7 1) <= 1)%nat.
Proof.
  split; [exact demo_reachable|]. split; [lia|].
  apply (@at_most_one_usable_link 1 1 21 demo_store demo_reachable 30 7 1). lia.
Defined.

(** [_create_personal_invite_link] run without interruption is its part
    before the [await] followed at once by its part after it. *)
Lemma create_split s uid cid reply token now now' pynow today :
  LinkGeneratorService._create_personal_invite_link s uid cid reply token
    now now' pynow today
  = match LinkGeneratorAwait.create_begin s uid cid now with
    | LinkGeneratorAwait.Returned link => mkGenResult link 0 s
    | LinkGeneratorAwait.Ready link =>
        LinkGeneratorAwait.create_save s uid cid link 0 token now' pynow today
    | LinkGeneratorAwait.Awaiting channel =>
        LinkGeneratorAwait.create_resume s uid cid channel reply token
          now' pynow today
    end.
Proof.
  unfold LinkGeneratorService._create_personal_invite_link,
    LinkGeneratorAwait.create_begin, LinkGeneratorAwait.create_resume,
    LinkGeneratorAwait.create_save.
  destruct (Database.get_channel_by_id s cid) as [channel|]; [|reflexivity].
  destruct (ch_is_active channel); cbn [negb]; [|reflexivity].
  destruct (Database.get_active_personal_link s uid cid now); [reflexivity|].
  destruct (ch_bot_is_admin channel).
  - destruct (LinkGeneratorService.as_int
                (Database.get_setting s "link_expire_hours" (PyInt 1)));
      [|reflexivity].
    destruct reply; reflexivity.
  - reflexivity.
Qed.

Lemma admin_reachable : reachable 1 1 12 admin_store.
Proof.
  unfold admin_store, admin_ops, run_all. cbn [fold_left].
  refine (@reach_run 1 1 11 _ (AddOrUpdateUser 7 (Some "ann") (Some "Ann") 12) _ _ _);
    [|cbn; lia|exact I].
  refine (@reach_run 1 1 10 _ (UpdateChannel "-1001" None None None (Some true) 11)
            _ _ _); [|cbn; lia|exact I].
  refine (@reach_run 1 1 0 _ (AddChannel "-1001" "News" (Some "news") None 10) _ _ _);
    [|cbn; lia|exact I].
  apply reach_fresh.
Qed.

(** C1 as stated fails under concurrent requests.  Two
    [_create_personal_invite_link] calls for the same user and channel, on a
    channel where the bot is administrator, both run their SELECT (which
    finds nothing) and suspend in the API call before either has inserted;
    each then inserts its row, and the pair has two usable links. *)
Lemma overlapping_requests_leave_two_usable_links :
  reachable 1 1 12 admin_store
  /\ usable_rows admin_store 20 7 1 = []
  /\ LinkGeneratorAwait.create_begin admin_store 7 1 20
     = LinkGeneratorAwait.Awaiting
         (mkChannel 1 "-1001" "News" (Some "news") None true true 11)
  /\ LinkGeneratorAwait.create_begin admin_store 7 1 21
     = LinkGeneratorAwait.Awaiting
         (mkChannel 1 "-1001" "News" (Some "news") None true true 11)
  /\ (let first :=
        LinkGeneratorAwait.create_resume admin_store 7 1
          (mkChannel 1 "-1001" "News" (Some "news") None true true 11)
          (Issued "https://t.me/+one") "tok-1" 22 22 0 in
      let second :=
        LinkGeneratorAwait.create_resume (gen_db first) 7 1
          (mkChannel 1 "-1001" "News" (Some "news") None true true 11)
          (Issued "https://t.me/+two") "tok-2" 23 23 0 in
      gen_link first = Some "https://t.me/+one"
      /\ gen_link second = Some "https://t.me/+two"
      /\ map link_token (usable_rows (gen_db second) 30 7 1) = ["tok-1"; "tok-2"]
      /\ List.length (usable_rows (gen_db second) 30 7 1) = 2%nat).
Proof.
  split; [exact admin_reachable|]. repeat split.
Qed.

(** ** No reactivation *)

Lemma older_trans a b c : older a b -> older b c -> older a c.
Proof.
  unfold older. intros [H1 [H2 H3]] [H4 [H5 H6]].
  repeat split; [congruence|auto|congruence].
Qed.

Lemma evolve_origin B t x y :
  evolve B t x y ->
  forall l', In l' (fst y) ->
    (exists l, In l (fst x) /\ older l l') \/ snd x < id l'.
Proof.
  induction 1 as [x|ls q p f Hd|ls q p|ls q uid cid url token expire maxu now Hfr Hno HB|x y z H1 IH1 H2 IH2];
    cbn [fst snd]; intros l' Hl'.
  - left. exists l'. unfold older. auto.
  - left. apply update_where_in in Hl'.
    destruct Hl' as [l [Hl [[_ ->]|[Hp ->]]]]; exists l; split; auto.
    + unfold older; auto.
    + destruct (Hd l Hl Hp) as [Hid [_ [Hu [_ [_ [_ [Ha _]]]]]]].
      unfold older; auto.
  - left. exists l'. split; [eapply delete_where_in; eauto|unfold older; auto].
  - apply in_app_or in Hl'. destruct Hl' as [Hl'|[<-|[]]].
    + left. exists l'. unfold older; auto.
    + right. cbn. lia.
  - destruct (IH2 l' Hl') as [[l1 [Hl1 Ho1]]|Hnew].
    + destruct (IH1 l1 Hl1) as [[l0 [Hl0 Ho0]]|Hnew].
      * left. exists l0. split; auto. eapply older_trans; eauto.
      * right. destruct Ho1 as [Hid1 _]. lia.
    + right. apply evolve_seq in H1. lia.
Qed.

Lemma run_all_origin ops : forall s,
  schema_ok (personal_invite_links s) (seq_links s) ->
  forall l', In l' (personal_invite_links (run_all ops s)) ->
    (exists l, In l (personal_invite_links s) /\ older l l') \/ seq_links s < id l'.
Proof.
  induction ops as [|o ops IH]; intros s Hs l' Hl'.
  - left. exists l'. unfold older. auto.
  - cbn in Hl'.
    assert (Hev := @run_evolve o s 0 Hs).
    assert (Hs1 := evolve_schema Hev Hs).
    destruct (IH (run o s) Hs1 l' Hl') as [[l1 [Hl1 Ho1]]|Hnew].
    + destruct (evolve_origin Hev l1 Hl1) as [[l0 [Hl0 Ho0]]|Hnew].
      * left. exists l0. split; auto. eapply older_trans; eauto.
      * right. cbn in Hnew. destruct Ho1 as [Hid1 _]. lia.
    + right. apply evolve_seq in Hev. cbn in Hev. lia.
Qed.

(** C9.  From a reachable state on, whatever operations follow, a row of
    [personal_invite_links] that is inactive is inactive in every later
    state that still holds it (the row of the same id); and [unban_user]
    does not write [personal_invite_links] at all. *)
Theorem inactive_link_stays_inactive :
  forall expire_hours max_uses t s,
    reachable expire_hours max_uses t s ->
    (forall ops l l',
        In l (personal_invite_links s) ->
        is_active l = false ->
        In l' (personal_invite_links (run_all ops s)) ->
        id l' = id l ->
        is_active l' = false)
    /\ (forall uid,
          personal_invite_links (snd (Database.unban_user s uid))
          = personal_invite_links s).
Proof.
  intros h m t s Hr. split; [|reflexivity].
  intros ops l l' Hl Hoff Hl' Hid.
  assert (Hs := reachable_schema Hr).
  destruct (@run_all_origin ops s Hs l' Hl') as [[l0 [Hl0 [Hid0 [Ha0 _]]]]|Hnew].
  - destruct Hs as [Hnd _].
    assert (l0 = l) by (eapply nodup_id_eq; eauto; congruence). subst l0.
    destruct (is_active l') eqn:E; [|reflexivity].
    rewrite Ha0 in Hoff; [discriminate|reflexivity].
  - destruct Hs as [_ [Hseq _]]. apply Hseq in Hl. lia.
Qed.

Lemma banned_reachable : reachable 1 1 21 banned_store.
Proof.
  refine (@reach_run 1 1 21 _ (BanUser 7) _ _ _); [|exact I|exact I].
  exact demo_reachable.
Defined.

Lemma inactive_link_stays_inactive_witness :
  reachable 1 1 21 banned_store
  /\ forall l, In l (personal_invite_links
                       (run_all [UnbanUser 7; CleanupExpired 30 30] banned_store)) ->
               is_active l = false.
Proof.
  split; [exact banned_reachable|].
  intros l Hl.
  destruct (@inactive_link_stays_inactive 1 1 21 banned_store banned_reachable)
    as [H _].
  apply (H [UnbanUser 7; CleanupExpired 30 30]
           (mkLink 1 7 1 "https://t.me/news" "tok-a" 3621 1 0 false 21 None) l).
  - cbn. left. reflexivity.
  - reflexivity.
  - exact Hl.
  - cbn in Hl. destruct Hl as [<-|[]]. reflexivity.
Defined.

(** ** Refresh, reaping, channel removal *)

Lemma get_active_some s uid cid now r :
  Database.get_active_personal_link s uid cid now = Some r ->
  In r (personal_invite_links s) /\ Database.is_usable now uid cid r = true.
Proof.
  unfold Database.get_active_personal_link. intros H.
  apply newest_in in H. apply filter_In in H. exact H.
Qed.

Lemma get_active_none_iff s uid cid now :
  Database.get_active_personal_link s uid cid now = None
  <-> usable_rows s now uid cid = [].
Proof.
  unfold Database.get_active_personal_link, usable_rows. split.
  - apply newest_none.
  - intros ->. reflexivity.
Qed.

Lemma filter_nil (A : Type) (p : A -> bool) rows :
  (forall x, In x rows -> p x = false) -> filter p rows = [].
Proof.
  induction rows as [|x rest IH]; cbn; [reflexivity|].
  intros H. rewrite (H x (or_introl eq_refl)). apply IH. auto.
Qed.

Lemma usable_active now uid cid l :
  Database.is_usable now uid cid l = true ->
  user_id l = uid /\ channel_id l = cid /\ is_active l = true.
Proof.
  unfold Database.is_usable. rewrite !andb_true_iff.
  intros [[[[H1 H2] H3] _] _]. apply Z.eqb_eq in H1, H2. auto.
Qed.

Lemma get_active_none_inactive s uid cid now :
  (forall l, In l (personal_invite_links s) ->
             user_id l = uid -> channel_id l = cid -> is_active l = false) ->
  Database.get_active_personal_link s uid cid now = None.
Proof.
  intros H. apply get_active_none_iff. apply filter_nil.
  intros l Hl. destruct (Database.is_usable now uid cid l) eqn:E; [|reflexivity].
  apply usable_active in E. destruct E as [Hu [Hc Ha]].
  rewrite (H l Hl Hu Hc) in Ha. discriminate.
Qed.

Lemma deactivate_user_links_off s uid l :
  In l (personal_invite_links (LinkGeneratorService.deactivate_user_links s uid)) ->
  user_id l = uid -> is_active l = false.
Proof.
  unfold LinkGeneratorService.deactivate_user_links. cbn.
  intros Hl Hu. apply update_where_in in Hl.
  destruct Hl as [y [Hy [[Hp ->]|[_ ->]]]]; [|reflexivity].
  rewrite Hu, Z.eqb_refl in Hp. exact Hp.
Qed.



(** ** [cleanup_expired_links] *)

Lemma update_where_id (A : Type) (p : A -> bool) (f : A -> A) rows :
  (forall x, In x rows -> p x = false) -> Sql.update_where p f rows = rows.
Proof.
  unfold Sql.update_where. intros H.
  rewrite <- (map_id rows) at 2. apply map_ext_in.
  intros x Hx. rewrite (H x Hx). reflexivity.
Qed.

Lemma delete_where_id (A : Type) (p : A -> bool) rows :
  (forall x, In x rows -> p x = false) -> Sql.delete_where p rows = rows.
Proof.
  unfold Sql.delete_where. induction rows as [|x rest IH]; cbn; [reflexivity|].
  intros H. rewrite (H x (or_introl eq_refl)). cbn. f_equal. apply IH. auto.
Qed.

Lemma cleanup_rows s now pynow l :
  In l (personal_invite_links (snd (Database.cleanup_expired_links s now pynow))) ->
  ((expire_date l <=? now) && is_active l = false)
  /\ ((expire_date l <=? pynow - 3600 * (LINK_EXPIRE_HOURS s * 7))
      && negb (is_active l) = false).
Proof.
  unfold Database.cleanup_expired_links. cbn.
  intros H. unfold Sql.delete_where in H. apply filter_In in H.
  destruct H as [Hin Hdel]. apply negb_true_iff in Hdel. split; [|exact Hdel].
  apply update_where_in in Hin.
  destruct Hin as [y [_ [[Hp ->]|[_ ->]]]]; [exact Hp|].
  cbn. apply andb_false_r.
Qed.

(** C7.  [cleanup_expired_links] returns the number of rows that were
    active with [expire_date <= now]; after it no such row is left; and run
    again at the same time it returns 0 and leaves the database exactly as
    the first run left it. *)
Theorem cleanup_expired_links_idempotent :
  forall s now pynow,
    fst (Database.cleanup_expired_links s now pynow)
    = Sql.rowcount (fun l => (expire_date l <=? now) && is_active l)
        (personal_invite_links s)
    /\ (forall l,
          In l (personal_invite_links
                  (snd (Database.cleanup_expired_links s now pynow))) ->
          expire_date l <= now -> is_active l = false)
    /\ Database.cleanup_expired_links
         (snd (Database.cleanup_expired_links s now pynow)) now pynow
       = (0, snd (Database.cleanup_expired_links s now pynow)).
Proof.
  intros s now pynow. split; [reflexivity|]. split.
  - intros l Hl Hle. apply cleanup_rows in Hl. destruct Hl as [H _].
    apply Z.leb_le in Hle. rewrite Hle in H. exact H.
  - assert (Hrows := @cleanup_rows s now pynow).
    remember (snd (Database.cleanup_expired_links s now pynow)) as s1 eqn:Es1.
    assert (HL : LINK_EXPIRE_HOURS s1 = LINK_EXPIRE_HOURS s) by (subst; reflexivity).
    unfold Database.cleanup_expired_links at 1.
    unfold Sql.rowcount.
    rewrite (filter_nil _ _ (fun l Hl => proj1 (Hrows l Hl))).
    unfold delete_links. cbn [with_links personal_invite_links link_usage
                              LINK_EXPIRE_HOURS].
    rewrite (update_where_id _ _ _ (fun l Hl => proj1 (Hrows l Hl))).
    rewrite HL.
    rewrite (delete_where_id _ _ (fun l Hl => proj2 (Hrows l Hl))).
    rewrite (filter_nil _ _ (fun l Hl => proj2 (Hrows l Hl))).
    cbn [existsb].
    rewrite (delete_where_id _ (link_usage s1) (fun u _ => eq_refl)).
    cbn. f_equal. destruct s1; reflexivity.
Qed.

(** ** [remove_channel] *)

Lemma find_update_where (A : Type) (p : A -> bool) (f : A -> A) rows x :
  (forall y, p (f y) = p y) ->
  find p rows = Some x ->
  find p (Sql.update_where p f rows) = Some (f x).
Proof.
  intros Hf. unfold Sql.update_where.
  induction rows as [|y rest IH]; cbn; [discriminate|].
  destruct (p y) eqn:E.
  - intros H; inversion H; subst. rewrite Hf, E. reflexivity.
  - rewrite E. exact IH.
Qed.

(** C8.  [remove_channel] on the [chat_id] of a stored channel leaves every
    channel row of that [chat_id] and every link of that channel inactive,
    so that [get_active_personal_link] finds nothing on the channel for any
    user at any time. *)
Theorem remove_channel_cascades :
  forall s chat now ch,
    Database.get_channel_by_chat_id s chat = Some ch ->
    fst (Database.remove_channel s chat now) = true
    /\ (forall c,
          In c (channels (snd (Database.remove_channel s chat now))) ->
          ch_chat_id c = chat -> ch_is_active c = false)
    /\ (exists ch',
          Database.get_channel_by_chat_id
            (snd (Database.remove_channel s chat now)) chat = Some ch'
          /\ ch_id ch' = ch_id ch /\ ch_is_active ch' = false)
    /\ (forall l,
          In l (personal_invite_links (snd (Database.remove_channel s chat now))) ->
          channel_id l = ch_id ch -> is_active l = false)
    /\ (forall uid t,
          Database.get_active_personal_link
            (snd (Database.remove_channel s chat now)) uid (ch_id ch) t = None).
Proof.
  intros s chat now ch Hch.
  set (off := fun c : Channel =>
         mkChannel (ch_id c) (ch_chat_id c) (ch_title c) (ch_username c)
           (ch_invite_link c) false (ch_bot_is_admin c) now).
  assert (Hfind : Database.get_channel_by_chat_id
            (with_channels s
               (Sql.update_where (fun c => String.eqb (ch_chat_id c) chat) off
                  (channels s)) (seq_channels s)) chat = Some (off ch)).
  { unfold Database.get_channel_by_chat_id, Sql.fetchone. cbn.
    apply find_update_where; [reflexivity|exact Hch]. }
  assert (Hlinks : forall l,
            In l (personal_invite_links (snd (Database.remove_channel s chat now))) ->
            channel_id l = ch_id ch -> is_active l = false).
  { unfold Database.remove_channel. cbn [snd]. fold off. rewrite Hfind.
    cbn. intros l Hl Hc. apply update_where_in in Hl.
    destruct Hl as [y [_ [[Hp ->]|[_ ->]]]]; [|reflexivity].
    rewrite Hc, Z.eqb_refl in Hp. discriminate. }
  split; [reflexivity|]. split; [|split; [|split]].
  - unfold Database.remove_channel. cbn. intros c Hc Hchat.
    apply update_where_in in Hc.
    destruct Hc as [y [_ [[Hp ->]|[_ ->]]]]; [|reflexivity].
    rewrite Hchat, String.eqb_refl in Hp. discriminate.
  - exists (off ch). split; [|split; reflexivity].
    unfold Database.remove_channel. cbn [snd]. fold off.
    unfold Database.get_channel_by_chat_id in *. cbn in *. exact Hfind.
  - exact Hlinks.
  - intros uid t. apply get_active_none_inactive.
    intros l Hl _ Hc. apply Hlinks; auto.
Qed.

Lemma remove_channel_cascades_witness :
  Database.get_channel_by_chat_id two_link_store "-1001"
  = Some (mkChannel 1 "-1001" "News" (Some "news") None true false 10)
  /\ List.length (filter is_active (personal_invite_links two_link_store)) = 2%nat
  /\ (forall l,
        In l (personal_invite_links
                (snd (Database.remove_channel two_link_store "-1001" 40))) ->
        is_active l = false)
  /\ Database.get_active_personal_link
       (snd (Database.remove_channel two_link_store "-1001" 40)) 7 1 40 = None
  /\ Database.get_active_personal_link
       (snd (Database.remove_channel two_link_store "-1001" 40)) 8 1 40 = None.
Proof.
  assert (H0 : Database.get_channel_by_chat_id two_link_store "-1001"
               = Some (mkChannel 1 "-1001" "News" (Some "news") None true false 10))
    by reflexivity.
  destruct (@remove_channel_cascades two_link_store "-1001" 40 _ H0)
    as [_ [_ [_ [Hl Hg]]]].
  split; [exact H0|]. split; [reflexivity|]. split; [|split; apply Hg].
  intros l Hin. apply Hl; [exact Hin|].
  cbn in Hin. destruct Hin as [<-|[<-|[]]]; reflexivity.
Defined.

(** ** [use_personal_link] *)

Lemma use_select s uid token now today :
  Database.use_personal_link s uid token now today
  = match Sql.fetchone (matches token now) (personal_invite_links s) with
    | None => mkUseResult false LogNotFoundOrExpired [] s
    | Some row =>
        if max_uses row <=? current_uses row
        then mkUseResult false LogLimitExceeded [] s
        else
          let s1 :=
            with_usage
              (with_links s
                 (let ls1 := Sql.update_where (fun l => id l =? id row)
                               (set_uses (current_uses row + 1) now)
                               (personal_invite_links s) in
                  if max_uses row <=? current_uses row + 1
                  then Sql.update_where (fun l => id l =? id row)
                         (set_active false) ls1
                  else ls1))
              (link_usage s ++ [mkLinkUsage (id row) uid now true None]) in
          let s2 :=
            match Sql.fetchone (fun l => id l =? id row) (personal_invite_links s1) with
            | Some r => Database._update_channel_stats s1 (channel_id r) LinksUsed 1 today
            | None => s1
            end in
          mkUseResult true LogUsed [s1; s2] s2
    end.
Proof. reflexivity. Qed.

Lemma nodup_token_eq (ls : list Link) (a b : Link) :
  NoDup (map link_token ls) -> In a ls -> In b ls ->
  link_token a = link_token b -> a = b.
Proof.
  induction ls as [|x rest IH]; cbn; [tauto|].
  intros Hnd Ha Hb Heq. inversion Hnd as [|? ? Hnot Hrest]; subst.
  destruct Ha as [->|Ha], Hb as [->|Hb]; auto.
  - exfalso. apply Hnot. rewrite Heq. apply in_map. exact Hb.
  - exfalso. apply Hnot. rewrite <- Heq. apply in_map. exact Ha.
Qed.

Lemma matches_spec token now l :
  matches token now l = true
  <-> link_token l = token /\ is_active l = true /\ now < expire_date l.
Proof.
  unfold matches. rewrite !andb_true_iff, String.eqb_eq, Z.ltb_lt. tauto.
Qed.

(** With [link_token] UNIQUE the SELECT finds the one row of the token. *)
Lemma fetch_by_token ls q token now row :
  schema_ok ls q -> In row ls -> matches token now row = true ->
  Sql.fetchone (matches token now) ls = Some row.
Proof.
  intros [_ [_ Htok]] Hin Hm. unfold Sql.fetchone.
  destruct (find (matches token now) ls) as [r|] eqn:E.
  - apply find_some in E. destruct E as [Hr Hmr].
    apply matches_spec in Hm, Hmr. f_equal.
    eapply nodup_token_eq; eauto. destruct Hm, Hmr. congruence.
  - rewrite (find_none _ _ E row Hin) in Hm. discriminate.
Qed.

(** C4, as the code has it.  [use_personal_link] returns [False] both when
    no active, unexpired row carries the token and when the row it finds is
    already at its limit; the two cases differ in the logged warning only
    ("not found or expired", "limit exceeded").  Either way nothing is
    committed and the store, [link_usage] included, is as before.
    Conversely a call that returns [False] is one of these two cases. *)
Theorem use_personal_link_rejection :
  forall s uid token now today,
    ((forall l, In l (personal_invite_links s) -> matches token now l = false) ->
     Database.use_personal_link s uid token now today
     = mkUseResult false LogNotFoundOrExpired [] s)
    /\ (forall row,
          Sql.fetchone (matches token now) (personal_invite_links s) = Some row ->
          max_uses row <= current_uses row ->
          Database.use_personal_link s uid token now today
          = mkUseResult false LogLimitExceeded [] s)
    /\ (forall row,
          schema_ok (personal_invite_links s) (seq_links s) ->
          In row (personal_invite_links s) ->
          link_token row = token ->
          is_active row = true ->
          now < expire_date row ->
          max_uses row <= current_uses row ->
          Database.use_personal_link s uid token now today
          = mkUseResult false LogLimitExceeded [] s)
    /\ (use_ok (Database.use_personal_link s uid token now today) = false ->
        use_db (Database.use_personal_link s uid token now today) = s
        /\ use_commits (Database.use_personal_link s uid token now today) = []
        /\ ((use_log (Database.use_personal_link s uid token now today)
             = LogNotFoundOrExpired
             /\ forall l, In l (personal_invite_links s) ->
                          matches token now l = false)
            \/ (use_log (Database.use_personal_link s uid token now today)
                = LogLimitExceeded
                /\ exists row,
                     In row (personal_invite_links s)
                     /\ matches token now row = true
                     /\ max_uses row <= current_uses row))).
Proof.
  intros s uid token now today.
  assert (Hlim : forall row,
             Sql.fetchone (matches token now) (personal_invite_links s) = Some row ->
             max_uses row <= current_uses row ->
             Database.use_personal_link s uid token now today
             = mkUseResult false LogLimitExceeded [] s).
  { intros row Hrow Hle. rewrite use_select, Hrow.
    replace (max_uses row <=? current_uses row) with true
      by (symmetry; apply Z.leb_le; exact Hle).
    reflexivity. }
  split; [|split; [|split]].
  - intros Hnone. rewrite use_select.
    destruct (Sql.fetchone _ _) as [row|] eqn:Hrow; [|reflexivity].
    apply find_some in Hrow. destruct Hrow as [Hin Hm].
    rewrite (Hnone row Hin) in Hm. discriminate.
  - exact Hlim.
  - intros row Hs Hin Htok Hact Hexp Hle. apply (Hlim row); [|exact Hle].
    apply (@fetch_by_token _ (seq_links s) token now row Hs Hin).
    apply matches_spec. auto.
  - rewrite use_select.
    destruct (Sql.fetchone _ _) as [row|] eqn:Hrow.
    + destruct (max_uses row <=? current_uses row) eqn:Hl; cbn; [|discriminate].
      intros _. split; [reflexivity|]. split; [reflexivity|]. right.
      split; [reflexivity|]. exists row.
      apply find_some in Hrow. apply Z.leb_le in Hl. tauto.
    + cbn. intros _. split; [reflexivity|]. split; [reflexivity|]. left.
      split; [reflexivity|]. intros l Hl.
      exact (find_none _ _ Hrow l Hl).
Qed.

Lemma use_personal_link_rejection_witness :
  Database.use_personal_link zero_limit_store 9 "no-such-token" 30 0
  = mkUseResult false LogNotFoundOrExpired [] zero_limit_store
  /\ Database.use_personal_link zero_limit_store 9 "tok-z" 30 0
     = mkUseResult false LogLimitExceeded [] zero_limit_store
  /\ In (mkLink 1 7 1 "https://t.me/news" "tok-z" 3621 0 0 true 21 None)
       (personal_invite_links zero_limit_store).
Proof.
  split; [|split].
  - apply (proj1 (@use_personal_link_rejection zero_limit_store 9 "no-such-token"
                    30 0)).
    intros l [<-|[]]. reflexivity.
  - apply (proj1 (proj2 (proj2 (@use_personal_link_rejection zero_limit_store 9
                                   "tok-z" 30 0)))
             (mkLink 1 7 1 "https://t.me/news" "tok-z" 3621 0 0 true 21 None)).
    + cbn. repeat split.
      * repeat constructor; cbn; intuition.
      * intros l [<-|[]]. cbn. lia.
      * repeat constructor; cbn; intuition.
    + left. reflexivity.
    + reflexivity.
    + reflexivity.
    + cbn. lia.
    + cbn. lia.
  - left. reflexivity.
Defined.

(** C4 as stated fails: the unknown token and the exhausted token get the
    same return value, and neither rejection leaves a row in
    [link_usage]. *)
Lemma rejected_use_leaves_no_usage_event :
  use_log (Database.use_personal_link zero_limit_store 9 "no-such-token" 30 0)
    = LogNotFoundOrExpired
  /\ use_log (Database.use_personal_link zero_limit_store 9 "tok-z" 30 0)
     = LogLimitExceeded
  /\ use_ok (Database.use_personal_link zero_limit_store 9 "no-such-token" 30 0)
     = use_ok (Database.use_personal_link zero_limit_store 9 "tok-z" 30 0)
  /\ link_usage
       (use_db (Database.use_personal_link zero_limit_store 9 "no-such-token" 30 0))
     = []
  /\ link_usage
       (use_db (Database.use_personal_link zero_limit_store 9 "tok-z" 30 0))
     = [].
Proof. repeat split. Qed.

Lemma use_rows ls row now :
  NoDup (map id ls) -> In row ls -> is_active row = true ->
  (if max_uses row <=? current_uses row + 1
   then Sql.update_where (fun l => id l =? id row) (set_active false)
          (Sql.update_where (fun l => id l =? id row)
             (set_uses (current_uses row + 1) now) ls)
   else Sql.update_where (fun l => id l =? id row)
          (set_uses (current_uses row + 1) now) ls)
  = map (fun l => if id l =? id row then consumed now row else l) ls.
Proof.
  intros Hnd Hin Hact. cbn zeta. unfold Sql.update_where.
  destruct (max_uses row <=? current_uses row + 1) eqn:Hmax.
  - rewrite map_map. apply map_ext_in. intros l Hl.
    destruct (id l =? id row) eqn:E.
    + apply Z.eqb_eq in E.
      assert (l = row) by (eapply nodup_id_eq; eauto). subst l.
      cbn. rewrite Z.eqb_refl. unfold consumed, set_active, set_uses. cbn.
      rewrite Hmax. reflexivity.
    + rewrite E. reflexivity.
  - apply map_ext_in. intros l Hl.
    destruct (id l =? id row) eqn:E; [|reflexivity].
    apply Z.eqb_eq in E.
    assert (l = row) by (eapply nodup_id_eq; eauto). subst l.
    unfold consumed, set_uses. rewrite Hmax, Hact. reflexivity.
Qed.

Lemma find_consumed ls row now :
  In row ls ->
  find (fun l => id l =? id row)
    (map (fun l => if id l =? id row then consumed now row else l) ls)
  = Some (consumed now row).
Proof.
  induction ls as [|x rest IH]; cbn; [tauto|].
  intros Hin. destruct (id x =? id row) eqn:E.
  - cbn. rewrite Z.eqb_refl. reflexivity.
  - rewrite E. apply IH. destruct Hin as [->|Hin]; [|exact Hin].
    rewrite Z.eqb_refl in E. discriminate.
Qed.

Lemma find_app_none (A : Type) (p : A -> bool) rows x :
  find p rows = None -> find p (rows ++ [x]) = if p x then Some x else None.
Proof.
  induction rows as [|y rest IH]; cbn; [reflexivity|].
  destruct (p y); [discriminate|exact IH].
Qed.

(** [_update_channel_stats] adds [inc] to the counter of the day, creating
    the day's row when the channel has none yet. *)
Lemma update_channel_stats_value s cid stat inc today :
  Database.get_channel_by_id s cid <> None ->
  stat_value (Database._update_channel_stats s cid stat inc today) cid today stat
  = stat_value s cid today stat + inc.
Proof.
  intros Hch. unfold Database._update_channel_stats, stat_value.
  set (here := fun r => (cs_channel_id r =? cid) && (cs_date r =? today)).
  unfold Sql.fetchone.
  destruct (find here (channel_stats s)) as [r0|] eqn:E.
  - cbn. rewrite (find_update_where here (Database.bump stat inc) (channel_stats s) (x:=r0)); auto.
    + destruct stat; reflexivity.
    + intros y. destruct stat; reflexivity.
  - destruct (Database.get_channel_by_id s cid); [|congruence].
    cbn. rewrite (find_app_none _ _ _ E).
    unfold here at 1. destruct stat; cbn; rewrite !Z.eqb_refl; cbn; lia.
Qed.

Lemma update_channel_stats_frame s cid stat inc today :
  personal_invite_links (Database._update_channel_stats s cid stat inc today)
  = personal_invite_links s
  /\ link_usage (Database._update_channel_stats s cid stat inc today) = link_usage s
  /\ channels (Database._update_channel_stats s cid stat inc today) = channels s
  /\ users (Database._update_channel_stats s cid stat inc today) = users s
  /\ bot_settings (Database._update_channel_stats s cid stat inc today)
     = bot_settings s.
Proof.
  unfold Database._update_channel_stats.
  destruct (Sql.fetchone _ _); [cbn; auto|].
  destruct (Database.get_channel_by_id s cid); cbn; auto.
Qed.

(** C3, as the code has it.  On a token whose row is active, unexpired and
    under its limit, [use_personal_link] returns [True] after two commits.
    The first holds the row with [current_uses] one higher, [used_at] set
    and [is_active] cleared exactly when the new count reaches [max_uses],
    every other row as it was, and one more [link_usage] row; the counters
    are still as before.  The second adds one to [links_used] of the link's
    channel for the day and changes nothing else in the two tables. *)
Theorem use_personal_link_success :
  forall s uid token now today row,
    schema_ok (personal_invite_links s) (seq_links s) ->
    In row (personal_invite_links s) ->
    link_token row = token ->
    is_active row = true ->
    now < expire_date row ->
    current_uses row < max_uses row ->
    Database.get_channel_by_id s (channel_id row) <> None ->
    use_ok (Database.use_personal_link s uid token now today) = true
    /\ exists s1 s2,
         use_commits (Database.use_personal_link s uid token now today) = [s1; s2]
         /\ use_db (Database.use_personal_link s uid token now today) = s2
         /\ personal_invite_links s1
            = map (fun l => if id l =? id row then consumed now row else l)
                (personal_invite_links s)
         /\ current_uses (consumed now row) = current_uses row + 1
         /\ used_at (consumed now row) = Some now
         /\ (is_active (consumed now row) = false
             <-> current_uses row + 1 = max_uses row)
         /\ link_usage s1
            = link_usage s ++ [mkLinkUsage (id row) uid now true None]
         /\ channel_stats s1 = channel_stats s
         /\ personal_invite_links s2 = personal_invite_links s1
         /\ link_usage s2 = link_usage s1
         /\ stat_value s2 (channel_id row) today LinksUsed
            = stat_value s (channel_id row) today LinksUsed + 1.
Proof.
  intros s uid token now today row Hs Hin Htok Hact Hexp Hlim Hch.
  assert (Hm : matches token now row = true)
    by (apply matches_spec; auto).
  rewrite use_select. rewrite (@fetch_by_token _ _ _ _ _ Hs Hin Hm).
  assert (Hlim' : (max_uses row <=? current_uses row) = false)
    by (apply Z.leb_gt; exact Hlim).
  rewrite Hlim'. cbn zeta. cbn [use_ok use_commits use_db].
  split; [reflexivity|].
  destruct Hs as [Hnd _].
  rewrite (@use_rows _ _ now Hnd Hin Hact).
  cbn [personal_invite_links with_usage with_links].
  unfold Sql.fetchone. rewrite (@find_consumed _ _ now Hin).
  cbn [channel_id consumed].
  eexists. eexists. split; [reflexivity|]. split; [reflexivity|].
  cbn [personal_invite_links with_usage with_links link_usage channel_stats].
  destruct (update_channel_stats_frame
              (with_usage
                 (with_links s
                    (map (fun l => if id l =? id row then consumed now row else l)
                       (personal_invite_links s)))
                 (link_usage s ++ [mkLinkUsage (id row) uid now true None]))
              (channel_id row) LinksUsed 1 today) as [F1 [F2 _]].
  repeat split; auto.
  - cbn. rewrite negb_false_iff, Z.leb_le. lia.
  - cbn. rewrite negb_false_iff, Z.leb_le. lia.
  - rewrite update_channel_stats_value; [reflexivity|exact Hch].
Qed.

Lemma use_personal_link_success_witness :
  schema_ok (personal_invite_links demo_store) (seq_links demo_store)
  /\ use_ok (Database.use_personal_link demo_store 9 "tok-a" 30 0) = true.
Proof.
  assert (Hs := reachable_schema demo_reachable).
  split; [exact Hs|].
  refine (proj1 (@use_personal_link_success demo_store 9 "tok-a" 30 0
                   (mkLink 1 7 1 "https://t.me/news" "tok-a" 3621 1 0 true 21 None)
                   Hs _ _ _ _ _ _)).
  - cbn. left. reflexivity.
  - reflexivity.
  - reflexivity.
  - cbn. lia.
  - cbn. lia.
  - cbn. discriminate.
Defined.

(** C3 as stated fails: the operation is two transactions.  After the first
    commit the link is consumed and the usage row is there, while
    [links_used] of the day is still 0; only the second commit raises it. *)
Lemma use_personal_link_commits_twice :
  exists s1 s2,
    use_commits (Database.use_personal_link demo_store 9 "tok-a" 30 0) = [s1; s2]
    /\ map current_uses (personal_invite_links s1) = [1]
    /\ map is_active (personal_invite_links s1) = [false]
    /\ List.length (link_usage s1) = 1%nat
    /\ stat_value s1 1 0 LinksUsed = 0
    /\ stat_value s2 1 0 LinksUsed = 1
    /\ s1 <> s2.
Proof.
  eexists. eexists. split; [reflexivity|].
  repeat split. intros H.
  apply (f_equal (fun s => stat_value s 1 0 LinksUsed)) in H.
  cbn in H. discriminate.
Qed.

(** ** [_create_personal_invite_link] *)

Lemma base_link_nonempty c : String.eqb (Database.base_link c) EmptyString = false.
Proof.
  unfold Database.base_link.
  destruct (ch_invite_link c) as [l|].
  - destruct (String.eqb l EmptyString) eqn:E; [reflexivity|exact E].
  - reflexivity.
Qed.

Lemma create_unfold s uid cid channel reply token now now' pynow today :
  Database.get_channel_by_id s cid = Some channel ->
  ch_is_active channel = true ->
  LinkGeneratorService._create_personal_invite_link s uid cid reply token
    now now' pynow today
  = match Database.get_active_personal_link s uid cid now with
    | Some existing => mkGenResult (Some (invite_link existing)) 0 s
    | None =>
        match LinkGeneratorService.as_int
                (Database.get_setting s "link_expire_hours" (PyInt 1)),
              LinkGeneratorService.as_int
                (Database.get_setting s "max_link_uses" (PyInt 1)) with
        | Some h, Some m =>
            match offered channel reply with
            | Some link =>
                if String.eqb link EmptyString then
                  mkGenResult None (if ch_bot_is_admin channel then 1 else 0) s
                else
                  match Database.insert_link s uid cid link token
                          (pynow + 3600 * h) m now' with
                  | Some s1 =>
                      mkGenResult (Some link)
                        (if ch_bot_is_admin channel then 1 else 0)
                        (Database._update_channel_stats s1 cid LinksGenerated 1 today)
                  | None =>
                      mkGenResult None (if ch_bot_is_admin channel then 1 else 0) s
                  end
            | None => mkGenResult None 1 s
            end
        | None, _ => mkGenResult None 0 s
        | Some h, None =>
            mkGenResult None (if ch_bot_is_admin channel then 1 else 0) s
        end
    end.
Proof.
  intros Hch Hact.
  unfold LinkGeneratorService._create_personal_invite_link, offered.
  rewrite Hch, Hact. cbn [negb].
  destruct (Database.get_active_personal_link s uid cid now); [reflexivity|].
  destruct (LinkGeneratorService.as_int
              (Database.get_setting s "link_expire_hours" (PyInt 1))) as [h|];
    destruct (LinkGeneratorService.as_int
                (Database.get_setting s "max_link_uses" (PyInt 1))) as [m|];
    destruct (ch_bot_is_admin channel); try reflexivity;
    try (destruct reply; try reflexivity;
         match goal with
         | |- context [String.eqb ?l EmptyString] => destruct (String.eqb l EmptyString); reflexivity
         end);
    try (rewrite base_link_nonempty; reflexivity).
Qed.

Lemma insert_link_ok s uid cid url token expire maxu now :
  existsb (fun u => u_user_id u =? uid) (users s) = true ->
  existsb (fun c => ch_id c =? cid) (channels s) = true ->
  existsb (fun l => String.eqb (link_token l) token) (personal_invite_links s) = false ->
  Database.insert_link s uid cid url token expire maxu now
  = Some (mkStore (LINK_EXPIRE_HOURS s) (MAX_LINK_USES s) (channels s) (users s)
            (personal_invite_links s
               ++ [mkLink (seq_links s + 1) uid cid url token expire maxu 0 true now None])
            (link_usage s) (channel_stats s) (bot_settings s) (seq_channels s)
            (seq_links s + 1)).
Proof.
  intros H1 H2 H3. unfold Database.insert_link. rewrite H1, H2, H3. reflexivity.
Qed.

Lemma channel_by_id_exists s cid channel :
  Database.get_channel_by_id s cid = Some channel ->
  existsb (fun c => ch_id c =? cid) (channels s) = true.
Proof.
  unfold Database.get_channel_by_id, Sql.fetchone. intros H.
  apply find_some in H. apply existsb_exists. exists channel. exact H.
Qed.




(** ** Integers through [json.dumps] and [json.loads] *)

Module JsonFacts.
Import Chars Json.

Lemma digit_val_chr_ok :
  digit_val (digit_chr 0) = 0 /\ digit_val (digit_chr 1) = 1
  /\ digit_val (digit_chr 2) = 2 /\ digit_val (digit_chr 3) = 3
  /\ digit_val (digit_chr 4) = 4 /\ digit_val (digit_chr 5) = 5
  /\ digit_val (digit_chr 6) = 6 /\ digit_val (digit_chr 7) = 7
  /\ digit_val (digit_chr 8) = 8 /\ digit_val (digit_chr 9) = 9.
Proof. repeat split. Qed.

Lemma digits_acc_uint d : forall acc,
  digits_to_Z_acc (Z.pos acc) (uint_digits d) = Z.pos (Pos.of_uint_acc d acc).
Proof.
  induction d; intros acc; cbn [uint_digits digits_to_Z_acc Pos.of_uint_acc];
    try reflexivity;
    match goal with
    | |- digits_to_Z_acc (10 * Z.pos acc + ?k) _ = _ =>
        let v := eval vm_compute in k in change k with v
    end;
    rewrite <- IHd; f_equal; lia.
Qed.

Lemma digits_uint d :
  digits_to_Z (uint_digits d) = Z.of_N (Pos.of_uint d).
Proof.
  unfold digits_to_Z.
  induction d; cbn [uint_digits digits_to_Z_acc Pos.of_uint]; try reflexivity;
    try (exact IHd);
    match goal with
    | |- digits_to_Z_acc (10 * 0 + ?k) _ = _ =>
        let v := eval vm_compute in k in change (10 * 0 + k) with v
    end;
    cbn [Z.of_N]; apply digits_acc_uint.
Qed.

Lemma digits_of_pos p : digits_to_Z (uint_digits (Pos.to_uint p)) = Z.pos p.
Proof. rewrite digits_uint, DecimalPos.Unsigned.of_to. reflexivity. Qed.

Lemma uint_digits_all d : forallb is_digit (uint_digits d) = true.
Proof. induction d; cbn [uint_digits forallb]; try reflexivity; exact IHd. Qed.

Lemma span_all_digits ds rest :
  forallb is_digit ds = true ->
  match rest with [] => True | c :: _ => is_digit c = false end ->
  span_digits (ds ++ rest) = (ds, rest).
Proof.
  induction ds as [|c r IH]; cbn [app forallb span_digits]; intros Hd Hrest.
  - destruct rest as [|c r]; [reflexivity|]. cbn. rewrite Hrest. reflexivity.
  - apply andb_true_iff in Hd. destruct Hd as [Hc Hr].
    rewrite Hc, (IH Hr Hrest). reflexivity.
Qed.

Lemma nzhead_head d :
  match Decimal.nzhead d with Decimal.D0 _ => False | _ => True end.
Proof. induction d; cbn; auto. Qed.

(** The decimal digits of a positive number start with a non-zero digit. *)
Lemma pos_digits_head p :
  exists c r, uint_digits (Pos.to_uint p) = c :: r
              /\ is_digit c = true /\ (code c =? 48) = false.
Proof.
  assert (Hn : Pos.to_uint p = Decimal.unorm (Pos.to_uint p)).
  { rewrite <- DecimalPos.Unsigned.to_of, DecimalPos.Unsigned.of_to. reflexivity. }
  assert (Hnz := DecimalPos.Unsigned.to_uint_nonzero p).
  assert (Hh := nzhead_head (Pos.to_uint p)).
  unfold Decimal.unorm in Hn.
  destruct (Decimal.nzhead (Pos.to_uint p)) eqn:E;
    try (rewrite Hn; cbn [uint_digits]; eexists; eexists;
         split; [reflexivity|split; reflexivity]).
  - exfalso. apply Hnz. exact Hn.
  - contradiction.
Qed.
Lemma scan_frac_tail rest : tail_ok rest -> scan_frac rest = None.
Proof.
  destruct rest as [|p [|c r]]; cbn; auto.
  intros [_ [H _]]. rewrite H. reflexivity.
Qed.

Lemma scan_exp_tail rest : tail_ok rest -> scan_exp rest = None.
Proof.
  destruct rest as [|e r]; cbn; auto.
  intros [_ [_ [H1 H2]]]. rewrite H1, H2. reflexivity.
Qed.

Lemma tail_ok_digit rest :
  tail_ok rest -> match rest with [] => True | c :: _ => is_digit c = false end.
Proof. destruct rest; cbn; tauto. Qed.

Lemma digit_not_minus c : is_digit c = true -> (code c =? 45) = false.
Proof.
  unfold is_digit. rewrite andb_true_iff, !Z.leb_le. intros H.
  apply Z.eqb_neq. lia.
Qed.

Lemma scan_number_int z rest :
  tail_ok rest -> scan_number (Z_to_digits z ++ rest) = Some (PyInt z, rest).
Proof.
  intros Ht.
  assert (Hpos : forall p,
    scan_int_part (uint_digits (Pos.to_uint p) ++ rest)
    = Some (uint_digits (Pos.to_uint p), rest)
    /\ exists c r, uint_digits (Pos.to_uint p) = c :: r /\ (code c =? 45) = false).
  { intros p. destruct (pos_digits_head p) as [c [r [E [Hd Hz]]]].
    assert (Hall := uint_digits_all (Pos.to_uint p)).
    rewrite E in *. cbn [app forallb] in *. apply andb_true_iff in Hall.
    split.
    - unfold scan_int_part. rewrite Hz, Hd.
      rewrite (span_all_digits _ _ (proj2 Hall) (tail_ok_digit _ Ht)). reflexivity.
    - exists c, r. split; [reflexivity|]. apply digit_not_minus. exact Hd. }
  destruct z as [|p|p]; unfold scan_number.
  - cbn [Z_to_digits app].
    change (code (digit_chr 0) =? 45) with false. cbn iota.
    unfold scan_int_part. change (code (digit_chr 0) =? 48) with true. cbn iota.
    rewrite (scan_frac_tail _ Ht), (scan_exp_tail _ Ht). reflexivity.
  - cbn [Z_to_digits]. destruct (Hpos p) as [Hsp [c [r [E Hm]]]].
    rewrite E in *. cbn [app] in *. rewrite Hm. cbn iota.
    rewrite Hsp, (scan_frac_tail _ Ht), (scan_exp_tail _ Ht).
    rewrite <- E, digits_of_pos. reflexivity.
  - cbn [Z_to_digits app]. change (code "-" =? 45) with true. cbn iota.
    destruct (Hpos p) as [Hsp _].
    rewrite Hsp, (scan_frac_tail _ Ht), (scan_exp_tail _ Ht).
    rewrite digits_of_pos. reflexivity.
Qed.

Lemma scan_once_number f c r res :
  is_digit c = true \/ code c = 45 ->
  scan_number (c :: r) = Some res ->
  scan_once (S f) (c :: r) = Some res.
Proof.
  intros H Hnum.
  destruct c as [[] [] [] [] [] [] [] []];
    try (exfalso; destruct H as [H|H]; vm_compute in H; discriminate);
    cbn -[scan_number]; rewrite Hnum; reflexivity.
Qed.

Lemma digits_head z :
  exists c r, Z_to_digits z = c :: r /\ (is_digit c = true \/ code c = 45).
Proof.
  destruct z as [|p|p]; cbn [Z_to_digits].
  - eexists; eexists; split; [reflexivity|left; reflexivity].
  - destruct (pos_digits_head p) as [c [r [E [Hd _]]]]. eauto.
  - eexists; eexists; split; [reflexivity|right; reflexivity].
Qed.

Lemma number_head_not_ws c :
  is_digit c = true \/ code c = 45 -> is_ws c = false.
Proof.
  unfold is_digit, is_ws. intros [H|H].
  - apply andb_true_iff in H. rewrite !Z.leb_le in H.
    rewrite !orb_false_iff, !Z.eqb_neq. lia.
  - rewrite H. reflexivity.
Qed.

(** [json.loads(json.dumps(z))] is [z] for every integer. *)
Lemma loads_dumps_int z :
  loads (string_of_list_ascii (Z_to_digits z)) = Some (PyInt z).
Proof.
  unfold loads. rewrite list_ascii_of_string_of_list_ascii.
  destruct (digits_head z) as [c [r [E H]]].
  assert (Hnum := @scan_number_int z [] I).
  rewrite List.app_nil_r in Hnum. rewrite E in *.
  cbn [skip_ws]. rewrite (number_head_not_ws _ H).
  replace (2 * List.length (c :: r) + 2)%nat
    with (S (2 * List.length (c :: r) + 1))%nat by lia.
  rewrite (scan_once_number _ _ _ H Hnum). reflexivity.
Qed.

End JsonFacts.

(** ** Settings *)

Lemma find_delete_none (A : Type) (p : A -> bool) rows :
  find p (Sql.delete_where p rows) = None.
Proof.
  unfold Sql.delete_where. induction rows as [|x rest IH]; cbn; [reflexivity|].
  destruct (p x) eqn:E; cbn; [exact IH|]. rewrite E. exact IH.
Qed.

Lemma find_delete_other (A : Type) (p q : A -> bool) rows :
  (forall x, p x = true -> q x = false) ->
  find p (Sql.delete_where q rows) = find p rows.
Proof.
  intros H. unfold Sql.delete_where.
  induction rows as [|x rest IH]; cbn; [reflexivity|].
  destruct (q x) eqn:E; cbn.
  - destruct (p x) eqn:E'; [|exact IH]. rewrite (H x E') in E. discriminate.
  - destruct (p x); [reflexivity|exact IH].
Qed.

Lemma find_app_some (A : Type) (p : A -> bool) rows tl x :
  find p rows = Some x -> find p (rows ++ tl) = Some x.
Proof.
  induction rows as [|y rest IH]; cbn; [discriminate|].
  destruct (p y); auto.
Qed.

(** Reading back what was just written decodes the stored text. *)
Lemma get_after_set s key value text d :
  Database.value_text value = Some text ->
  fst (Database.set_setting s key value) = true
  /\ Database.get_setting (snd (Database.set_setting s key value)) key d
     = Database.decode_setting text.
Proof.
  intros Hv. unfold Database.set_setting, Database.get_setting. rewrite Hv.
  cbn [fst snd bot_settings with_settings]. split; [reflexivity|].
  unfold Sql.fetchone.
  rewrite (@find_app_none _ _ _ (key, text)
             (find_delete_none (fun kv => String.eqb (fst kv) key) (bot_settings s))).
  cbn [fst]. rewrite String.eqb_refl. reflexivity.
Qed.

Lemma get_after_set_other s key value key' d :
  key' <> key ->
  Database.get_setting (snd (Database.set_setting s key value)) key' d
  = Database.get_setting s key' d.
Proof.
  intros Hne. unfold Database.set_setting, Database.get_setting.
  destruct (Database.value_text value) as [text|]; [|reflexivity].
  cbn [snd bot_settings with_settings]. unfold Sql.fetchone.
  assert (Hd : find (fun kv : string * string => String.eqb (fst kv) key')
                 (Sql.delete_where (fun kv => String.eqb (fst kv) key) (bot_settings s))
               = find (fun kv => String.eqb (fst kv) key') (bot_settings s)).
  { apply find_delete_other. intros x Hx. apply String.eqb_eq in Hx.
    apply String.eqb_neq. congruence. }
  destruct (find (fun kv => String.eqb (fst kv) key') (bot_settings s)) as [row|] eqn:E.
  - rewrite (find_app_some _ _ _ Hd). reflexivity.
  - rewrite (@find_app_none _ _ _ (key, text) Hd). cbn [fst].
    replace (String.eqb key key') with false; [reflexivity|].
    symmetry. apply String.eqb_neq. congruence.
Qed.

Lemma decode_int z :
  Database.decode_setting (string_of_list_ascii (Chars.Z_to_digits z)) = PyInt z.
Proof.
  unfold Database.decode_setting. rewrite JsonFacts.loads_dumps_int. reflexivity.
Qed.

Lemma run_frame o s :
  MAX_LINK_USES (run o s) = MAX_LINK_USES s
  /\ LINK_EXPIRE_HOURS (run o s) = LINK_EXPIRE_HOURS s
  /\ (match o with SetSetting _ _ => True
      | _ => bot_settings (run o s) = bot_settings s end).
Proof.
  destruct o; cbn [run]; try (repeat split; reflexivity).
  - unfold Database.update_channel.
    destruct title, username, invite, admin; repeat split; reflexivity.
  - unfold Database.add_or_update_user. destruct (existsb _ _); repeat split; reflexivity.
  - unfold Database.generate_personal_invite_link.
    destruct (Database.get_active_personal_link s uid cid now); [repeat split; reflexivity|].
    destruct (Database.get_channel_by_id s cid); [|repeat split; reflexivity].
    destruct (if in_loop then _ else _) as [link0 calls].
    destruct (Database.insert_link _ _ _ _ _ _ _ _) as [s1|] eqn:Hins;
      [|repeat split; reflexivity].
    cbn [gen_db]. apply insert_link_table in Hins. destruct Hins as [_ [_ [_ ->]]].
    unfold Database._update_channel_stats.
    destruct (Sql.fetchone _ _); [repeat split; reflexivity|].
    destruct (Database.get_channel_by_id _ _); repeat split; reflexivity.
  - unfold LinkGeneratorService._create_personal_invite_link.
    destruct (Database.get_channel_by_id s cid) as [channel|]; [|repeat split; reflexivity].
    destruct (negb (ch_is_active channel)); [repeat split; reflexivity|].
    destruct (Database.get_active_personal_link s uid cid now); [repeat split; reflexivity|].
    destruct (if ch_bot_is_admin channel then _ else _) as [[link|] calls];
      [|repeat split; reflexivity].
    destruct (String.eqb link EmptyString); [repeat split; reflexivity|].
    destruct (LinkGeneratorService.as_int
                (Database.get_setting s "link_expire_hours" (PyInt 1)));
      [|repeat split; reflexivity].
    destruct (LinkGeneratorService.as_int
                (Database.get_setting s "max_link_uses" (PyInt 1)));
      [|repeat split; reflexivity].
    destruct (Database.insert_link _ _ _ _ _ _ _ _) as [s1|] eqn:Hins;
      [|repeat split; reflexivity].
    cbn [gen_db]. apply insert_link_table in Hins. destruct Hins as [_ [_ [_ ->]]].
    unfold Database._update_channel_stats.
    destruct (Sql.fetchone _ _); [repeat split; reflexivity|].
    destruct (Database.get_channel_by_id _ _); repeat split; reflexivity.
  - rewrite use_select.
    destruct (Sql.fetchone _ _) as [row|]; [|repeat split; reflexivity].
    destruct (max_uses row <=? current_uses row); [repeat split; reflexivity|].
    cbn [use_db].
    match goal with
    | |- context [match ?m with Some r => _ | None => ?s1 end] =>
        destruct m; [|repeat split; reflexivity]
    end.
    unfold Database._update_channel_stats.
    destruct (Sql.fetchone _ _); [repeat split; reflexivity|].
    destruct (Database.get_channel_by_id _ _); repeat split; reflexivity.
  - unfold Database.set_setting. destruct (Database.value_text value);
      repeat split; reflexivity.
Qed.

Lemma reachable_config h m t s :
  reachable h m t s ->
  MAX_LINK_USES s = m /\ LINK_EXPIRE_HOURS s = h /\ limit_setting_ok s.
Proof.
  induction 1 as [t|t s o Hr [IH1 [IH2 IH3]] Ht Ha].
  - split; [reflexivity|]. split; [reflexivity|].
    intros x Hx. cbn in Hx. inversion Hx. lia.
  - destruct (run_frame o s) as [F1 [F2 F3]].
    split; [congruence|]. split; [congruence|].
    unfold limit_setting_ok in *.
    destruct o;
      try (intros x; unfold Database.get_setting in *; rewrite F3; apply IH3).
    cbn [run admissible] in *. destruct Ha as [Ha _].
    destruct (String.eqb key "max_link_uses") eqn:E.
    + apply String.eqb_eq in E. subst key.
      destruct (Ha eq_refl) as [x [-> Hx]].
      intros y.
      destruct (@get_after_set s "max_link_uses" (PyInt x)
                  (string_of_list_ascii (Chars.Z_to_digits x)) (PyInt 1) eq_refl)
        as [_ Hg].
      rewrite Hg, decode_int. cbn. intros Hy. inversion Hy. subst. exact Hx.
    + apply String.eqb_neq in E. intros y.
      rewrite get_after_set_other; [apply IH3|congruence].
Qed.

(** ** Use counts *)

Lemma evolve_bounded B t x y :
  evolve B t x y -> (forall m, B m -> 0 <= m) ->
  bounded (fst x) -> bounded (fst y).
Proof.
  induction 1 as [x|ls q p f Hd|ls q p|ls q uid cid url token expire maxu now Hfr Hno HB|x y z _ IH1 _ IH2];
    cbn [fst snd]; intros HBm Hb; auto.
  - intros l' Hl'. apply update_where_in in Hl'.
    destruct Hl' as [l [Hl [[_ ->]|[Hp ->]]]]; [apply Hb; exact Hl|].
    destruct (Hd l Hl Hp) as [_ [_ [_ [_ [_ [Hm [_ Hc]]]]]]].
    specialize (Hb l Hl). rewrite Hm. destruct Hc as [->|[-> Hlt]]; lia.
  - intros l Hl. apply Hb. eapply delete_where_in. exact Hl.
  - intros l Hl. apply in_app_or in Hl. destruct Hl as [Hl|[<-|[]]].
    + apply Hb. exact Hl.
    + cbn. apply HBm in HB. lia.
Qed.

Lemma reachable_bounded h m t s :
  0 <= m -> reachable h m t s -> bounded (personal_invite_links s).
Proof.
  intros Hm. induction 1 as [t|t s o Hr IH Ht Ha].
  - intros l [].
  - apply (evolve_bounded (@run_evolve o s t (reachable_schema Hr))); [|exact IH].
    destruct (reachable_config Hr) as [Hmax [_ Hset]].
    intros x [->|Hx]; [lia|]. apply Hset in Hx. lia.
Qed.

Lemma update_stats_links s cid stat inc today :
  personal_invite_links (Database._update_channel_stats s cid stat inc today)
  = personal_invite_links s.
Proof. exact (f_equal fst (links_update_stats s cid stat inc today)). Qed.

Lemma update_stats_seq s cid stat inc today :
  seq_links (Database._update_channel_stats s cid stat inc today) = seq_links s.
Proof. exact (f_equal snd (links_update_stats s cid stat inc today)). Qed.

Lemma use_accepts s uid token now today row :
  schema_ok (personal_invite_links s) (seq_links s) ->
  In row (personal_invite_links s) ->
  matches token now row = true ->
  current_uses row < max_uses row ->
  use_ok (Database.use_personal_link s uid token now today) = true
  /\ personal_invite_links (use_db (Database.use_personal_link s uid token now today))
     = map (fun l => if id l =? id row then consumed now row else l)
         (personal_invite_links s)
  /\ seq_links (use_db (Database.use_personal_link s uid token now today))
     = seq_links s.
Proof.
  intros Hs Hin Hm Hlim.
  rewrite use_select, (@fetch_by_token _ _ _ _ _ Hs Hin Hm).
  replace (max_uses row <=? current_uses row) with false
    by (symmetry; apply Z.leb_gt; exact Hlim).
  cbn zeta. cbn [use_ok use_db]. split; [reflexivity|].
  destruct Hs as [Hnd _].
  apply matches_spec in Hm. destruct Hm as [_ [Hact _]].
  rewrite (@use_rows _ _ now Hnd Hin Hact).
  cbn [personal_invite_links with_usage with_links].
  unfold Sql.fetchone. rewrite (@find_consumed _ _ now Hin).
  rewrite update_stats_links, update_stats_seq.
  split; reflexivity.
Qed.

Lemma use_rejects s uid token now today :
  (forall l, In l (personal_invite_links s) -> matches token now l = false) ->
  Database.use_personal_link s uid token now today
  = mkUseResult false LogNotFoundOrExpired [] s.
Proof.
  intros H. rewrite use_select. unfold Sql.fetchone.
  destruct (find (matches token now) (personal_invite_links s)) as [r|] eqn:E;
    [|reflexivity].
  apply find_some in E. destruct E as [Hin Hm].
  rewrite (H r Hin) in Hm. discriminate.
Qed.

(** Once no row of the token is active, every further attempt fails and
    changes nothing. *)
Lemma use_each_dead s token attempts :
  (forall l, In l (personal_invite_links s) ->
             link_token l = token -> is_active l = false) ->
  use_each s token attempts = (map (fun _ => false) attempts, s).
Proof.
  intros H. induction attempts as [|[[uid now] today] rest IH]; [reflexivity|].
  cbn [use_each map].
  rewrite use_rejects.
  - cbn [use_db use_ok]. rewrite IH. reflexivity.
  - intros l Hl. destruct (matches token now l) eqn:E; [|reflexivity].
    apply matches_spec in E. destruct E as [Ht [Ha _]].
    rewrite (H l Hl Ht) in Ha. discriminate.
Qed.

Lemma count_all_false (A : Type) (l : list A) :
  count_occ Bool.bool_dec (map (fun _ => false) l) true = 0%nat
  /\ count_occ Bool.bool_dec (map (fun _ => false) l) false = List.length l.
Proof.
  induction l as [|x r [IH1 IH2]]; cbn; [auto|]. rewrite IH2. auto.
Qed.

(** C2.  With [MAX_LINK_USES >= 0], in every reachable state every row has
    [0 <= current_uses <= max_uses]; and for a row with [max_uses = 1] that is
    active, unused and unexpired at the first attempt, [N >= 1] calls of
    [use_personal_link] on its token, one after the other, give exactly one
    [True] and [N - 1] times [False], and leave every row within its
    limit. *)
Theorem single_use_link_consumed_once :
  forall expire_hours max_uses_cfg t s,
    0 <= max_uses_cfg ->
    reachable expire_hours max_uses_cfg t s ->
    bounded (personal_invite_links s)
    /\ forall row uid now today rest,
         In row (personal_invite_links s) ->
         max_uses row = 1 ->
         current_uses row < max_uses row ->
         is_active row = true ->
         now < expire_date row ->
         count_occ Bool.bool_dec
           (fst (use_each s (link_token row) ((uid, now, today) :: rest))) true
         = 1%nat
         /\ count_occ Bool.bool_dec
              (fst (use_each s (link_token row) ((uid, now, today) :: rest))) false
            = List.length rest
         /\ bounded (personal_invite_links
                       (snd (use_each s (link_token row) ((uid, now, today) :: rest)))).
Proof.
  intros h m t s Hm Hr.
  assert (Hb := reachable_bounded Hm Hr).
  split; [exact Hb|].
  intros row uid now today rest Hin Hmax Hlim Hact Hexp.
  assert (Hs := reachable_schema Hr).
  assert (Hmt : matches (link_token row) now row = true)
    by (apply matches_spec; auto).
  destruct (@use_accepts s uid (link_token row) now today row Hs Hin Hmt Hlim)
    as [Hok [Hlinks _]].
  cbn [use_each].
  set (r := Database.use_personal_link s uid (link_token row) now today) in *.
  assert (Hdead : forall l, In l (personal_invite_links (use_db r)) ->
                            link_token l = link_token row -> is_active l = false).
  { rewrite Hlinks. intros l Hl Ht. apply in_map_iff in Hl.
    destruct Hl as [l0 [Hl0 Hin0]].
    destruct (id l0 =? id row) eqn:E.
    - subst l. unfold consumed. cbn. rewrite Hmax.
      replace (1 <=? current_uses row + 1) with true; [reflexivity|].
      symmetry. apply Z.leb_le. specialize (Hb row Hin). lia.
    - subst l0. destruct Hs as [_ [_ Htok]].
      assert (l = row) by (eapply nodup_token_eq; eauto). subst l.
      rewrite Z.eqb_refl in E. discriminate. }
  rewrite (use_each_dead _ rest Hdead). cbn [fst snd].
  destruct (count_all_false rest) as [C1 C2].
  rewrite Hok. cbn [count_occ].
  destruct (Bool.bool_dec true true) as [_|Hn]; [|congruence].
  destruct (Bool.bool_dec true false) as [Hn|_]; [discriminate|].
  rewrite C1, C2. split; [reflexivity|]. split; [reflexivity|].
  rewrite Hlinks. intros l Hl. apply in_map_iff in Hl.
  destruct Hl as [l0 [Hl0 Hin0]].
  destruct (id l0 =? id row); subst l.
  - unfold consumed. cbn. specialize (Hb row Hin). lia.
  - apply Hb. exact Hin0.
Qed.

Lemma single_use_link_consumed_once_witness :
  0 <= 1
  /\ reachable 1 1 21 demo_store
  /\ fst (use_each demo_store "tok-a" [(9, 30, 0); (10, 31, 0); (11, 32, 0)])
     = [true; false; false]
  /\ count_occ Bool.bool_dec
       (fst (use_each demo_store "tok-a" [(9, 30, 0); (10, 31, 0); (11, 32, 0)]))
       true = 1%nat.
Proof.
  split; [lia|]. split; [exact demo_reachable|]. split; [reflexivity|].
  destruct (@single_use_link_consumed_once 1 1 21 demo_store ltac:(lia)
              demo_reachable) as [_ H].
  refine (proj1 (H (mkLink 1 7 1 "https://t.me/news" "tok-a" 3621 1 0 true 21 None)
                   9 30 0 [(10, 31, 0); (11, 32, 0)] _ _ _ _ _)).
  - cbn. left. reflexivity.
  - reflexivity.
  - cbn. lia.
  - reflexivity.
  - cbn. lia.
Defined.

(** ** [set_setting] and [get_setting] *)

Lemma get_absent s key d :
  (forall kv, In kv (bot_settings s) -> fst kv <> key) ->
  Database.get_setting s key d = d.
Proof.
  intros H. unfold Database.get_setting, Sql.fetchone.
  destruct (find (fun kv => String.eqb (fst kv) key) (bot_settings s)) as [row|] eqn:E;
    [|reflexivity].
  apply find_some in E. destruct E as [Hin He]. apply String.eqb_eq in He.
  destruct (H row Hin He).
Qed.


(** ** Values through [json.dumps] and [json.loads] *)

Module JsonTrip.
Import Chars Json JsonFacts.

Lemma scan_string_quote rest : scan_string (quote :: rest) = Some (Some [], rest).
Proof. reflexivity. Qed.

Lemma scan_string_escape c r body r' :
  scan_string r = Some (Some body, r') ->
  scan_string (escape_chr c ++ r) = Some (Some (c :: body), r').
Proof.
  intros H.
  destruct c as [[] [] [] [] [] [] [] []]; cbn; rewrite H; reflexivity.
Qed.

Lemma scan_string_escaped t rest :
  scan_string (flat_map escape_chr t ++ quote :: rest) = Some (Some t, rest).
Proof.
  induction t as [|c r IH]; [reflexivity|].
  cbn [flat_map]. rewrite <- List.app_assoc.
  apply scan_string_escape. exact IH.
Qed.

Lemma weight_list l : weight (PyList l) = S (list_weight l).
Proof. reflexivity. Qed.

Lemma weight_dict d : weight (PyDict d) = S (dict_weight d).
Proof. reflexivity. Qed.

Lemma unique_keys_list l : unique_keys (PyList l) <-> Forall unique_keys l.
Proof.
  cbn. induction l as [|x r IH]; [split; auto|].
  split.
  - intros [H1 H2]. constructor; [exact H1|apply IH; exact H2].
  - intros H. inversion H; subst. split; [assumption|apply IH; assumption].
Qed.

Lemma unique_keys_dict d :
  unique_keys (PyDict d)
  <-> NoDup (map fst d) /\ Forall (fun kv => unique_keys (snd kv)) d.
Proof.
  cbn. assert (H : (fix go (d0 : list (string * pyval)) : Prop :=
                      match d0 with
                      | [] => True
                      | kv :: r => unique_keys (snd kv) /\ go r
                      end) d <-> Forall (fun kv => unique_keys (snd kv)) d).
  { induction d as [|x r IH]; [split; auto|]. split.
    - intros [H1 H2]. constructor; [exact H1|apply IH; exact H2].
    - intros H. inversion H; subst. split; [assumption|apply IH; assumption]. }
  tauto.
Qed.

Lemma encode_list l :
  encode (PyList l)
  = match traverse encode l with
    | Some parts => Some ("["%char :: join sep_comma parts ++ ["]"%char])
    | None => None
    end.
Proof. reflexivity. Qed.

Lemma encode_dict d :
  encode (PyDict d)
  = match traverse encode_member d with
    | Some parts => Some ("{"%char :: join sep_comma parts ++ ["}"%char])
    | None => None
    end.
Proof. reflexivity. Qed.

Lemma scan_once_str f r :
  scan_once (S f) (quote :: r)
  = match scan_string r with
    | Some (body, r') => Some (str_value body, r')
    | None => None
    end.
Proof. reflexivity. Qed.

Lemma scan_once_list f r :
  scan_once (S f) ("["%char :: r)
  = match skip_ws r with
    | c1 :: r1 =>
        if code c1 =? 93 then Some (PyList [], r1)
        else match scan_elems f (c1 :: r1) with
             | Some (l, r') => Some (PyList l, r')
             | None => None
             end
    | [] => None
    end.
Proof. reflexivity. Qed.

Lemma scan_once_dict f r :
  scan_once (S f) ("{"%char :: r)
  = match skip_ws r with
    | c1 :: r1 =>
        if code c1 =? 125 then Some (PyDict [], r1)
        else match scan_members f (c1 :: r1) with
             | Some (pairs, r') => Some (make_dict pairs, r')
             | None => None
             end
    | [] => None
    end.
Proof. reflexivity. Qed.

Lemma scan_elems_step f s :
  scan_elems (S f) s
  = match scan_once f s with
    | None => None
    | Some (v, r) =>
        match skip_ws r with
        | c :: r1 =>
            if code c =? 93 then Some ([v], r1)
            else if code c =? 44 then
              match scan_elems f (skip_ws r1) with
              | Some (l, r') => Some (v :: l, r')
              | None => None
              end
            else None
        | [] => None
        end
    end.
Proof. reflexivity. Qed.

Lemma scan_members_step f r :
  scan_members (S f) (quote :: r)
  = match scan_string r with
    | None => None
    | Some (key, r0) =>
        match skip_ws r0 with
        | c0 :: r1 =>
            if code c0 =? 58 then
              match scan_once f (skip_ws r1) with
              | None => None
              | Some (v, r2) =>
                  match skip_ws r2 with
                  | c :: r3 =>
                      if code c =? 125 then Some ([(key, v)], r3)
                      else if code c =? 44 then
                        match scan_members f (skip_ws r3) with
                        | Some (l, r') => Some ((key, v) :: l, r')
                        | None => None
                        end
                      else None
                  | [] => None
                  end
              end
            else None
        | [] => None
        end
    end.
Proof. reflexivity. Qed.

Lemma head_ok_skip e rest : head_ok e -> skip_ws (e ++ rest) = e ++ rest.
Proof.
  intros [c [r [-> [Hw _]]]]. cbn. rewrite Hw. reflexivity.
Qed.

Lemma encode_head v e : encode v = Some e -> head_ok e.
Proof.
  unfold head_ok. destruct v as [|[]|z|s|l|d|]; cbn [encode].
  - intros H; inversion H. eexists; eexists. repeat split.
  - intros H; inversion H. eexists; eexists. repeat split.
  - intros H; inversion H. eexists; eexists. repeat split.
  - intros H; inversion H. destruct (digits_head z) as [c [r [E Hc]]].
    exists c, r. split; [exact E|]. split; [apply number_head_not_ws; exact Hc|].
    destruct Hc as [Hd|Hm].
    + unfold is_digit in Hd. apply andb_true_iff in Hd. rewrite !Z.leb_le in Hd.
      rewrite !Z.eqb_neq. lia.
    + rewrite Hm. split; reflexivity.
  - intros H; inversion H. eexists; eexists. repeat split.
  - rewrite <- encode_list. rewrite encode_list.
    destruct (traverse encode l); intros H; inversion H.
    eexists; eexists. repeat split.
  - change (match traverse encode_member d with
            | Some parts => Some ("{"%char :: join sep_comma parts ++ ["}"%char])
            | None => None end = Some e -> exists c r, e = c :: r /\ is_ws c = false
              /\ (code c =? 93) = false /\ (code c =? 125) = false).
    destruct (traverse encode_member d); intros H; inversion H.
    eexists; eexists. repeat split.
  - discriminate.
Qed.

Lemma skip_ws_space s : skip_ws (" "%char :: s) = skip_ws s.
Proof. reflexivity. Qed.

Lemma tail_ok_sep c rest :
  code c = 44 \/ code c = 93 \/ code c = 125 -> tail_ok (c :: rest).
Proof.
  unfold tail_ok, is_digit. intros H.
  repeat split; try (apply Z.eqb_neq; lia).
  apply andb_false_iff. rewrite !Z.leb_gt. lia.
Qed.

Lemma traverse_cons (A B : Type) (f : A -> option B) x r parts :
  traverse f (x :: r) = Some parts ->
  exists p ps, parts = p :: ps /\ f x = Some p /\ traverse f r = Some ps.
Proof.
  cbn. destruct (f x) as [p|]; [|discriminate].
  destruct (traverse f r) as [ps|]; [|discriminate].
  intros H; inversion H. eauto.
Qed.

(** The elements of a non-empty list, read back up to the bracket. *)
Lemma scan_elems_encoded l :
  Forall reads_back l ->
  forall parts, traverse encode l = Some parts -> l <> [] ->
    Forall unique_keys l ->
    forall fuel rest, (list_weight l <= fuel)%nat ->
      scan_elems fuel (join sep_comma parts ++ "]"%char :: rest) = Some (l, rest).
Proof.
  induction 1 as [|x r Hx Hr IH]; intros parts Ht Hne Hu fuel rest Hf; [congruence|].
  apply traverse_cons in Ht. destruct Ht as [p [ps [-> [Hp Hps]]]].
  inversion Hu as [|? ? Hux Hur]; subst.
  cbn [list_weight] in Hf. destruct fuel as [|f]; [lia|].
  rewrite scan_elems_step.
  destruct r as [|y r'].
  - cbn in Hps. inversion Hps; subst ps. cbn [join].
    rewrite (Hx p Hp Hux f ("]"%char :: rest)); [|lia|apply tail_ok_sep; cbn; lia].
    reflexivity.
  - destruct (traverse_cons _ _ _ Hps) as [p' [ps' [-> [Hp' Hps']]]].
    change (join sep_comma (p :: p' :: ps'))
      with (p ++ sep_comma ++ join sep_comma (p' :: ps')).
    rewrite <- !List.app_assoc.
    change (sep_comma ++ join sep_comma (p' :: ps') ++ "]"%char :: rest)
      with (","%char :: " "%char :: (join sep_comma (p' :: ps') ++ "]"%char :: rest)).
    rewrite (Hx p Hp Hux f); [|lia|apply tail_ok_sep; cbn; lia].
    cbn [skip_ws]. change (is_ws ","%char) with false. cbn iota.
    change (code ","%char =? 93) with false.
    change (code ","%char =? 44) with true. cbn iota.
    rewrite skip_ws_space.
    assert (Hh : skip_ws (join sep_comma (p' :: ps') ++ "]"%char :: rest)
                 = join sep_comma (p' :: ps') ++ "]"%char :: rest).
    { apply head_ok_skip. destruct (encode_head _ Hp') as [c [t [-> Hc]]].
      destruct ps'; cbn; exists c; eexists; split; [reflexivity|exact Hc|reflexivity|exact Hc]. }
    rewrite Hh.
    rewrite (IH (p' :: ps') Hps ltac:(discriminate) Hur f rest ltac:(lia)).
    reflexivity.
Qed.

Lemma dict_set_fresh k v d :
  ~ In k (map fst d) -> dict_set k v d = d ++ [(k, v)].
Proof.
  induction d as [|[k' v'] r IH]; cbn; [reflexivity|].
  intros H. destruct (String.eqb k k') eqn:E.
  - apply String.eqb_eq in E. exfalso. apply H. left. congruence.
  - rewrite IH; [reflexivity|]. intros Hin. apply H. right. exact Hin.
Qed.

Lemma make_dict_acc d : forall acc,
  NoDup (map fst (acc ++ d)) ->
  fold_left
    (fun (a : option (list (string * pyval))) (kv : option (list ascii) * pyval) =>
       match a, fst kv with
       | Some dd, Some k => Some (dict_set (string_of_list_ascii k) (snd kv) dd)
       | _, _ => None
       end)
    (map (fun kv => (Some (list_ascii_of_string (fst kv)), snd kv)) d)
    (Some acc)
  = Some (acc ++ d).
Proof.
  induction d as [|[k v] r IH]; intros acc Hnd; cbn [map fold_left fst snd].
  - rewrite List.app_nil_r. reflexivity.
  - rewrite string_of_list_ascii_of_string.
    rewrite dict_set_fresh.
    + rewrite IH; rewrite <- List.app_assoc; [reflexivity|exact Hnd].
    + rewrite map_app in Hnd. cbn in Hnd. apply NoDup_remove_2 in Hnd.
      intros Hin. apply Hnd. apply in_or_app. left. exact Hin.
Qed.

Lemma make_dict_pairs d :
  NoDup (map fst d) ->
  make_dict (map (fun kv => (Some (list_ascii_of_string (fst kv)), snd kv)) d)
  = PyDict d.
Proof.
  intros H. unfold make_dict. rewrite (make_dict_acc d [] H). reflexivity.
Qed.

Lemma member_shape k a tl :
  (quote :: (flat_map escape_chr k ++ [quote]) ++ ":"%char :: " "%char :: a) ++ tl
  = quote :: flat_map escape_chr k ++ quote :: ":"%char :: " "%char :: (a ++ tl).
Proof.
  cbn [app]. rewrite <- !List.app_assoc. reflexivity.
Qed.

Lemma member_head kv p : encode_member kv = Some p -> head_ok p.
Proof.
  unfold encode_member. destruct (encode (snd kv)); [|discriminate].
  intros H; inversion H. exists quote. eexists. repeat split.
Qed.

(** The members of a non-empty dict, read back up to the brace. *)
Lemma scan_members_encoded d :
  Forall (fun kv => reads_back (snd kv)) d ->
  forall parts, traverse encode_member d = Some parts -> d <> [] ->
    Forall (fun kv => unique_keys (snd kv)) d ->
    forall fuel rest, (dict_weight d <= fuel)%nat ->
      scan_members fuel (join sep_comma parts ++ "}"%char :: rest)
      = Some (map (fun kv => (Some (list_ascii_of_string (fst kv)), snd kv)) d, rest).
Proof.
  induction 1 as [|x r Hx Hr IH]; intros parts Ht Hne Hu fuel rest Hf; [congruence|].
  apply traverse_cons in Ht. destruct Ht as [p [ps [-> [Hp Hps]]]].
  inversion Hu as [|? ? Hux Hur]; subst.
  cbn [dict_weight] in Hf. destruct fuel as [|f]; [lia|].
  unfold encode_member in Hp.
  destruct (encode (snd x)) as [a|] eqn:Ha; [|discriminate].
  injection Hp as Hp. subst p.
  assert (Hsk : forall tl, skip_ws (a ++ tl) = a ++ tl)
    by (intros tl; apply head_ok_skip; eapply encode_head; eauto).
  destruct r as [|y r'].
  - cbn in Hps. inversion Hps; subst ps. cbn [join].
    rewrite member_shape, scan_members_step, scan_string_escaped.
    cbn [skip_ws]. change (is_ws ":"%char) with false. cbn iota.
    change (code ":"%char =? 58) with true. cbn iota.
    rewrite skip_ws_space, Hsk.
    rewrite (Hx a Ha Hux f ("}"%char :: rest)); [|lia|apply tail_ok_sep; cbn; lia].
    reflexivity.
  - destruct (traverse_cons _ _ _ Hps) as [p' [ps' [-> [Hp' Hps']]]].
    match goal with
    | |- context [join sep_comma (?m :: p' :: ps')] =>
        change (join sep_comma (m :: p' :: ps'))
          with (m ++ sep_comma ++ join sep_comma (p' :: ps'))
    end.
    rewrite <- List.app_assoc.
    rewrite member_shape, scan_members_step, scan_string_escaped.
    cbn [skip_ws]. change (is_ws ":"%char) with false. cbn iota.
    change (code ":"%char =? 58) with true. cbn iota.
    rewrite skip_ws_space, Hsk.
    rewrite <- List.app_assoc.
    change (sep_comma ++ join sep_comma (p' :: ps') ++ "}"%char :: rest)
      with (","%char :: " "%char :: (join sep_comma (p' :: ps') ++ "}"%char :: rest)).
    rewrite (Hx a Ha Hux f); [|lia|apply tail_ok_sep; cbn; lia].
    cbn [skip_ws]. change (is_ws ","%char) with false. cbn iota.
    change (code ","%char =? 125) with false.
    change (code ","%char =? 44) with true. cbn iota.
    rewrite skip_ws_space.
    assert (Hh : skip_ws (join sep_comma (p' :: ps') ++ "}"%char :: rest)
                 = join sep_comma (p' :: ps') ++ "}"%char :: rest).
    { apply head_ok_skip. destruct (member_head _ Hp') as [c [t [-> Hc]]].
      destruct ps'; cbn; exists c; eexists; split;
        [reflexivity|exact Hc|reflexivity|exact Hc]. }
    rewrite Hh.
    rewrite (IH (p' :: ps') Hps ltac:(discriminate) Hur f rest ltac:(lia)).
    reflexivity.
Qed.

(** Every value the encoder accepts is read back by the decoder. *)
Lemma reads_back_all v : reads_back v.
Proof.
  induction v as [|b|z|s|l IH|d IH|] using pyval_nested_ind;
    intros e He Hu fuel rest Hf Ht.
  - inversion He; subst e. destruct fuel as [|f]; [cbn in Hf; lia|]. reflexivity.
  - destruct b; inversion He; subst e;
      (destruct fuel as [|f]; [cbn in Hf; lia|]); reflexivity.
  - inversion He; subst e. destruct fuel as [|f]; [cbn in Hf; lia|].
    destruct (digits_head z) as [c [r [E Hc]]].
    assert (Hn := @scan_number_int z rest Ht). rewrite E in *. cbn [app] in *.
    apply scan_once_number; assumption.
  - inversion He; subst e. destruct fuel as [|f]; [cbn in Hf; lia|].
    unfold encode_str. cbn [app]. rewrite <- List.app_assoc. cbn [app].
    rewrite scan_once_str, scan_string_escaped.
    cbn [str_value]. rewrite string_of_list_ascii_of_string. reflexivity.
  - rewrite encode_list in He. rewrite weight_list in Hf.
    destruct (traverse encode l) as [parts|] eqn:Hp; [|discriminate].
    inversion He; subst e. clear He.
    destruct fuel as [|f]; [lia|].
    cbn [app]. rewrite <- List.app_assoc. cbn [app].
    rewrite scan_once_list.
    destruct l as [|x r].
    + cbn in Hp. inversion Hp; subst parts. reflexivity.
    + destruct (traverse_cons _ _ _ Hp) as [p [ps [-> [Hpx Hps]]]].
      assert (Hh : skip_ws (join sep_comma (p :: ps) ++ "]"%char :: rest)
                   = join sep_comma (p :: ps) ++ "]"%char :: rest
                   /\ exists c t, join sep_comma (p :: ps) ++ "]"%char :: rest = c :: t
                                  /\ (code c =? 93) = false).
      { destruct (encode_head _ Hpx) as [c [t [-> [Hw [H93 H125]]]]].
        split.
        - apply head_ok_skip. destruct ps; cbn; exists c; eexists; auto.
        - destruct ps; cbn; eexists; eexists; split; try reflexivity; exact H93. }
      destruct Hh as [Hs [c [t [Hc H93]]]].
      rewrite Hs, Hc, H93, <- Hc.
      rewrite (@scan_elems_encoded (x :: r) IH (p :: ps) Hp ltac:(discriminate)
                 (proj1 (unique_keys_list _) Hu) f rest ltac:(lia)).
      reflexivity.
  - rewrite encode_dict in He. rewrite weight_dict in Hf.
    destruct (traverse encode_member d) as [parts|] eqn:Hp; [|discriminate].
    inversion He; subst e. clear He.
    destruct fuel as [|f]; [lia|].
    cbn [app]. rewrite <- List.app_assoc. cbn [app].
    rewrite scan_once_dict.
    apply unique_keys_dict in Hu. destruct Hu as [Hnd Hu].
    destruct d as [|x r].
    + cbn in Hp. inversion Hp; subst parts. reflexivity.
    + destruct (traverse_cons _ _ _ Hp) as [p [ps [-> [Hpx Hps]]]].
      assert (Hh : skip_ws (join sep_comma (p :: ps) ++ "}"%char :: rest)
                   = join sep_comma (p :: ps) ++ "}"%char :: rest
                   /\ exists c t, join sep_comma (p :: ps) ++ "}"%char :: rest = c :: t
                                  /\ (code c =? 125) = false).
      { destruct (member_head _ Hpx) as [c [t [-> [Hw [H93 H125]]]]].
        split.
        - apply head_ok_skip. destruct ps; cbn; exists c; eexists; auto.
        - destruct ps; cbn; eexists; eexists; split; try reflexivity; exact H125. }
      destruct Hh as [Hs [c [t [Hc H125]]]].
      rewrite Hs, Hc, H125, <- Hc.
      rewrite (@scan_members_encoded (x :: r) IH (p :: ps) Hp ltac:(discriminate)
                 Hu f rest ltac:(lia)).
      rewrite (make_dict_pairs _ Hnd). reflexivity.
  - discriminate.
Qed.

Lemma join_length_list l :
  Forall (fun x => forall e, encode x = Some e ->
                     (1 <= List.length e /\ weight x <= 2 * List.length e)%nat) l ->
  forall parts, traverse encode l = Some parts ->
    (list_weight l <= 2 * List.length (join sep_comma parts) + 1)%nat.
Proof.
  induction 1 as [|x r Hx Hr IH]; intros parts Ht; [cbn; lia|].
  apply traverse_cons in Ht. destruct Ht as [p [ps [-> [Hp Hps]]]].
  destruct (Hx p Hp) as [_ Hw]. cbn [list_weight].
  destruct r as [|y r'].
  - cbn in Hps. inversion Hps; subst ps. cbn. lia.
  - destruct (traverse_cons _ _ _ Hps) as [p' [ps' [-> _]]].
    specialize (IH _ Hps).
    change (join sep_comma (p :: p' :: ps'))
      with (p ++ sep_comma ++ join sep_comma (p' :: ps')).
    rewrite !length_app. cbn [List.length sep_comma]. lia.
Qed.

Lemma join_length_dict d :
  Forall (fun kv => forall e, encode (snd kv) = Some e ->
                      (1 <= List.length e /\ weight (snd kv) <= 2 * List.length e)%nat) d ->
  forall parts, traverse encode_member d = Some parts ->
    (dict_weight d <= 2 * List.length (join sep_comma parts) + 1)%nat.
Proof.
  induction 1 as [|x r Hx Hr IH]; intros parts Ht; [cbn; lia|].
  apply traverse_cons in Ht. destruct Ht as [p [ps [-> [Hp Hps]]]].
  unfold encode_member in Hp.
  destruct (encode (snd x)) as [a|] eqn:Ha; [|discriminate].
  injection Hp as Hp.
  assert (Hlen : (List.length a <= List.length p)%nat).
  { subst p. unfold encode_str, sep_colon. cbn [List.length app].
    rewrite ?length_app. cbn [List.length]. rewrite ?length_app. cbn [List.length]. lia. }
  destruct (Hx a eq_refl) as [_ Hw]. cbn [dict_weight].
  destruct r as [|y r'].
  - cbn in Hps. inversion Hps; subst ps. cbn [join dict_weight]. lia.
  - destruct (traverse_cons _ _ _ Hps) as [p' [ps' [-> _]]].
    specialize (IH _ Hps).
    change (join sep_comma (p :: p' :: ps'))
      with (p ++ sep_comma ++ join sep_comma (p' :: ps')).
    rewrite !length_app. cbn [List.length sep_comma]. lia.
Qed.

Lemma weight_bound v :
  forall e, encode v = Some e ->
    (1 <= List.length e /\ weight v <= 2 * List.length e)%nat.
Proof.
  induction v as [|b|z|s|l IH|d IH|] using pyval_nested_ind; intros e He.
  - inversion He. cbn. lia.
  - destruct b; inversion He; cbn; lia.
  - inversion He. destruct (digits_head z) as [c [r [-> _]]]. cbn. lia.
  - inversion He. unfold encode_str. cbn [List.length weight].
    rewrite length_app. cbn. lia.
  - rewrite encode_list in He. rewrite weight_list.
    destruct (traverse encode l) as [parts|] eqn:Hp; [|discriminate].
    inversion He. assert (H := join_length_list IH Hp).
    cbn [List.length]. rewrite length_app. cbn [List.length]. lia.
  - rewrite encode_dict in He. rewrite weight_dict.
    destruct (traverse encode_member d) as [parts|] eqn:Hp; [|discriminate].
    inversion He. assert (H := join_length_dict IH Hp).
    cbn [List.length]. rewrite length_app. cbn [List.length]. lia.
  - discriminate.
Qed.

(** [json.loads(json.dumps(v))] is [v] for every value the encoder
    accepts. *)
Lemma loads_dumps v text :
  dumps v = Some text -> unique_keys v -> loads text = Some v.
Proof.
  unfold dumps. destruct (encode v) as [e|] eqn:He; [|discriminate].
  cbn. intros H Hu. inversion H; subst text. clear H.
  unfold loads. rewrite list_ascii_of_string_of_list_ascii.
  assert (Hs : skip_ws e = e).
  { rewrite <- (List.app_nil_r e) at 1 2. apply head_ok_skip.
    eapply encode_head; eauto. }
  rewrite Hs.
  destruct (weight_bound v He) as [_ Hw].
  assert (Hr := @reads_back_all v e He Hu (2 * List.length e + 2)%nat []
                  ltac:(lia) I).
  rewrite List.app_nil_r in Hr. rewrite Hr. reflexivity.
Qed.

End JsonTrip.



(** * Further properties of the operations *)

(** ** Statements on a table *)

Lemma update_where_map (A K : Type) (k : A -> K) (p : A -> bool) (f : A -> A) rows :
  (forall x, k (f x) = k x) ->
  map k (Sql.update_where p f rows) = map k rows.
Proof.
  intros H. unfold Sql.update_where. rewrite map_map. apply map_ext.
  intros x. destruct (p x); [apply H|reflexivity].
Qed.

Lemma filter_update_same (A : Type) (q p : A -> bool) (f : A -> A) rows :
  (forall x, In x rows -> p x = true -> q x = false /\ q (f x) = false) ->
  filter q (Sql.update_where p f rows) = filter q rows.
Proof.
  unfold Sql.update_where.
  induction rows as [|a rest IH]; cbn; intros H; [reflexivity|].
  rewrite IH by (intros; apply H; auto).
  destruct (p a) eqn:E; [|reflexivity].
  destruct (H a (or_introl eq_refl) E) as [-> ->]. reflexivity.
Qed.

Lemma filter_delete_same (A : Type) (q p : A -> bool) rows :
  (forall x, In x rows -> p x = true -> q x = false) ->
  filter q (Sql.delete_where p rows) = filter q rows.
Proof.
  unfold Sql.delete_where.
  induction rows as [|a rest IH]; cbn; intros H; [reflexivity|].
  destruct (p a) eqn:E; cbn.
  - rewrite (H a (or_introl eq_refl) E). apply IH. intros; apply H; auto.
  - rewrite IH by (intros; apply H; auto). reflexivity.
Qed.

Lemma rowcount_delete (A : Type) (p : A -> bool) rows :
  Sql.rowcount p rows + Z.of_nat (List.length (Sql.delete_where p rows))
  = Z.of_nat (List.length rows).
Proof.
  unfold Sql.rowcount, Sql.delete_where.
  induction rows as [|a rest IH]; cbn [filter List.length]; [reflexivity|].
  destruct (p a); cbn [negb List.length]; lia.
Qed.

Lemma rowcount_update (A : Type) (p : A -> bool) (f : A -> A) rows :
  (forall x, p (f x) = false) ->
  Sql.rowcount p (Sql.update_where p f rows) = 0.
Proof.
  intros H. unfold Sql.rowcount.
  rewrite (@filter_nil _ p (Sql.update_where p f rows)); [reflexivity|].
  intros x Hx. apply update_where_in in Hx.
  destruct Hx as [y [_ [[Hp ->]|[_ ->]]]]; [exact Hp|apply H].
Qed.

Lemma delete_where_spec (A : Type) (p : A -> bool) rows x :
  In x (Sql.delete_where p rows) <-> In x rows /\ p x = false.
Proof.
  unfold Sql.delete_where. rewrite filter_In.
  destruct (p x); cbn; intuition congruence.
Qed.

Lemma find_update_map (A : Type) (q p : A -> bool) (f : A -> A) rows :
  (forall x, q (f x) = q x) ->
  find q (Sql.update_where p f rows)
  = option_map (fun x => if p x then f x else x) (find q rows).
Proof.
  intros H. unfold Sql.update_where.
  induction rows as [|a rest IH]; cbn; [reflexivity|].
  destruct (p a) eqn:E.
  - rewrite H. destruct (q a); [cbn; rewrite E; reflexivity|exact IH].
  - destruct (q a); [cbn; rewrite E; reflexivity|exact IH].
Qed.

(** ** [get_active_personal_link] *)

Lemma newest_max rows r :
  Database.newest rows = Some r ->
  forall l, In l rows -> created_at l <= created_at r.
Proof.
  revert r. induction rows as [|x rest IH]; cbn; intros r H l Hl; [contradiction|].
  destruct (Database.newest rest) as [b|] eqn:E.
  - destruct (created_at x <? created_at b) eqn:C.
    + injection H as <-. apply Z.ltb_lt in C.
      destruct Hl as [<-|Hl]; [lia|apply (IH b eq_refl); exact Hl].
    + injection H as <-. apply Z.ltb_ge in C.
      destruct Hl as [<-|Hl]; [lia|]. specialize (IH b eq_refl l Hl). lia.
  - injection H as <-. apply newest_none in E. subst rest.
    destruct Hl as [<-|[]]. lia.
Qed.

(** X1.  What [get_active_personal_link] returns is a row of the table that
    belongs to the pair, is active, unexpired and under its limit, and no
    usable row of the pair was created later; it returns nothing only when
    the pair has no usable row. *)
Theorem get_active_personal_link_newest :
  forall s uid cid now,
    match Database.get_active_personal_link s uid cid now with
    | Some r =>
        In r (personal_invite_links s)
        /\ user_id r = uid /\ channel_id r = cid
        /\ is_active r = true
        /\ now < expire_date r
        /\ current_uses r < max_uses r
        /\ forall l, In l (personal_invite_links s) ->
                     Database.is_usable now uid cid l = true ->
                     created_at l <= created_at r
    | None =>
        forall l, In l (personal_invite_links s) ->
                  Database.is_usable now uid cid l = false
    end.
Proof.
  intros s uid cid now.
  destruct (Database.get_active_personal_link s uid cid now) as [r|] eqn:E.
  - destruct (get_active_some _ _ _ _ E) as [Hin Hu].
    assert (Hu' := Hu). unfold Database.is_usable in Hu'.
    repeat (apply andb_true_iff in Hu'; destruct Hu' as [Hu' ?]).
    repeat split; auto; try (apply Z.eqb_eq; assumption);
      try (apply Z.ltb_lt; assumption).
    intros l Hl Hlu. unfold Database.get_active_personal_link in E.
    apply (newest_max _ E). apply filter_In. auto.
  - intros l Hl. apply get_active_none_iff in E. unfold usable_rows in E.
    destruct (Database.is_usable now uid cid l) eqn:U; [|reflexivity].
    assert (In l []) by (rewrite <- E; apply filter_In; auto). contradiction.
Qed.

(** ** [use_personal_link] *)

Lemma stats_of_update s cid stat inc today :
  channel_stats (Database._update_channel_stats s cid stat inc today)
  = match Sql.fetchone (fun r => (cs_channel_id r =? cid) && (cs_date r =? today))
            (channel_stats s) with
    | Some _ =>
        Sql.update_where (fun r => (cs_channel_id r =? cid) && (cs_date r =? today))
          (Database.bump stat inc) (channel_stats s)
    | None =>
        match Database.get_channel_by_id s cid with
        | Some _ =>
            channel_stats s
              ++ [Database.bump stat inc (mkChannelStat cid today 0 0 0)]
        | None => channel_stats s
        end
    end.
Proof.
  unfold Database._update_channel_stats.
  destruct (Sql.fetchone _ (channel_stats s)); [reflexivity|].
  destruct (Database.get_channel_by_id s cid); reflexivity.
Qed.

(** X2.  [use_personal_link] does not compare the caller with the owner of
    the link: whoever presents the token gets the same answer and causes the
    same change of the link table and of the statistics; only the user
    recorded in [link_usage] differs. *)
Theorem use_personal_link_any_caller :
  forall s uid uid' token now today,
    let r := Database.use_personal_link s uid token now today in
    let r' := Database.use_personal_link s uid' token now today in
    use_ok r = use_ok r'
    /\ use_log r = use_log r'
    /\ personal_invite_links (use_db r) = personal_invite_links (use_db r')
    /\ channel_stats (use_db r) = channel_stats (use_db r')
    /\ map lu_link_id (link_usage (use_db r)) = map lu_link_id (link_usage (use_db r'))
    /\ (use_ok r = true ->
        exists row,
          In row (personal_invite_links s)
          /\ link_token row = token
          /\ link_usage (use_db r)
             = link_usage s ++ [mkLinkUsage (id row) uid now true None]).
Proof.
  intros s uid uid' token now today. cbn zeta.
  unfold Database.use_personal_link.
  destruct (Sql.fetchone _ (personal_invite_links s)) as [row|] eqn:F;
    [|cbn; repeat split; auto; discriminate].
  destruct (max_uses row <=? current_uses row);
    [cbn; repeat split; auto; discriminate|].
  cbn [use_ok use_log use_db with_usage with_links personal_invite_links].
  set (ls2 := if max_uses row <=? current_uses row + 1 then _ else _).
  destruct (Sql.fetchone (fun l => id l =? id row) ls2) as [r0|].
  - rewrite !update_stats_links, !stats_of_update.
    rewrite !(proj1 (proj2 (update_channel_stats_frame _ _ _ _ _))).
    unfold Database.get_channel_by_id.
    cbn [with_usage with_links channel_stats channels link_usage
         personal_invite_links].
    repeat split; auto.
    + rewrite !map_app. reflexivity.
    + intros _. exists row. apply find_some in F. destruct F as [Hin Hm].
      repeat split; auto.
      apply andb_true_iff in Hm. destruct Hm as [Hm _].
      apply andb_true_iff in Hm. destruct Hm as [Hm _].
      apply String.eqb_eq. exact Hm.
  - cbn. repeat split; auto.
    + rewrite !map_app. reflexivity.
    + intros _. exists row. apply find_some in F. destruct F as [Hin Hm].
      repeat split; auto.
      apply andb_true_iff in Hm. destruct Hm as [Hm _].
      apply andb_true_iff in Hm. destruct Hm as [Hm _].
      apply String.eqb_eq. exact Hm.
Qed.

Lemma consumed_schema ls q row now :
  schema_ok ls q -> In row ls ->
  schema_ok (map (fun l => if id l =? id row then consumed now row else l) ls) q.
Proof.
  intros [Hid [Hq Htok]] Hin.
  assert (Hsame : forall l, In l ls -> (id l =? id row) = true -> l = row).
  { intros l Hl E. apply Z.eqb_eq in E. eapply nodup_id_eq; eauto. }
  repeat split.
  - rewrite map_map.
    rewrite (@map_ext_in _ _ _ id ls); [exact Hid|].
    intros l Hl. destruct (id l =? id row) eqn:E; [|reflexivity].
    cbn. symmetry. apply Z.eqb_eq. exact E.
  - intros l Hl. apply in_map_iff in Hl. destruct Hl as [l0 [<- Hl0]].
    destruct (id l0 =? id row); [cbn; apply Hq; exact Hin|apply Hq; exact Hl0].
  - rewrite map_map.
    rewrite (@map_ext_in _ _ _ link_token ls); [exact Htok|].
    intros l Hl. destruct (id l =? id row) eqn:E; [|reflexivity].
    cbn. rewrite (Hsame l Hl E). reflexivity.
Qed.

Lemma map_const_repeat (A B : Type) (b : B) (l : list A) :
  map (fun _ => b) l = repeat b (List.length l).
Proof. induction l as [|x r IH]; cbn; [reflexivity|]. rewrite IH. reflexivity. Qed.

(** X3.  A link that is active with [current_uses < max_uses] is accepted by
    the first [max_uses - current_uses] calls of [use_personal_link] made
    before it expires, and refused by every later one, whoever the callers
    are. *)
Theorem use_personal_link_up_to_limit :
  forall attempts s row,
    schema_ok (personal_invite_links s) (seq_links s) ->
    In row (personal_invite_links s) ->
    is_active row = true ->
    current_uses row < max_uses row ->
    (forall a, In a attempts -> snd (fst a) < expire_date row) ->
    let k := Z.to_nat (Z.min (Z.of_nat (List.length attempts))
                         (max_uses row - current_uses row)) in
    fst (use_each s (link_token row) attempts)
    = repeat true k ++ repeat false (List.length attempts - k).
Proof.
  induction attempts as [|[[uid now] today] rest IH];
    intros s row Hs Hin Hact Hlim Hexp; cbn zeta.
  - cbn [List.length]. replace (Z.to_nat _) with 0%nat by lia. reflexivity.
  - assert (Hnow : now < expire_date row)
      by (apply (Hexp (uid, now, today)); left; reflexivity).
    assert (Hmt : matches (link_token row) now row = true)
      by (apply matches_spec; auto).
    destruct (@use_accepts s uid (link_token row) now today row Hs Hin Hmt Hlim)
      as [Hok [Hlinks Hseq]].
    cbn [use_each].
    set (r := Database.use_personal_link s uid (link_token row) now today) in *.
    assert (Hs' : schema_ok (personal_invite_links (use_db r)) (seq_links (use_db r))).
    { rewrite Hlinks, Hseq. apply consumed_schema; assumption. }
    assert (Hin' : In (consumed now row) (personal_invite_links (use_db r))).
    { rewrite Hlinks. apply in_map_iff. exists row.
      rewrite Z.eqb_refl. auto. }
    destruct (max_uses row <=? current_uses row + 1) eqn:L.
    + apply Z.leb_le in L.
      assert (Hdead : forall l, In l (personal_invite_links (use_db r)) ->
                                link_token l = link_token row ->
                                is_active l = false).
      { intros l Hl Ht. destruct Hs' as [_ [_ Htok]].
        assert (l = consumed now row)
          by (eapply nodup_token_eq; eauto). subst l.
        cbn. apply Z.leb_le in L. rewrite L. reflexivity. }
      rewrite (use_each_dead _ rest Hdead). cbn [fst]. rewrite Hok.
      cbn [List.length].
      replace (Z.to_nat _) with 1%nat by lia.
      cbn [repeat app]. rewrite map_const_repeat.
      replace (S (List.length rest) - 1)%nat with (List.length rest) by lia.
      reflexivity.
    + apply Z.leb_gt in L.
      assert (Hact' : is_active (consumed now row) = true).
      { cbn. apply Z.leb_gt in L. rewrite L. reflexivity. }
      specialize (IH (use_db r) (consumed now row) Hs' Hin' Hact').
      cbn [consumed link_token current_uses max_uses expire_date] in IH.
      specialize (IH ltac:(lia)
                     (fun a Ha => Hexp a (or_intror Ha))).
      cbn zeta in IH.
      destruct (use_each (use_db r) (link_token row) rest) as [bs s'] eqn:U.
      cbn [fst] in *. rewrite Hok, IH. cbn [List.length].
      set (n := List.length rest) in *.
      replace (Z.to_nat (Z.min (Z.of_nat (S n)) (max_uses row - current_uses row)))
        with (S (Z.to_nat (Z.min (Z.of_nat n)
                             (max_uses row - (current_uses row + 1))))) by lia.
      cbn [repeat app]. reflexivity.
Qed.

Lemma use_personal_link_up_to_limit_witness :
  fst (use_each three_use_store "tok-a"
         [(7, 30, 0); (8, 31, 0); (9, 32, 0); (7, 33, 0); (8, 34, 0)])
  = [true; true; true; false; false].
Proof.
  refine (@use_personal_link_up_to_limit
            [(7, 30, 0); (8, 31, 0); (9, 32, 0); (7, 33, 0); (8, 34, 0)]
            three_use_store
            (mkLink 1 7 1 "https://t.me/news" "tok-a" 3621 3 0 true 21 None)
            _ _ _ _ _).
  - cbn. repeat split.
    + repeat constructor; cbn; intuition.
    + intros l [<-|[]]. cbn. lia.
    + repeat constructor; cbn; intuition.
  - cbn. left. reflexivity.
  - reflexivity.
  - cbn. lia.
  - intros a Ha. cbn in Ha.
    repeat (destruct Ha as [<-|Ha]; [cbn; lia|]). contradiction.
Defined.

(** ** [cleanup_expired_links] and [cleanup_old_usage_records] *)

(** X4.  [cleanup_expired_links] run at time [now] does not touch a link
    that is usable at [now] or later: for every pair the usable rows, and
    with them the answer of [get_active_personal_link], are the same before
    and after. *)
Theorem cleanup_expired_links_spares_usable :
  forall s now pynow t uid cid,
    now <= t ->
    usable_rows (snd (Database.cleanup_expired_links s now pynow)) t uid cid
    = usable_rows s t uid cid
    /\ Database.get_active_personal_link
         (snd (Database.cleanup_expired_links s now pynow)) uid cid t
       = Database.get_active_personal_link s uid cid t.
Proof.
  intros s now pynow t uid cid Ht.
  assert (H : usable_rows (snd (Database.cleanup_expired_links s now pynow)) t uid cid
              = usable_rows s t uid cid).
  { unfold usable_rows, Database.cleanup_expired_links. cbn [snd].
    unfold delete_links.
    cbn [with_usage with_links personal_invite_links LINK_EXPIRE_HOURS].
    rewrite filter_delete_same.
    - apply filter_update_same. intros l _ Hp.
      apply andb_true_iff in Hp. destruct Hp as [He _]. apply Z.leb_le in He.
      unfold Database.is_usable. cbn.
      replace (t <? expire_date l) with false
        by (symmetry; apply Z.ltb_ge; lia).
      rewrite !andb_false_r. auto.
    - intros l _ Hp. apply andb_true_iff in Hp. destruct Hp as [_ Hi].
      unfold Database.is_usable. destruct (is_active l); [discriminate|].
      rewrite !andb_false_r. reflexivity. }
  split; [exact H|].
  unfold Database.get_active_personal_link. unfold usable_rows in H.
  rewrite H. reflexivity.
Qed.

Lemma cleanup_expired_links_spares_usable_witness :
  Database.get_active_personal_link
    (snd (Database.cleanup_expired_links demo_store 30 30)) 7 1 40
  = Database.get_active_personal_link demo_store 7 1 40.
Proof.
  exact (proj2 (@cleanup_expired_links_spares_usable demo_store 30 30 40 7 1
                  ltac:(lia))).
Defined.

(** X5.  [cleanup_old_usage_records] keeps exactly the usage rows newer than
    [days] days, returns the number of rows it removed, leaves the links as
    they are, and finds nothing more to remove when run again at the same
    time. *)
Theorem cleanup_old_usage_records_effect :
  forall s days pynow,
    let r := Database.cleanup_old_usage_records s days pynow in
    (forall u, In u (link_usage (snd r))
               <-> In u (link_usage s) /\ pynow - 86400 * days < lu_used_at u)
    /\ fst r + Z.of_nat (List.length (link_usage (snd r)))
       = Z.of_nat (List.length (link_usage s))
    /\ personal_invite_links (snd r) = personal_invite_links s
    /\ Database.cleanup_old_usage_records (snd r) days pynow = (0, snd r).
Proof.
  intros s days pynow. cbn zeta. unfold Database.cleanup_old_usage_records.
  cbn [fst snd with_usage link_usage personal_invite_links].
  split; [|split; [|split]].
  - intros u. rewrite delete_where_spec. rewrite Z.leb_gt. reflexivity.
  - apply rowcount_delete.
  - reflexivity.
  - f_equal.
    + unfold Sql.rowcount. rewrite (@filter_nil _ _ (Sql.delete_where _ _));
        [reflexivity|].
      intros u Hu. apply delete_where_spec in Hu. apply Hu.
    + unfold with_usage. cbn. f_equal.
      apply delete_where_id. intros u Hu. apply delete_where_spec in Hu. apply Hu.
Qed.

(** ** Channels and users *)

Lemma map_filter_update (A K : Type) (k : A -> K) (q p : A -> bool) (f : A -> A) rows :
  (forall x, k (f x) = k x) -> (forall x, q (f x) = q x) ->
  map k (filter q (Sql.update_where p f rows)) = map k (filter q rows).
Proof.
  intros Hk Hq. unfold Sql.update_where.
  induction rows as [|a rest IH]; cbn; [reflexivity|].
  destruct (p a).
  - rewrite Hq. destruct (q a); cbn; rewrite IH; [rewrite Hk|]; reflexivity.
  - destruct (q a); cbn; rewrite IH; reflexivity.
Qed.

(** X6.  [update_channel] changes neither the id, nor the chat id, nor the
    [is_active] flag of any channel: it cannot bring a removed channel back,
    and [get_active_channels] lists the same channels after it as before.
    It leaves the channels of another chat id and every link as they are. *)
Theorem update_channel_keeps_identity :
  forall s chat title username invite admin now,
    let s' := snd (Database.update_channel s chat title username invite admin now) in
    map ch_id (channels s') = map ch_id (channels s)
    /\ map ch_chat_id (channels s') = map ch_chat_id (channels s)
    /\ map ch_is_active (channels s') = map ch_is_active (channels s)
    /\ map ch_id (Database.get_active_channels s')
       = map ch_id (Database.get_active_channels s)
    /\ personal_invite_links s' = personal_invite_links s
    /\ (forall c, In c (channels s) -> ch_chat_id c <> chat -> In c (channels s')).
Proof.
  intros s chat title username invite admin now. cbn zeta.
  unfold Database.update_channel.
  unfold Database.get_active_channels.
  destruct title, username, invite, admin;
    cbn [snd with_channels channels personal_invite_links];
    (repeat split;
     [ apply update_where_map; reflexivity
     | apply update_where_map; reflexivity
     | apply update_where_map; reflexivity
     | apply map_filter_update; reflexivity
     | intros c Hc Hn; unfold Sql.update_where; apply in_map_iff; exists c;
       split; [|exact Hc];
       destruct (String.eqb (ch_chat_id c) chat) eqn:E; [|reflexivity];
       apply String.eqb_eq in E; contradiction ])
    || (repeat split; auto).
Qed.

(** X7.  After [add_channel] the chat id has exactly one row: the new one,
    active, with [bot_is_admin = 0] and an id never used before, whatever
    row the chat id had; the rows of the other chat ids are found as
    before. *)
Theorem add_channel_replaces :
  forall s chat title username invite now,
    let s' := snd (Database.add_channel s chat title username invite now) in
    let row := mkChannel (seq_channels s + 1) chat title username invite true false now in
    Database.get_channel_by_chat_id s' chat = Some row
    /\ filter (fun c => String.eqb (ch_chat_id c) chat) (channels s') = [row]
    /\ (forall chat', chat' <> chat ->
          Database.get_channel_by_chat_id s' chat'
          = Database.get_channel_by_chat_id s chat')
    /\ seq_channels s' = seq_channels s + 1.
Proof.
  intros s chat title username invite now. cbn zeta.
  unfold Database.add_channel, Database.get_channel_by_chat_id, delete_channels,
    delete_links.
  cbn [snd with_channels with_stats with_usage with_links channels seq_channels].
  repeat split.
  - unfold Sql.fetchone. rewrite find_app_none by apply find_delete_none.
    cbn [ch_chat_id]. rewrite String.eqb_refl. reflexivity.
  - rewrite filter_app.
    rewrite (@filter_nil _ _ (Sql.delete_where _ _)).
    + cbn. rewrite String.eqb_refl. reflexivity.
    + intros c Hc. apply delete_where_spec in Hc. apply Hc.
  - intros chat' Hn. unfold Sql.fetchone.
    assert (Hd : find (fun c => String.eqb (ch_chat_id c) chat')
                   (Sql.delete_where (fun c => String.eqb (ch_chat_id c) chat)
                      (channels s))
                 = find (fun c => String.eqb (ch_chat_id c) chat') (channels s)).
    { apply find_delete_other. intros c Hc. apply String.eqb_eq in Hc.
      apply String.eqb_neq. congruence. }
    destruct (find (fun c => String.eqb (ch_chat_id c) chat') (channels s))
      as [c|] eqn:F.
    + apply find_app_some. exact Hd.
    + rewrite find_app_none by exact Hd. cbn [ch_chat_id].
      replace (String.eqb chat chat') with false; [reflexivity|].
      symmetry. apply String.eqb_neq. congruence.
Qed.

(** X8.  [_update_channel_stats] on an existing channel adds [inc] to the
    named counter of the channel and day, and changes no other counter: not
    the other counter of that day, and nothing of another channel or day. *)
Theorem update_channel_stats_counts :
  forall s cid stat inc today,
    Database.get_channel_by_id s cid <> None ->
    let s' := Database._update_channel_stats s cid stat inc today in
    stat_value s' cid today stat = stat_value s cid today stat + inc
    /\ (forall stat', stat' <> stat ->
          stat_value s' cid today stat' = stat_value s cid today stat')
    /\ (forall cid' day' stat', cid' <> cid \/ day' <> today ->
          stat_value s' cid' day' stat' = stat_value s cid' day' stat')
    /\ personal_invite_links s' = personal_invite_links s.
Proof.
  intros s cid stat inc today Hch. cbn zeta.
  split; [apply update_channel_stats_value; exact Hch|].
  split; [|split; [|apply update_stats_links]].
  - intros stat' Hn. unfold stat_value. rewrite stats_of_update.
    unfold Sql.fetchone.
    destruct (find _ (channel_stats s)) as [r|] eqn:F.
    + rewrite find_update_map by (intros x; destruct stat; reflexivity).
      rewrite F. cbn [option_map].
      apply find_some in F. destruct F as [_ F]. rewrite F.
      destruct stat, stat'; try congruence; reflexivity.
    + destruct (Database.get_channel_by_id s cid); [|congruence].
      rewrite find_app_none by exact F.
      destruct stat; cbn; rewrite !Z.eqb_refl; cbn;
        destruct stat'; try congruence; reflexivity.
  - intros cid' day' stat' Hn. unfold stat_value. rewrite stats_of_update.
    unfold Sql.fetchone.
    assert (Hoff : (cid =? cid') && (today =? day') = false).
    { apply andb_false_iff. destruct Hn as [Hn|Hn]; [left|right];
        apply Z.eqb_neq; congruence. }
    destruct (find (fun r => (cs_channel_id r =? cid) && (cs_date r =? today))
                (channel_stats s)) as [r|] eqn:F.
    + rewrite find_update_map by (intros x; destruct stat; reflexivity).
      destruct (find (fun r0 => (cs_channel_id r0 =? cid') && (cs_date r0 =? day'))
                  (channel_stats s)) as [r'|] eqn:F'; [|reflexivity].
      cbn [option_map]. apply find_some in F'. destruct F' as [_ F'].
      apply andb_true_iff in F'. destruct F' as [A B].
      apply Z.eqb_eq in A. apply Z.eqb_eq in B.
      replace ((cs_channel_id r' =? cid) && (cs_date r' =? today)) with false;
        [reflexivity|].
      symmetry. rewrite A, B. apply andb_false_iff.
      destruct Hn as [Hn|Hn]; [left|right]; apply Z.eqb_neq; exact Hn.
    + destruct (Database.get_channel_by_id s cid); [|congruence].
      destruct (find (fun r0 => (cs_channel_id r0 =? cid') && (cs_date r0 =? day'))
                  (channel_stats s)) as [r'|] eqn:F'.
      * rewrite (find_app_some _ _ _ F'). reflexivity.
      * rewrite find_app_none by exact F'.
        destruct stat; cbn [Database.bump cs_channel_id cs_date];
          rewrite Hoff; reflexivity.
Qed.

Lemma update_channel_stats_counts_witness :
  stat_value (Database._update_channel_stats demo_store 1 LinksUsed 5 0) 1 0 LinksUsed
  = stat_value demo_store 1 0 LinksUsed + 5
  /\ stat_value (Database._update_channel_stats demo_store 1 LinksUsed 5 0) 1 0
       LinksGenerated
     = stat_value demo_store 1 0 LinksGenerated.
Proof.
  destruct (@update_channel_stats_counts demo_store 1 LinksUsed 5 0
              ltac:(cbn; discriminate)) as [H1 [H2 _]].
  split; [exact H1|]. apply H2. discriminate.
Defined.

(** X9.  [ban_user] followed by [unban_user] clears the ban flag but gives
    no link back: the link table is the one the ban left, every link of the
    user is inactive, [get_active_personal_link] finds nothing for the user,
    and the links of the other users are untouched. *)
Theorem unban_does_not_restore_links :
  forall s uid,
    let banned := snd (Database.ban_user s uid) in
    let s' := snd (Database.unban_user banned uid) in
    personal_invite_links s' = personal_invite_links banned
    /\ (forall l, In l (personal_invite_links s') -> user_id l = uid ->
                  is_active l = false)
    /\ (forall cid now, Database.get_active_personal_link s' uid cid now = None)
    /\ (forall u, In u (users s') -> u_user_id u = uid -> u_is_banned u = false)
    /\ (forall l, In l (personal_invite_links s) -> user_id l <> uid ->
                  In l (personal_invite_links s')).
Proof.
  intros s uid. cbn zeta. unfold Database.unban_user, Database.ban_user.
  cbn [snd with_users with_links personal_invite_links users].
  assert (Hoff : forall l,
             In l (Sql.update_where (fun l => user_id l =? uid) (set_active false)
                     (personal_invite_links s)) ->
             user_id l = uid -> is_active l = false).
  { intros l Hl Hu. apply update_where_in in Hl.
    destruct Hl as [y [_ [[Hp ->]|[_ ->]]]]; [|reflexivity].
    apply Z.eqb_neq in Hp. contradiction. }
  split; [reflexivity|]. split; [exact Hoff|]. split; [|split].
  - intros cid now. apply get_active_none_inactive.
    cbn [personal_invite_links]. intros l Hl Hu _. apply Hoff; assumption.
  - intros u Hu Hid. apply update_where_in in Hu.
    destruct Hu as [y [_ [[Hp ->]|[_ ->]]]]; [|reflexivity].
    apply Z.eqb_neq in Hp. contradiction.
  - intros l Hl Hn. unfold Sql.update_where. apply in_map_iff. exists l.
    split; [|exact Hl].
    replace (user_id l =? uid) with false; [reflexivity|].
    symmetry. apply Z.eqb_neq. exact Hn.
Qed.

(** X10.  [add_or_update_user] never changes a ban flag.  For a known user
    it overwrites [username], [full_name] and [last_activity] and keeps
    [user_id], [first_seen] and [is_banned], so a banned user stays banned;
    the rows of the other users stay as they are; for a user id that had no
    row it adds one unbanned row.  The links are untouched, and the same
    call repeated at the same clock changes nothing more. *)
Theorem add_or_update_user_keeps_ban :
  forall s uid username full_name now,
    let s' := snd (Database.add_or_update_user s uid username full_name now) in
    (forall u, In u (users s') ->
       (exists u0, In u0 (users s)
                   /\ u_user_id u = u_user_id u0
                   /\ u_is_banned u = u_is_banned u0
                   /\ u_first_seen u = u_first_seen u0
                   /\ (u_user_id u0 <> uid -> u = u0))
       \/ (u = mkUser uid username full_name now now false
           /\ forall v, In v (users s) -> u_user_id v <> uid))
    /\ (forall u0, In u0 (users s) ->
          exists u, In u (users s')
                    /\ u_user_id u = u_user_id u0
                    /\ u_is_banned u = u_is_banned u0)
    /\ (forall u, In u (users s') -> u_user_id u = uid ->
          u_username u = username /\ u_full_name u = full_name
          /\ u_last_activity u = now)
    /\ (exists u, In u (users s') /\ u_user_id u = uid)
    /\ personal_invite_links s' = personal_invite_links s
    /\ Database.add_or_update_user s' uid username full_name now = (true, s').
Proof.
  intros s uid username full_name now. cbn zeta.
  unfold Database.add_or_update_user.
  set (upd := fun u : User =>
         mkUser (u_user_id u) username full_name (u_first_seen u) now
           (u_is_banned u)).
  destruct (existsb (fun u => u_user_id u =? uid) (users s)) eqn:E;
    cbn [snd with_users users personal_invite_links].
  - assert (Hex : existsb (fun u => u_user_id u =? uid)
                    (Sql.update_where (fun u => u_user_id u =? uid) upd (users s))
                  = true).
    { apply existsb_exists in E. destruct E as [u0 [Hu0 Hid]].
      apply existsb_exists. exists (if u_user_id u0 =? uid then upd u0 else u0).
      split.
      - unfold Sql.update_where. apply in_map_iff. exists u0. auto.
      - rewrite Hid. cbn. exact Hid. }
    split; [|split; [|split; [|split; [|split]]]].
    + intros u Hu. left. apply update_where_in in Hu.
      destruct Hu as [y [Hy [[Hp ->]|[Hp ->]]]]; exists y; cbn; repeat split; auto.
      intros Hn. apply Z.eqb_eq in Hp. contradiction.
    + intros u0 Hu0.
      exists (if u_user_id u0 =? uid then upd u0 else u0). split.
      * unfold Sql.update_where. apply in_map_iff. exists u0. auto.
      * destruct (u_user_id u0 =? uid); auto.
    + intros u Hu Hid. apply update_where_in in Hu.
      destruct Hu as [y [Hy [[Hp ->]|[Hp ->]]]]; [|cbn; auto].
      apply Z.eqb_neq in Hp. contradiction.
    + apply existsb_exists in Hex. destruct Hex as [u [Hu Hid]].
      exists u. split; [exact Hu|]. apply Z.eqb_eq. exact Hid.
    + reflexivity.
    + rewrite Hex. f_equal. unfold with_users. cbn. f_equal.
      unfold Sql.update_where. rewrite map_map. apply map_ext.
      intros u. destruct (u_user_id u =? uid) eqn:Hp; cbn.
      * rewrite Hp. reflexivity.
      * rewrite Hp. reflexivity.
  - assert (Hnone : forall v, In v (users s) -> u_user_id v <> uid).
    { intros v Hv Heq.
      assert (existsb (fun u => u_user_id u =? uid) (users s) = true).
      { apply existsb_exists. exists v. split; [exact Hv|].
        apply Z.eqb_eq. exact Heq. }
      congruence. }
    assert (Hex : existsb (fun u => u_user_id u =? uid)
                    (users s ++ [mkUser uid username full_name now now false])
                  = true).
    { rewrite existsb_app. cbn. rewrite Z.eqb_refl, orb_true_r. reflexivity. }
    split; [|split; [|split; [|split; [|split]]]].
    + intros u Hu. apply in_app_or in Hu. destruct Hu as [Hu|[<-|[]]].
      * left. exists u. repeat split; auto.
      * right. split; [reflexivity|exact Hnone].
    + intros u0 Hu0. exists u0. split; [apply in_or_app; auto|auto].
    + intros u Hu Hid. apply in_app_or in Hu. destruct Hu as [Hu|[<-|[]]].
      * exfalso. exact (Hnone u Hu Hid).
      * cbn. auto.
    + exists (mkUser uid username full_name now now false).
      split; [apply in_or_app; right; left; reflexivity|reflexivity].
    + reflexivity.
    + rewrite Hex. f_equal. unfold with_users. cbn. f_equal.
      unfold Sql.update_where. rewrite map_app. cbn. rewrite Z.eqb_refl.
      f_equal. fold (Sql.update_where (fun u => u_user_id u =? uid) upd (users s)).
      apply update_where_id. intros u Hu. apply Z.eqb_neq. apply Hnone. exact Hu.
Qed.

(** ** Generating a link *)

Lemma generate_cases s uid cid in_loop reply token now now' pynow today :
  let r := Database.generate_personal_invite_link s uid cid in_loop reply token
             now now' pynow today in
  (gen_db r = s
   /\ (gen_link r = None
       \/ exists existing,
            Database.get_active_personal_link s uid cid now = Some existing
            /\ gen_link r = Some (invite_link existing)))
  \/ (exists channel url s1,
        Database.get_active_personal_link s uid cid now = None
        /\ Database.get_channel_by_id s cid = Some channel
        /\ gen_link r = Some url
        /\ String.eqb url EmptyString = false
        /\ (in_loop = true -> url = Database.base_link channel)
        /\ Database.insert_link s uid cid url token
             (pynow + 3600 * LINK_EXPIRE_HOURS s) (MAX_LINK_USES s) now' = Some s1
        /\ gen_db r = Database._update_channel_stats s1 cid LinksGenerated 1 today).
Proof.
  cbn zeta. unfold Database.generate_personal_invite_link.
  destruct (Database.get_active_personal_link s uid cid now) as [existing|] eqn:A.
  { left. cbn. split; [reflexivity|]. right. exists existing. auto. }
  destruct (Database.get_channel_by_id s cid) as [channel|] eqn:C.
  2:{ left. cbn. auto. }
  set (pair0 := if in_loop then _ else _).
  assert (Hp : pair0 = (fst pair0, snd pair0)) by (destruct pair0; reflexivity).
  rewrite Hp. cbn iota beta zeta.
  set (link := if String.eqb (fst pair0) EmptyString then _ else fst pair0).
  assert (Hne : String.eqb link EmptyString = false).
  { subst link. destruct (String.eqb (fst pair0) EmptyString) eqn:E; [|exact E].
    unfold Database.error_link.
    destruct (ch_invite_link channel) as [l|];
      [destruct (String.eqb l EmptyString) eqn:El; [|exact El]|];
      (destruct (ch_username channel) as [n|];
       [destruct (String.eqb n EmptyString); reflexivity|reflexivity]). }
  assert (Hloop : in_loop = true -> link = Database.base_link channel).
  { intros ->. subst link pair0. cbn [fst].
    rewrite base_link_nonempty. reflexivity. }
  destruct (Database.insert_link s uid cid link token _ _ now') as [s1|] eqn:I.
  - right. exists channel, link, s1. cbn. repeat split; auto.
  - left. cbn. auto.
Qed.

Lemma create_cases s uid cid reply token now now' pynow today :
  let r := LinkGeneratorService._create_personal_invite_link s uid cid reply token
             now now' pynow today in
  (gen_db r = s
   /\ (gen_link r = None
       \/ exists existing,
            Database.get_active_personal_link s uid cid now = Some existing
            /\ gen_link r = Some (invite_link existing)))
  \/ (exists url h m s1,
        Database.get_active_personal_link s uid cid now = None
        /\ gen_link r = Some url
        /\ Database.insert_link s uid cid url token (pynow + 3600 * h) m now' = Some s1
        /\ gen_db r = Database._update_channel_stats s1 cid LinksGenerated 1 today).
Proof.
  cbn zeta. unfold LinkGeneratorService._create_personal_invite_link.
  destruct (Database.get_channel_by_id s cid) as [channel|]; [|left; cbn; auto].
  destruct (ch_is_active channel); cbn [negb]; [|left; cbn; auto].
  destruct (Database.get_active_personal_link s uid cid now) as [existing|] eqn:A.
  { left. cbn. split; [reflexivity|]. right. exists existing. auto. }
  set (attempt := if ch_bot_is_admin channel then _ else _).
  destruct attempt as [[link|] calls]; [|left; cbn; auto].
  destruct (String.eqb link EmptyString); [left; cbn; auto|].
  destruct (LinkGeneratorService.as_int _) as [h|]; [|left; cbn; auto].
  destruct (LinkGeneratorService.as_int _) as [m|]; [|left; cbn; auto].
  destruct (Database.insert_link s uid cid link token (pynow + 3600 * h) m now')
    as [s1|] eqn:I; [|left; cbn; auto].
  right. exists link, h, m, s1. cbn. auto.
Qed.

Lemma create_calls s uid cid reply token now now' pynow today :
  let r := LinkGeneratorService._create_personal_invite_link s uid cid reply token
             now now' pynow today in
  (gen_calls r <= 1)%nat
  /\ (gen_calls r = 1%nat ->
      exists channel,
        Database.get_channel_by_id s cid = Some channel
        /\ ch_is_active channel = true
        /\ ch_bot_is_admin channel = true
        /\ Database.get_active_personal_link s uid cid now = None)
  /\ (gen_link r <> None ->
      exists channel,
        Database.get_channel_by_id s cid = Some channel
        /\ ch_is_active channel = true).
Proof.
  cbn zeta. unfold LinkGeneratorService._create_personal_invite_link.
  destruct (Database.get_channel_by_id s cid) as [channel|];
    [|cbn; repeat split; auto; try (intros H; discriminate H); congruence].
  destruct (ch_is_active channel) eqn:Act; cbn [negb];
    [|cbn; repeat split; auto; try (intros H; discriminate H); congruence].
  destruct (Database.get_active_personal_link s uid cid now) as [existing|];
    [cbn; repeat split; auto; try (intros H; discriminate H);
     intros _; exists channel; auto|].
  destruct (ch_bot_is_admin channel) eqn:Adm;
    destruct (LinkGeneratorService.as_int
                (Database.get_setting s "link_expire_hours" (PyInt 1))) as [h|];
    try destruct reply;
    repeat match goal with
           | |- context [String.eqb ?l EmptyString] =>
               destruct (String.eqb l EmptyString)
           | |- context [LinkGeneratorService.as_int ?v] =>
               destruct (LinkGeneratorService.as_int v)
           | |- context [Database.insert_link ?a ?b ?c ?d ?e ?f ?g ?h] =>
               destruct (Database.insert_link a b c d e f g h)
           end;
    cbn; repeat split; auto;
    try (intros H; discriminate H); try congruence;
    try (intros _; exists channel; repeat split; auto).
Qed.

Lemma inserted_links s uid cid url token expire maxu now s1 stat inc today :
  Database.insert_link s uid cid url token expire maxu now = Some s1 ->
  personal_invite_links (Database._update_channel_stats s1 cid stat inc today)
  = personal_invite_links s
      ++ [mkLink (seq_links s + 1) uid cid url token expire maxu 0 true now None]
  /\ seq_links (Database._update_channel_stats s1 cid stat inc today)
     = seq_links s + 1
  /\ users (Database._update_channel_stats s1 cid stat inc today) = users s
  /\ channels (Database._update_channel_stats s1 cid stat inc today) = channels s
  /\ LINK_EXPIRE_HOURS (Database._update_channel_stats s1 cid stat inc today)
     = LINK_EXPIRE_HOURS s
  /\ MAX_LINK_USES (Database._update_channel_stats s1 cid stat inc today)
     = MAX_LINK_USES s.
Proof.
  intros I. apply insert_link_table in I. destruct I as [_ [_ [_ ->]]].
  rewrite update_stats_links, update_stats_seq.
  destruct (update_channel_stats_frame
              (mkStore (LINK_EXPIRE_HOURS s) (MAX_LINK_USES s) (channels s) (users s)
                 (personal_invite_links s
                    ++ [mkLink (seq_links s + 1) uid cid url token expire maxu 0
                          true now None])
                 (link_usage s) (channel_stats s) (bot_settings s) (seq_channels s)
                 (seq_links s + 1)) cid stat inc today) as [_ [_ [Hc [Hu _]]]].
  rewrite Hc, Hu. cbn. repeat split; auto;
    unfold Database._update_channel_stats;
    repeat match goal with
           | |- context [match ?x with _ => _ end] => destruct x
           end; reflexivity.
Qed.

(** X11.  Called inside a running event loop,
    [generate_personal_invite_link] never calls the Telegram API and its
    result does not depend on what the API would have answered: the link it
    hands out is the stored one when the pair has a usable link, and
    otherwise the channel's shared base link. *)
Theorem generate_in_running_loop_skips_provider :
  forall s uid cid reply reply' token now now' pynow today,
    let r := Database.generate_personal_invite_link s uid cid true reply token
               now now' pynow today in
    gen_calls r = 0%nat
    /\ Database.generate_personal_invite_link s uid cid true reply' token
         now now' pynow today = r
    /\ forall url, gen_link r = Some url ->
         (exists existing,
             Database.get_active_personal_link s uid cid now = Some existing
             /\ url = invite_link existing)
         \/ (exists channel,
               Database.get_channel_by_id s cid = Some channel
               /\ url = Database.base_link channel).
Proof.
  intros s uid cid reply reply' token now now' pynow today. cbn zeta.
  split; [|split].
  - unfold Database.generate_personal_invite_link.
    destruct (Database.get_active_personal_link s uid cid now); [reflexivity|].
    destruct (Database.get_channel_by_id s cid); [|reflexivity].
    cbn iota beta zeta.
    match goal with
    | |- context [Database.insert_link ?a ?b ?c ?d ?e ?f ?g ?h] =>
        destruct (Database.insert_link a b c d e f g h)
    end; reflexivity.
  - reflexivity.
  - intros url Hurl.
    destruct (generate_cases s uid cid true reply token now now' pynow today)
      as [[_ [Hn|[ex [Hex Hl]]]]|[channel [u [s1 [_ [Hc [Hl [_ [Hb _]]]]]]]]].
    + congruence.
    + left. exists ex. split; [exact Hex|congruence].
    + right. exists channel. split; [exact Hc|].
      rewrite <- (Hb eq_refl). congruence.
Qed.

(** X12.  When the pair has no usable link, the channel row exists (active
    or not), the user is registered and the token is new,
    [generate_personal_invite_link] appends one active, unused row whose
    limit and lifetime are the [MAX_LINK_USES] and [LINK_EXPIRE_HOURS] of
    the [Database] object, whatever [bot_settings] holds, and counts one
    generated link for the channel.  The URL stored and returned is the
    channel's base link inside a running loop and the API's answer outside
    of it, which is the error link when the API call failed. *)
Theorem generate_personal_invite_link_new_row :
  forall s uid cid (in_loop : bool) reply token now now' pynow today channel,
    Database.get_active_personal_link s uid cid now = None ->
    Database.get_channel_by_id s cid = Some channel ->
    existsb (fun u => u_user_id u =? uid) (users s) = true ->
    existsb (fun l => String.eqb (link_token l) token) (personal_invite_links s)
    = false ->
    let url :=
      if in_loop then Database.base_link channel
      else Database._create_invite_link_async reply in
    String.eqb url EmptyString = false ->
    let r := Database.generate_personal_invite_link s uid cid in_loop reply token
               now now' pynow today in
    gen_link r = Some url
    /\ personal_invite_links (gen_db r)
       = personal_invite_links s
           ++ [mkLink (seq_links s + 1) uid cid url token
                 (pynow + 3600 * LINK_EXPIRE_HOURS s) (MAX_LINK_USES s) 0 true
                 now' None]
    /\ stat_value (gen_db r) cid today LinksGenerated
       = stat_value s cid today LinksGenerated + 1
    /\ (in_loop = false -> (reply = Refused \/ reply = Crashed) ->
        url = Database.error_link).
Proof.
  intros s uid cid in_loop reply token now now' pynow today channel
    Hnone Hch Huser Htok url Hurl r.
  assert (Hr : r = mkGenResult (Some url) (if in_loop then 0%nat else 1%nat)
                 (Database._update_channel_stats
                    (mkStore (LINK_EXPIRE_HOURS s) (MAX_LINK_USES s) (channels s)
                       (users s)
                       (personal_invite_links s
                          ++ [mkLink (seq_links s + 1) uid cid url token
                                (pynow + 3600 * LINK_EXPIRE_HOURS s)
                                (MAX_LINK_USES s) 0 true now' None])
                       (link_usage s) (channel_stats s) (bot_settings s)
                       (seq_channels s) (seq_links s + 1))
                    cid LinksGenerated 1 today)).
  { subst r. unfold Database.generate_personal_invite_link.
    rewrite Hnone, Hch. subst url.
    destruct in_loop; cbn iota beta zeta; rewrite Hurl;
      rewrite (@insert_link_ok s uid cid _ token _ _ _ Huser
                 (@channel_by_id_exists s cid channel Hch) Htok); reflexivity. }
  rewrite Hr. cbn [gen_link gen_db].
  split; [reflexivity|]. split; [apply update_stats_links|]. split.
  - set (s1 := mkStore _ _ _ _ _ _ _ _ _ _).
    assert (Hch1 : Database.get_channel_by_id s1 cid <> None)
      by (unfold Database.get_channel_by_id in *; subst s1;
          cbn [channels]; rewrite Hch; discriminate).
    rewrite (@update_channel_stats_value s1 cid LinksGenerated 1 today Hch1).
    reflexivity.
  - intros -> [->| ->]; reflexivity.
Qed.

Lemma generate_personal_invite_link_new_row_witness :
  gen_link (Database.generate_personal_invite_link base_store 7 1 false Crashed
              "tok-n" 20 21 21 0)
  = Some "https://t.me/joinchat/error"
  /\ gen_link (Database.generate_personal_invite_link base_store 7 1 true Crashed
                 "tok-n" 20 21 21 0)
     = Some "https://t.me/news".
Proof.
  split.
  - exact (proj1 (@generate_personal_invite_link_new_row base_store 7 1 false
                    Crashed "tok-n" 20 21 21 0
                    (mkChannel 1 "-1001" "News" (Some "news") None true false 10)
                    eq_refl eq_refl eq_refl eq_refl eq_refl)).
  - exact (proj1 (@generate_personal_invite_link_new_row base_store 7 1 true
                    Crashed "tok-n" 20 21 21 0
                    (mkChannel 1 "-1001" "News" (Some "news") None true false 10)
                    eq_refl eq_refl eq_refl eq_refl eq_refl)).
Defined.

(** X13.  A generation that returns no link has written nothing: when
    [generate_personal_invite_link] or [_create_personal_invite_link]
    returns [None], the store is the one it was called on. *)
Theorem failed_generation_writes_nothing :
  forall s uid cid in_loop reply token now now' pynow today,
    (gen_link (Database.generate_personal_invite_link s uid cid in_loop reply
                 token now now' pynow today) = None ->
     gen_db (Database.generate_personal_invite_link s uid cid in_loop reply
               token now now' pynow today) = s)
    /\ (gen_link (LinkGeneratorService._create_personal_invite_link s uid cid
                    reply token now now' pynow today) = None ->
        gen_db (LinkGeneratorService._create_personal_invite_link s uid cid
                  reply token now now' pynow today) = s).
Proof.
  intros s uid cid in_loop reply token now now' pynow today. split; intros Hn.
  - destruct (generate_cases s uid cid in_loop reply token now now' pynow today)
      as [[Hs _]|[channel [u [s1 [_ [_ [Hl _]]]]]]]; [exact Hs|congruence].
  - destruct (create_cases s uid cid reply token now now' pynow today)
      as [[Hs _]|[u [h [m [s1 [_ [Hl _]]]]]]]; [exact Hs|congruence].
Qed.

Lemma failed_generation_writes_nothing_witness :
  gen_db (Database.generate_personal_invite_link demo_store 7 99 true Refused
            "tok-x" 30 31 31 0) = demo_store
  /\ gen_db (LinkGeneratorService._create_personal_invite_link demo_store 8 1
               Refused "tok-x" 30 31 31 0) = demo_store.
Proof.
  split.
  - exact (proj1 (@failed_generation_writes_nothing demo_store 7 99 true Refused
                    "tok-x" 30 31 31 0) eq_refl).
  - exact (proj2 (@failed_generation_writes_nothing demo_store 8 1 true Refused
                    "tok-x" 30 31 31 0) eq_refl).
Defined.

(** X14.  Every link [_create_personal_invite_link] returns is backed by
    the database: the channel exists and is active, and the store it leaves
    holds an active row of that user and channel with the returned URL.  It
    calls the Telegram API at most once, and only for a channel where the
    bot is administrator and the pair has no usable link. *)
Theorem created_link_is_recorded :
  forall s uid cid reply token now now' pynow today url,
    let r := LinkGeneratorService._create_personal_invite_link s uid cid reply
               token now now' pynow today in
    gen_link r = Some url ->
    (exists channel,
        Database.get_channel_by_id s cid = Some channel
        /\ ch_is_active channel = true)
    /\ (exists l,
          In l (personal_invite_links (gen_db r))
          /\ user_id l = uid /\ channel_id l = cid
          /\ invite_link l = url /\ is_active l = true)
    /\ (gen_calls r <= 1)%nat
    /\ (gen_calls r = 1%nat ->
        exists channel,
          Database.get_channel_by_id s cid = Some channel
          /\ ch_bot_is_admin channel = true
          /\ Database.get_active_personal_link s uid cid now = None).
Proof.
  intros s uid cid reply token now now' pynow today url. cbn zeta. intros Hurl.
  destruct (create_calls s uid cid reply token now now' pynow today)
    as [Hle [Hone Hsome]].
  split; [apply Hsome; congruence|]. split; [|split; [exact Hle|]].
  - destruct (create_cases s uid cid reply token now now' pynow today)
      as [[Hs [Hn|[ex [Hex Hl]]]]|[u [h [m [s1 [_ [Hl [Hi Hdb]]]]]]]].
    + congruence.
    + exists ex. rewrite Hs.
      destruct (get_active_some _ _ _ _ Hex) as [Hin Hu].
      apply usable_active in Hu. destruct Hu as [Hu1 [Hu2 Hu3]].
      repeat split; auto. congruence.
    + destruct (inserted_links _ _ _ _ _ _ _ _ LinksGenerated 1 today Hi)
        as [Hlinks _].
      exists (mkLink (seq_links s + 1) uid cid u token (pynow + 3600 * h) m 0 true
                now' None).
      rewrite Hdb, Hlinks. repeat split; auto.
      * apply in_or_app. right. left. reflexivity.
      * cbn. congruence.
  - intros H1. destruct (Hone H1) as [c [Hc [_ [Hadm Hnone]]]].
    exists c. auto.
Qed.

Lemma created_link_is_recorded_witness :
  exists l,
    In l (personal_invite_links
            (gen_db (LinkGeneratorService._create_personal_invite_link base_store
                       7 1 (Issued "https://t.me/+abc") "tok-n" 20 21 21 0)))
    /\ user_id l = 7 /\ channel_id l = 1
    /\ invite_link l = "https://t.me/news" /\ is_active l = true.
Proof.
  exact (proj1 (proj2 (@created_link_is_recorded base_store 7 1
                         (Issued "https://t.me/+abc") "tok-n" 20 21 21 0
                         "https://t.me/news" eq_refl))).
Defined.

(** X15.  When the user already holds a usable link on every active
    channel, [generate_links_for_user] hands those links back, one entry per
    active channel in order, none marked as new; it does not call the
    Telegram API and leaves the store as it is. *)
Theorem generate_links_for_user_reuses :
  forall s uid env,
    (forall c, In c (Database.get_active_channels s) ->
       Database.get_active_personal_link s uid (ch_id c) (gi_now (env (ch_id c)))
       <> None) ->
    exists es,
      LinkGeneratorService.generate_links_for_user s uid env = (es, 0%nat, s)
      /\ Forall2
           (fun c e =>
              le_channel_id e = ch_id c
              /\ le_is_new e = false
              /\ exists l,
                   Database.get_active_personal_link s uid (ch_id c)
                     (gi_now (env (ch_id c))) = Some l
                   /\ le_invite_link e = invite_link l)
           (Database.get_active_channels s) es.
Proof.
  intros s uid env. unfold LinkGeneratorService.generate_links_for_user.
  generalize (Database.get_active_channels s) as cs.
  induction cs as [|c rest IH]; intros H.
  - exists []. split; [reflexivity|constructor].
  - destruct IH as [es [Hes Hall]]; [intros c' Hc'; apply H; right; exact Hc'|].
    cbn [LinkGeneratorService.generate_each].
    unfold LinkGeneratorService.generate_single_link.
    destruct (Database.get_active_personal_link s uid (ch_id c)
                (gi_now (env (ch_id c)))) as [l|] eqn:E;
      [|exfalso; apply (H c); [left; reflexivity|exact E]].
    rewrite Hes.
    exists (mkLinkEntry (ch_id c) (invite_link l) false :: es).
    split; [reflexivity|]. constructor; [|exact Hall].
    cbn. repeat split. exists l. rewrite E. auto.
Qed.

Lemma generate_links_for_user_reuses_witness :
  exists es,
    LinkGeneratorService.generate_links_for_user demo_store 7
      (fun _ => mkGenInput Refused "tok-b" 30 31 31 0) = (es, 0%nat, demo_store)
    /\ List.length es = 1%nat.
Proof.
  destruct (@generate_links_for_user_reuses demo_store 7
              (fun _ => mkGenInput Refused "tok-b" 30 31 31 0)) as [es [H F]].
  - intros c [<-|[]]. cbn. discriminate.
  - exists es. split; [exact H|].
    apply Forall2_length in F. cbn in F. symmetry. exact F.
Defined.

(** ** The sweeps of [LinkGeneratorService] and [LinkCleanupService] *)

Lemma deactivate_count (p : Link -> bool) (f : Link -> Link) rows :
  (forall l, p l = true -> is_active l = true) ->
  (forall l, is_active (f l) = false) ->
  Z.of_nat (List.length (filter is_active (Sql.update_where p f rows)))
  + Sql.rowcount p rows
  = Z.of_nat (List.length (filter is_active rows)).
Proof.
  intros Hp Hf. unfold Sql.update_where, Sql.rowcount.
  induction rows as [|l rest IH]; cbn [map filter List.length]; [reflexivity|].
  destruct (p l) eqn:E.
  - rewrite Hf, (Hp l E). cbn [List.length]. lia.
  - destruct (is_active l); cbn [List.length]; lia.
Qed.

Lemma update_where_off (p : Link -> bool) (f : Link -> Link) rows l :
  (forall x, is_active (f x) = false) ->
  In l (Sql.update_where p f rows) -> is_active l = true ->
  In l rows /\ p l = false.
Proof.
  intros Hf Hl Ha. apply update_where_in in Hl.
  destruct Hl as [y [Hy [[Hp ->]|[_ ->]]]]; [auto|].
  rewrite Hf in Ha. discriminate.
Qed.

Lemma update_where_keep (A : Type) (p : A -> bool) (f : A -> A) rows x :
  In x rows -> p x = false -> In x (Sql.update_where p f rows).
Proof.
  intros Hx Hp. unfold Sql.update_where. apply in_map_iff. exists x.
  rewrite Hp. auto.
Qed.

Lemma use_nothing_active s uid token now today :
  (forall l, In l (personal_invite_links s) -> link_token l = token ->
             is_active l = false) ->
  Database.use_personal_link s uid token now today
  = mkUseResult false LogNotFoundOrExpired [] s.
Proof.
  intros H. apply use_rejects. intros l Hl.
  destruct (matches token now l) eqn:M; [|reflexivity].
  apply matches_spec in M. destruct M as [Ht [Ha _]].
  rewrite (H l Hl Ht) in Ha. discriminate.
Qed.

(** X16.  After [cleanup_broken_links] every active link points to an
    existing, active channel and has a URL that [validate_invite_link]
    accepts; the number returned is the number of links that went from
    active to inactive; no channel is changed; and a second run finds
    nothing to do. *)
Theorem cleanup_broken_links_effect :
  forall s,
    let r := LinkGeneratorService.cleanup_broken_links s in
    (forall l, In l (personal_invite_links (snd r)) -> is_active l = true ->
       In l (personal_invite_links s)
       /\ LinkGeneratorService.validate_invite_link (invite_link l) = true
       /\ exists c, Database.get_channel_by_id (snd r) (channel_id l) = Some c
                    /\ ch_is_active c = true)
    /\ Z.of_nat (List.length (filter is_active (personal_invite_links (snd r))))
       + fst r
       = Z.of_nat (List.length (filter is_active (personal_invite_links s)))
    /\ channels (snd r) = channels s
    /\ LinkGeneratorService.cleanup_broken_links (snd r) = (0, snd r).
Proof.
  intros s. cbn zeta. unfold LinkGeneratorService.cleanup_broken_links.
  cbn [fst snd with_links personal_invite_links channels].
  set (broken := fun l : Link =>
         is_active l
         && (match Database.get_channel_by_id s (channel_id l) with
             | Some c => negb (ch_is_active c)
             | None => true
             end
             || negb (LinkGeneratorService.validate_invite_link (invite_link l)))).
  assert (Hsound : forall l,
             In l (Sql.update_where broken (set_active false)
                     (personal_invite_links s)) ->
             is_active l = true ->
             In l (personal_invite_links s) /\ broken l = false).
  { intros l. apply update_where_off. reflexivity. }
  split; [|split; [|split]].
  - intros l Hl Ha. destruct (Hsound l Hl Ha) as [Hin Hb].
    split; [exact Hin|]. unfold broken in Hb. rewrite Ha in Hb. cbn in Hb.
    apply orb_false_iff in Hb. destruct Hb as [Hc Hv].
    apply negb_false_iff in Hv. split; [exact Hv|].
    destruct (Database.get_channel_by_id s (channel_id l)) as [c|] eqn:G;
      [|discriminate].
    exists c. split; [exact G|]. apply negb_false_iff. exact Hc.
  - apply deactivate_count; [|reflexivity].
    intros l Hb. unfold broken in Hb. apply andb_true_iff in Hb. apply Hb.
  - reflexivity.
  - assert (Hnone : forall l,
               In l (Sql.update_where broken (set_active false)
                       (personal_invite_links s)) ->
               broken l = false).
    { intros l Hl. destruct (is_active l) eqn:Ha.
      - apply (Hsound l Hl Ha).
      - unfold broken. rewrite Ha. reflexivity. }
    change ((Sql.rowcount broken
               (Sql.update_where broken (set_active false) (personal_invite_links s)),
             with_links
               (with_links s
                  (Sql.update_where broken (set_active false)
                     (personal_invite_links s)))
               (Sql.update_where broken (set_active false)
                  (Sql.update_where broken (set_active false)
                     (personal_invite_links s))))
            = (0, with_links s
                    (Sql.update_where broken (set_active false)
                       (personal_invite_links s)))).
    f_equal.
    + unfold Sql.rowcount. rewrite (filter_nil _ _ Hnone). reflexivity.
    + unfold with_links. cbn. f_equal. apply update_where_id. exact Hnone.
Qed.


(** X18.  After [cleanup_user_links] the user holds no active link and
    [use_personal_link] refuses each of the user's tokens; the links of the
    other users are untouched; the number returned is the number of links
    that went from active to inactive; and a second call deactivates
    nothing. *)
Theorem cleanup_user_links_voids_user :
  forall s uid now,
    let r := LinkCleanupService.cleanup_user_links s uid now in
    (forall l, In l (personal_invite_links (snd r)) -> user_id l = uid ->
               is_active l = false)
    /\ (forall cid t, Database.get_active_personal_link (snd r) uid cid t = None)
    /\ (forall l, In l (personal_invite_links s) -> user_id l <> uid ->
                  In l (personal_invite_links (snd r)))
    /\ Z.of_nat (List.length (filter is_active (personal_invite_links (snd r))))
       + fst r
       = Z.of_nat (List.length (filter is_active (personal_invite_links s)))
    /\ (forall now', LinkCleanupService.cleanup_user_links (snd r) uid now'
                     = (0, snd r)).
Proof.
  intros s uid now. cbn zeta. unfold LinkCleanupService.cleanup_user_links.
  cbn [fst snd with_links personal_invite_links].
  set (hit := fun l : Link => (user_id l =? uid) && is_active l).
  set (off := fun l : Link => set_used_at now (set_active false l)).
  assert (Hoff : forall l, In l (Sql.update_where hit off (personal_invite_links s)) ->
                           user_id l = uid -> is_active l = false).
  { intros l Hl Hu. apply update_where_in in Hl.
    destruct Hl as [y [_ [[Hp ->]|[_ ->]]]]; [|reflexivity].
    unfold hit in Hp. rewrite Hu, Z.eqb_refl in Hp. exact Hp. }
  split; [exact Hoff|]. split; [|split; [|split]].
  - intros cid t. apply get_active_none_inactive.
    cbn [personal_invite_links]. intros l Hl Hu _. auto.
  - intros l Hl Hn. apply update_where_keep; [exact Hl|].
    unfold hit. replace (user_id l =? uid) with false; [reflexivity|].
    symmetry. apply Z.eqb_neq. exact Hn.
  - apply deactivate_count; [|reflexivity].
    intros l Hb. unfold hit in Hb. apply andb_true_iff in Hb. apply Hb.
  - intros now'. fold hit.
    assert (Hnone : forall l,
               In l (Sql.update_where hit off (personal_invite_links s)) ->
               hit l = false).
    { intros l Hl. unfold hit. destruct (user_id l =? uid) eqn:E; [|reflexivity].
      apply Z.eqb_eq in E. rewrite (Hoff l Hl E). reflexivity. }
    f_equal.
    + unfold Sql.rowcount. rewrite (filter_nil _ _ Hnone). reflexivity.
    + unfold with_links. cbn. f_equal. apply update_where_id. exact Hnone.
Qed.

(** X19.  After [cleanup_channel_links] the channel has no active link, for
    any user; the links of the other channels are untouched; the number
    returned is the number of links that went from active to inactive; and
    a second call deactivates nothing. *)
Theorem cleanup_channel_links_voids_channel :
  forall s cid,
    let r := LinkCleanupService.cleanup_channel_links s cid in
    (forall l, In l (personal_invite_links (snd r)) -> channel_id l = cid ->
               is_active l = false)
    /\ (forall uid t, Database.get_active_personal_link (snd r) uid cid t = None)
    /\ (forall l, In l (personal_invite_links s) -> channel_id l <> cid ->
                  In l (personal_invite_links (snd r)))
    /\ Z.of_nat (List.length (filter is_active (personal_invite_links (snd r))))
       + fst r
       = Z.of_nat (List.length (filter is_active (personal_invite_links s)))
    /\ LinkCleanupService.cleanup_channel_links (snd r) cid = (0, snd r).
Proof.
  intros s cid. cbn zeta. unfold LinkCleanupService.cleanup_channel_links.
  cbn [fst snd with_links personal_invite_links].
  set (hit := fun l : Link => (channel_id l =? cid) && is_active l).
  assert (Hoff : forall l,
             In l (Sql.update_where hit (set_active false) (personal_invite_links s)) ->
             channel_id l = cid -> is_active l = false).
  { intros l Hl Hu. apply update_where_in in Hl.
    destruct Hl as [y [_ [[Hp ->]|[_ ->]]]]; [|reflexivity].
    unfold hit in Hp. rewrite Hu, Z.eqb_refl in Hp. exact Hp. }
  split; [exact Hoff|]. split; [|split; [|split]].
  - intros uid t. apply get_active_none_inactive.
    cbn [personal_invite_links]. intros l Hl _ Hc. auto.
  - intros l Hl Hn. apply update_where_keep; [exact Hl|].
    unfold hit. replace (channel_id l =? cid) with false; [reflexivity|].
    symmetry. apply Z.eqb_neq. exact Hn.
  - apply deactivate_count; [|reflexivity].
    intros l Hb. unfold hit in Hb. apply andb_true_iff in Hb. apply Hb.
  - fold hit.
    assert (Hnone : forall l,
               In l (Sql.update_where hit (set_active false)
                       (personal_invite_links s)) ->
               hit l = false).
    { intros l Hl. unfold hit. destruct (channel_id l =? cid) eqn:E; [|reflexivity].
      apply Z.eqb_eq in E. rewrite (Hoff l Hl E). reflexivity. }
    f_equal.
    + unfold Sql.rowcount. rewrite (filter_nil _ _ Hnone). reflexivity.
    + unfold with_links. cbn. f_equal. apply update_where_id. exact Hnone.
Qed.

(** ** [ChannelMonitor] *)

Lemma update_channel_rows s chat title username invite admin now c' :
  In c' (channels (snd (Database.update_channel s chat title username invite admin now))) ->
  exists c, In c (channels s)
            /\ ch_id c' = ch_id c /\ ch_chat_id c' = ch_chat_id c
            /\ ch_is_active c' = ch_is_active c.
Proof.
  unfold Database.update_channel.
  destruct title, username, invite, admin; cbn [snd with_channels channels];
    intros H;
    try (apply update_where_in in H;
         destruct H as [y [Hy [[_ ->]|[_ ->]]]]; exists y; cbn; auto);
    exists c'; auto.
Qed.

Lemma update_channel_frame s chat title username invite admin now :
  personal_invite_links
    (snd (Database.update_channel s chat title username invite admin now))
  = personal_invite_links s
  /\ map ch_id
       (channels (snd (Database.update_channel s chat title username invite admin now)))
     = map ch_id (channels s).
Proof.
  unfold Database.update_channel.
  destruct title, username, invite, admin; cbn [snd with_channels channels
    personal_invite_links]; split; try reflexivity;
    apply update_where_map; reflexivity.
Qed.

Lemma update_channel_find s chat title username invite admin now ch :
  Database.get_channel_by_chat_id s chat = Some ch ->
  exists ch',
    Database.get_channel_by_chat_id
      (snd (Database.update_channel s chat title username invite admin now)) chat
    = Some ch'
    /\ ch_id ch' = ch_id ch.
Proof.
  intros H. unfold Database.update_channel.
  destruct title, username, invite, admin; cbn [snd];
    try (eexists; split;
         [unfold Database.get_channel_by_chat_id, Sql.fetchone in *;
          cbn [with_channels channels];
          apply find_update_where; [reflexivity|exact H]
         |reflexivity]).
  exists ch. auto.
Qed.

Lemma remove_channel_rows s chat now c' :
  In c' (channels (snd (Database.remove_channel s chat now))) ->
  exists c, In c (channels s)
            /\ ch_id c' = ch_id c /\ ch_chat_id c' = ch_chat_id c
            /\ (ch_is_active c' = true -> ch_is_active c = true).
Proof.
  unfold Database.remove_channel. cbn [snd with_links with_channels channels].
  intros H. apply update_where_in in H.
  destruct H as [y [Hy [[_ ->]|[_ ->]]]]; exists y; cbn; auto.
  repeat split; auto. discriminate.
Qed.

Lemma remove_channel_frame s chat now :
  (forall l, In l (personal_invite_links (snd (Database.remove_channel s chat now))) ->
             is_active l = true -> In l (personal_invite_links s))
  /\ map ch_id (channels (snd (Database.remove_channel s chat now)))
     = map ch_id (channels s).
Proof.
  unfold Database.remove_channel.
  cbn [snd with_links with_channels channels personal_invite_links]. split.
  - intros l Hl Ha. apply update_where_in in Hl.
    destruct Hl as [y [Hy [[_ ->]|[_ ->]]]]; [exact Hy|discriminate].
  - apply update_where_map. reflexivity.
Qed.

Lemma remove_channel_off s chat now ch :
  Database.get_channel_by_chat_id s chat = Some ch ->
  (forall c, In c (channels (snd (Database.remove_channel s chat now))) ->
             ch_chat_id c = chat -> ch_is_active c = false)
  /\ (forall l, In l (personal_invite_links (snd (Database.remove_channel s chat now))) ->
                channel_id l = ch_id ch -> is_active l = false).
Proof.
  intros Hch.
  set (off := fun c : Channel =>
         mkChannel (ch_id c) (ch_chat_id c) (ch_title c) (ch_username c)
           (ch_invite_link c) false (ch_bot_is_admin c) now).
  assert (Hfind : Database.get_channel_by_chat_id
            (with_channels s
               (Sql.update_where (fun c => String.eqb (ch_chat_id c) chat) off
                  (channels s)) (seq_channels s)) chat = Some (off ch)).
  { unfold Database.get_channel_by_chat_id, Sql.fetchone. cbn.
    apply find_update_where; [reflexivity|exact Hch]. }
  split.
  - unfold Database.remove_channel. cbn. intros c Hc Hchat.
    apply update_where_in in Hc.
    destruct Hc as [y [_ [[Hp ->]|[_ ->]]]]; [|reflexivity].
    rewrite Hchat, String.eqb_refl in Hp. discriminate.
  - unfold Database.remove_channel. cbn [snd]. fold off. rewrite Hfind.
    cbn. intros l Hl Hc. apply update_where_in in Hl.
    destruct Hl as [y [_ [[Hp ->]|[_ ->]]]]; [|reflexivity].
    rewrite Hc, Z.eqb_refl in Hp. discriminate.
Qed.

(** X20.  [check_single_channel] never brings anything back: whatever the
    Telegram API answers, a channel that is active afterwards was active
    before, a link that is active afterwards is a row that was there and
    active before, and no channel row is added or deleted.  A removed
    channel where the bot is a member again stays removed. *)
Theorem check_single_channel_never_reactivates :
  forall s channel p now now',
    let s' := snd (ChannelMonitor.check_single_channel s channel p now now') in
    (forall c', In c' (channels s') -> ch_is_active c' = true ->
       exists c, In c (channels s)
                 /\ ch_id c = ch_id c' /\ ch_chat_id c = ch_chat_id c'
                 /\ ch_is_active c = true)
    /\ (forall l, In l (personal_invite_links s') -> is_active l = true ->
                  In l (personal_invite_links s))
    /\ map ch_id (channels s') = map ch_id (channels s).
Proof.
  intros s channel p now now'. cbn zeta.
  unfold ChannelMonitor.check_single_channel.
  destruct p as [title username status| |].
  - set (is_admin := String.eqb status "administrator").
    set (is_active := is_admin || String.eqb status "member").
    set (s1 := snd (Database.update_channel s (ch_chat_id channel) title username
                      None (Some is_admin) now)).
    destruct (update_channel_frame s (ch_chat_id channel) title username None
                (Some is_admin) now) as [Hl1 Hid1].
    fold s1 in Hl1, Hid1.
    assert (Hrows1 : forall c', In c' (channels s1) -> ch_is_active c' = true ->
              exists c, In c (channels s)
                        /\ ch_id c = ch_id c' /\ ch_chat_id c = ch_chat_id c'
                        /\ ch_is_active c = true).
    { intros c' Hc' Ha. apply update_channel_rows in Hc'.
      destruct Hc' as [c [Hc [E1 [E2 E3]]]]. exists c.
      repeat split; auto; congruence. }
    destruct (negb is_active && ch_is_active channel).
    + cbn [snd].
      destruct (remove_channel_frame s1 (ch_chat_id channel) now') as [Hl2 Hid2].
      split; [|split].
      * intros c' Hc' Ha. apply remove_channel_rows in Hc'.
        destruct Hc' as [c1 [Hc1 [E1 [E2 E3]]]].
        destruct (Hrows1 c1 Hc1 (E3 Ha)) as [c [Hc [F1 [F2 F3]]]].
        exists c. repeat split; auto; congruence.
      * intros l Hl Ha. rewrite <- Hl1. apply Hl2; assumption.
      * rewrite Hid2. exact Hid1.
    + destruct (negb is_admin && ch_bot_is_admin channel); cbn [snd];
        [split; [exact Hrows1|split; [rewrite Hl1; auto|exact Hid1]]|].
      destruct is_active; cbn [snd with_channels channels personal_invite_links];
        [|split; [exact Hrows1|split; [rewrite Hl1; auto|exact Hid1]]].
      split; [|split].
      * intros c' Hc' Ha. apply update_where_in in Hc'.
        destruct Hc' as [y [Hy [[_ ->]|[_ ->]]]]; [apply Hrows1; assumption|].
        destruct (Hrows1 y Hy Ha) as [c Hc]. exists c. exact Hc.
      * rewrite Hl1. auto.
      * rewrite <- Hid1. apply update_where_map. reflexivity.
  - cbn [snd].
    destruct (remove_channel_frame s (ch_chat_id channel) now) as [Hl2 Hid2].
    split; [|split; [exact Hl2|exact Hid2]].
    intros c' Hc' Ha. apply remove_channel_rows in Hc'.
    destruct Hc' as [c [Hc [E1 [E2 E3]]]]. exists c.
    repeat split; auto.
  - cbn [snd]. split; [|split; auto].
    intros c' Hc' Ha. exists c'. auto.
Qed.

(** X21.  When [force_check_channel] finds the channel and the check shows
    that the bot is no longer in it, the channel ends up inactive, every
    link to it is inactive whoever owns it, [get_active_personal_link] finds
    nothing on it, and the administrators are notified. *)
Theorem force_check_channel_deactivates :
  forall s chat p now now' channel,
    Database.get_channel_by_chat_id s chat = Some channel ->
    membership_lost channel p ->
    let r := ChannelMonitor.force_check_channel s chat p now now' in
    fst (fst r) = true
    /\ snd (fst r)
       = Some (match p with Denied => ChannelRemoved | _ => ChannelInactive end)
    /\ (forall c, In c (channels (snd r)) -> ch_chat_id c = chat ->
                  ch_is_active c = false)
    /\ (forall l, In l (personal_invite_links (snd r)) ->
                  channel_id l = ch_id channel -> is_active l = false)
    /\ (forall uid t,
          Database.get_active_personal_link (snd r) uid (ch_id channel) t = None).
Proof.
  intros s chat p now now' channel Hch Hlost. cbn zeta.
  assert (Hchat : ch_chat_id channel = chat).
  { unfold Database.get_channel_by_chat_id, Sql.fetchone in Hch.
    apply find_some in Hch. apply String.eqb_eq. apply Hch. }
  unfold ChannelMonitor.force_check_channel. rewrite Hch.
  unfold ChannelMonitor.check_single_channel. rewrite Hchat.
  assert (Hfin : forall s1 t1 ch1,
             Database.get_channel_by_chat_id s1 chat = Some ch1 ->
             ch_id ch1 = ch_id channel ->
             (forall c, In c (channels (snd (Database.remove_channel s1 chat t1))) ->
                        ch_chat_id c = chat -> ch_is_active c = false)
             /\ (forall l,
                   In l (personal_invite_links
                           (snd (Database.remove_channel s1 chat t1))) ->
                   channel_id l = ch_id channel -> is_active l = false)
             /\ (forall uid t,
                   Database.get_active_personal_link
                     (snd (Database.remove_channel s1 chat t1)) uid
                     (ch_id channel) t = None)).
  { intros s1 t1 ch1 H1 Hid.
    destruct (@remove_channel_off s1 chat t1 ch1 H1) as [A B]. rewrite Hid in B.
    split; [exact A|]. split; [exact B|].
    intros uid t. apply get_active_none_inactive. intros l Hl _ Hc. auto. }
  destruct p as [title username status| |]; cbn in Hlost.
  - destruct Hlost as [Ha [Hm Hact]].
    replace (String.eqb status "administrator") with false
      by (symmetry; apply String.eqb_neq; exact Ha).
    replace (String.eqb status "member") with false
      by (symmetry; apply String.eqb_neq; exact Hm).
    rewrite Hact. cbn [orb negb andb fst snd].
    split; [reflexivity|]. split; [reflexivity|].
    destruct (@update_channel_find s chat title username None (Some false) now
                channel Hch)
      as [ch1 [H1 Hid]].
    exact (Hfin _ now' ch1 H1 Hid).
  - cbn [fst snd]. split; [reflexivity|]. split; [reflexivity|].
    exact (Hfin s now channel Hch eq_refl).
  - contradiction.
Qed.

Lemma force_check_channel_deactivates_witness :
  Database.get_active_personal_link
    (snd (ChannelMonitor.force_check_channel two_link_store "-1001"
            (Answered (Some "News") (Some "news") "left") 40 41))
    7 1 50 = None
  /\ Database.get_active_personal_link two_link_store 7 1 50 <> None.
Proof.
  split; [|cbn; discriminate].
  refine (proj2 (proj2 (proj2 (proj2
            (@force_check_channel_deactivates two_link_store "-1001"
               (Answered (Some "News") (Some "news") "left") 40 41
               (mkChannel 1 "-1001" "News" (Some "news") None true false 10)
               eq_refl _)))) 7 50).
  cbn. repeat split; discriminate.
Defined.

(** ** The loops of [class Database] *)

Lemma generate_step s uid cid in_loop reply token now now' pynow today :
  let r := Database.generate_personal_invite_link s uid cid in_loop reply token
             now now' pynow today in
  users (gen_db r) = users s
  /\ channels (gen_db r) = channels s
  /\ LINK_EXPIRE_HOURS (gen_db r) = LINK_EXPIRE_HOURS s
  /\ (in_loop = true -> gen_calls r = 0%nat)
  /\ ((personal_invite_links (gen_db r) = personal_invite_links s
       /\ seq_links (gen_db r) = seq_links s
       /\ forall url, gen_link r = Some url ->
            exists l, In l (personal_invite_links s)
                      /\ user_id l = uid /\ channel_id l = cid
                      /\ invite_link l = url /\ is_active l = true)
      \/ exists row,
           personal_invite_links (gen_db r) = personal_invite_links s ++ [row]
           /\ seq_links (gen_db r) = seq_links s + 1
           /\ id row = seq_links s + 1
           /\ user_id row = uid /\ channel_id row = cid
           /\ is_active row = true
           /\ gen_link r = Some (invite_link row)).
Proof.
  cbn zeta.
  assert (Hcalls : in_loop = true ->
            gen_calls (Database.generate_personal_invite_link s uid cid in_loop
                         reply token now now' pynow today) = 0%nat).
  { intros ->. unfold Database.generate_personal_invite_link.
    destruct (Database.get_active_personal_link s uid cid now); [reflexivity|].
    destruct (Database.get_channel_by_id s cid); [|reflexivity].
    cbn iota beta zeta.
    match goal with
    | |- context [Database.insert_link ?a ?b ?c ?d ?e ?f ?g ?h] =>
        destruct (Database.insert_link a b c d e f g h)
    end; reflexivity. }
  destruct (generate_cases s uid cid in_loop reply token now now' pynow today)
    as [[Hs Hl]|[channel [url [s1 [_ [_ [Hl [_ [_ [Hi Hdb]]]]]]]]]].
  - rewrite Hs. repeat split; auto. left. repeat split; auto.
    intros url Hurl. destruct Hl as [Hn|[ex [Hex Hl]]]; [congruence|].
    destruct (get_active_some _ _ _ _ Hex) as [Hin Hu].
    apply usable_active in Hu. destruct Hu as [Hu1 [Hu2 Hu3]].
    exists ex. repeat split; auto. congruence.
  - destruct (inserted_links _ _ _ _ _ _ _ _ LinksGenerated 1 today Hi)
      as [Hlinks [Hseq [Hu [Hc [Hh _]]]]].
    rewrite Hdb. repeat split; auto. right.
    eexists. split; [exact Hlinks|]. cbn. repeat split; auto.
Qed.

Lemma links_for_channels_spec uid in_loop env cs :
  forall s,
    let r := DatabaseLoops.links_for_channels s uid in_loop env cs in
    (exists tail,
        personal_invite_links (snd r) = personal_invite_links s ++ tail
        /\ forall l, In l tail ->
             user_id l = uid /\ is_active l = true
             /\ exists c, In c cs /\ ch_id c = channel_id l)
    /\ (forall e, In e (fst (fst r)) ->
          exists l c,
            In l (personal_invite_links (snd r)) /\ In c cs
            /\ user_id l = uid /\ channel_id l = ch_id c
            /\ invite_link l = ul_invite_link e
            /\ ul_channel_title e = ch_title c)
    /\ (List.length (fst (fst r)) <= List.length cs)%nat
    /\ (in_loop = true -> snd (fst r) = 0%nat).
Proof.
  induction cs as [|c rest IH]; intros s; cbn zeta.
  - cbn. split; [exists []; rewrite List.app_nil_r; split; [reflexivity|]|];
      [intros l []|]. repeat split; auto. intros e [].
  - cbn [DatabaseLoops.links_for_channels].
    destruct (Database.get_active_personal_link s uid (ch_id c)
                (ri_select (env (ch_id c)))) as [existing|] eqn:A.
    + specialize (IH s). cbn zeta in IH.
      destruct (DatabaseLoops.links_for_channels s uid in_loop env rest)
        as [[es m] s2].
      cbn [fst snd] in *.
      destruct IH as [[tail [Ht Htail]] [Hes [Hlen Hcalls]]].
      destruct (get_active_some _ _ _ _ A) as [Hin Hu].
      apply usable_active in Hu. destruct Hu as [Hu1 [Hu2 Hu3]].
      split; [|split; [|split]].
      * exists tail. split; [exact Ht|]. intros l Hl.
        destruct (Htail l Hl) as [B1 [B2 [c' [Hc' B3]]]].
        repeat split; auto. exists c'. split; [right; exact Hc'|exact B3].
      * intros e [<-|He].
        -- exists existing, c. rewrite Ht. cbn.
           split; [apply in_or_app; left; exact Hin|].
           split; [left; reflexivity|]. repeat split; auto.
        -- destruct (Hes e He) as [l [c' [C1 [C2 C3]]]].
           exists l, c'. split; [exact C1|]. split; [right; exact C2|exact C3].
      * cbn [List.length]. lia.
      * exact Hcalls.
    + set (g := ri_gen (env (ch_id c))).
      destruct (generate_step s uid (ch_id c) in_loop (gi_reply g) (gi_token g)
                  (gi_now g) (gi_now' g) (gi_pynow g) (gi_today g))
        as [_ [_ [_ [Hc0 Hstep]]]].
      set (r := Database.generate_personal_invite_link s uid (ch_id c) in_loop
                  (gi_reply g) (gi_token g) (gi_now g) (gi_now' g) (gi_pynow g)
                  (gi_today g)) in *.
      specialize (IH (gen_db r)). cbn zeta in IH.
      destruct (DatabaseLoops.links_for_channels (gen_db r) uid in_loop env rest)
        as [[es m] s2].
      cbn [fst snd] in *.
      destruct IH as [[tail [Ht Htail]] [Hes [Hlen Hcalls]]].
      assert (Hes' : forall e, In e es ->
                exists l c0,
                  In l (personal_invite_links s2) /\ In c0 (c :: rest)
                  /\ user_id l = uid /\ channel_id l = ch_id c0
                  /\ invite_link l = ul_invite_link e
                  /\ ul_channel_title e = ch_title c0).
      { intros e He. destruct (Hes e He) as [l [c' [C1 [C2 C3]]]].
        exists l, c'. split; [exact C1|]. split; [right; exact C2|exact C3]. }
      assert (Htail' : forall l, In l tail ->
                user_id l = uid /\ is_active l = true
                /\ exists c0, In c0 (c :: rest) /\ ch_id c0 = channel_id l).
      { intros l Hl. destruct (Htail l Hl) as [B1 [B2 [c' [Hc' B3]]]].
        repeat split; auto. exists c'. split; [right; exact Hc'|exact B3]. }
      assert (Hentry : forall link,
                gen_link r = Some link ->
                exists l, In l (personal_invite_links s2)
                          /\ user_id l = uid /\ channel_id l = ch_id c
                          /\ invite_link l = link).
      { intros link Hlink. destruct Hstep as [[Hsame [_ Hold]]|[row [Hrow R]]].
        - destruct (Hold link Hlink) as [l [L1 [L2 [L3 [L4 _]]]]].
          exists l. rewrite Ht, Hsame. repeat split; auto.
          apply in_or_app. auto.
        - destruct R as [_ [_ [R1 [R2 [_ R3]]]]].
          exists row. rewrite Ht, Hrow. repeat split; auto.
          + apply in_or_app. left. apply in_or_app. right. left. reflexivity.
          + congruence. }
      split; [|split; [|split]].
      * destruct Hstep as [[Hsame _]|[row [Hrow R]]].
        -- exists tail. rewrite Ht, Hsame. auto.
        -- exists (row :: tail). rewrite Ht, Hrow, <- List.app_assoc.
           split; [reflexivity|]. intros l [<-|Hl]; [|auto].
           destruct R as [_ [_ [R1 [R2 [R3 _]]]]].
           repeat split; auto. exists c. split; [left; reflexivity|auto].
      * destruct (gen_link r) as [link|]; [|exact Hes'].
        destruct (String.eqb link EmptyString); [exact Hes'|].
        intros e [<-|He]; [|auto].
        destruct (Hentry link eq_refl) as [l [L1 [L2 [L3 L4]]]].
        exists l, c. cbn. repeat split; auto; left; reflexivity.
      * destruct (gen_link r) as [link|]; [|cbn [List.length]; lia].
        destruct (String.eqb link EmptyString); cbn [List.length]; lia.
      * intros Hl. rewrite (Hc0 Hl), (Hcalls Hl). reflexivity.
Qed.

(** X22.  [get_user_links_for_all_channels] only appends to the link table:
    the rows it adds are active rows of the user on active channels.  Every
    entry it returns is backed by a stored row of that user with the
    returned URL on the active channel whose title the entry carries; there
    is at most one entry per active channel; and inside a running event
    loop it makes no Telegram API call. *)
Theorem get_user_links_for_all_channels_recorded :
  forall s uid in_loop env,
    let r := DatabaseLoops.get_user_links_for_all_channels s uid in_loop env in
    (exists tail,
        personal_invite_links (snd r) = personal_invite_links s ++ tail
        /\ forall l, In l tail ->
             user_id l = uid /\ is_active l = true
             /\ exists c, In c (Database.get_active_channels s)
                          /\ ch_id c = channel_id l)
    /\ (forall e, In e (fst (fst r)) ->
          exists l c,
            In l (personal_invite_links (snd r))
            /\ In c (Database.get_active_channels s)
            /\ user_id l = uid /\ channel_id l = ch_id c
            /\ invite_link l = ul_invite_link e
            /\ ul_channel_title e = ch_title c)
    /\ (List.length (fst (fst r)) <= List.length (Database.get_active_channels s))%nat
    /\ (in_loop = true -> snd (fst r) = 0%nat).
Proof.
  intros s uid in_loop env.
  apply (links_for_channels_spec uid in_loop env (Database.get_active_channels s) s).
Qed.

Lemma regenerate_channels_spec uid in_loop env cs :
  forall s,
    let r := DatabaseLoops.regenerate_channels s uid in_loop env cs in
    (exists tail,
        personal_invite_links (snd r) = personal_invite_links s ++ tail
        /\ forall l, In l tail ->
             seq_links s < id l /\ user_id l = uid /\ is_active l = true
             /\ exists c, In c cs /\ ch_id c = channel_id l)
    /\ seq_links s <= seq_links (snd r)
    /\ 0 <= fst (fst r) <= Z.of_nat (List.length cs)
    /\ (in_loop = true -> snd (fst r) = 0%nat).
Proof.
  induction cs as [|c rest IH]; intros s; cbn zeta.
  - cbn. split; [exists []; rewrite List.app_nil_r; split; [reflexivity|]|];
      [intros l []|]. repeat split; auto; lia.
  - cbn [DatabaseLoops.regenerate_channels].
    set (g := env uid (ch_id c)).
    destruct (generate_step s uid (ch_id c) in_loop (gi_reply g) (gi_token g)
                (gi_now g) (gi_now' g) (gi_pynow g) (gi_today g))
      as [_ [_ [_ [Hc0 Hstep]]]].
    set (r := Database.generate_personal_invite_link s uid (ch_id c) in_loop
                (gi_reply g) (gi_token g) (gi_now g) (gi_now' g) (gi_pynow g)
                (gi_today g)) in *.
    specialize (IH (gen_db r)). cbn zeta in IH.
    destruct (DatabaseLoops.regenerate_channels (gen_db r) uid in_loop env rest)
      as [[n m] s2].
    cbn [fst snd] in *.
    destruct IH as [[tail [Ht Htail]] [Hseq [Hn Hcalls]]].
    assert (Hone : 0 <= match gen_link r with
                        | Some link => if String.eqb link EmptyString then 0 else 1
                        | None => 0
                        end <= 1).
    { destruct (gen_link r) as [link|]; [|lia].
      destruct (String.eqb link EmptyString); lia. }
    split; [|split; [|split]].
    + destruct Hstep as [[Hsame [Hq _]]|[row [Hrow R]]].
      * exists tail. rewrite Ht, Hsame. split; [reflexivity|].
        intros l Hl. destruct (Htail l Hl) as [B0 [B1 [B2 [c' [Hc' B3]]]]].
        repeat split; auto; [lia|]. exists c'. split; [right; exact Hc'|exact B3].
      * destruct R as [Hq [R0 [R1 [R2 [R3 _]]]]].
        exists (row :: tail). rewrite Ht, Hrow, <- List.app_assoc.
        split; [reflexivity|]. intros l [<-|Hl].
        -- repeat split; auto; [lia|]. exists c. split; [left; reflexivity|auto].
        -- destruct (Htail l Hl) as [B0 [B1 [B2 [c' [Hc' B3]]]]].
           repeat split; auto; [lia|].
           exists c'. split; [right; exact Hc'|exact B3].
    + destruct Hstep as [[_ [Hq _]]|[row [_ [Hq _]]]]; lia.
    + cbn [List.length]. lia.
    + intros Hl. rewrite (Hc0 Hl), (Hcalls Hl). reflexivity.
Qed.

Lemma regenerate_users_spec in_loop env cs us :
  forall s,
    let r := DatabaseLoops.regenerate_users s in_loop env us cs in
    (exists tail,
        personal_invite_links (snd r) = personal_invite_links s ++ tail
        /\ forall l, In l tail ->
             seq_links s < id l /\ is_active l = true
             /\ (exists u, In u us /\ u_user_id u = user_id l
                           /\ u_is_banned u = false)
             /\ exists c, In c cs /\ ch_id c = channel_id l)
    /\ seq_links s <= seq_links (snd r)
    /\ 0 <= fst (fst r) <= Z.of_nat (List.length us) * Z.of_nat (List.length cs)
    /\ (in_loop = true -> snd (fst r) = 0%nat).
Proof.
  induction us as [|u rest IH]; intros s; cbn zeta.
  - cbn. split; [exists []; rewrite List.app_nil_r; split; [reflexivity|]|];
      [intros l []|]. repeat split; auto; lia.
  - cbn [DatabaseLoops.regenerate_users].
    destruct (u_is_banned u) eqn:Ban.
    + specialize (IH s). cbn zeta in IH.
      destruct IH as [[tail [Ht Htail]] [Hseq [Hn Hcalls]]].
      split; [|split; [exact Hseq|split; [|exact Hcalls]]].
      * exists tail. split; [exact Ht|]. intros l Hl.
        destruct (Htail l Hl) as [B0 [B1 [[u' [Hu' B2]] B3]]].
        repeat split; auto. exists u'. split; [right; exact Hu'|exact B2].
      * cbn [List.length]. nia.
    + destruct (regenerate_channels_spec (u_user_id u) in_loop env cs s)
        as [[tail1 [Ht1 Htail1]] [Hseq1 [Hn1 Hcalls1]]].
      destruct (DatabaseLoops.regenerate_channels s (u_user_id u) in_loop env cs)
        as [[n1 m1] s1].
      cbn [fst snd] in *.
      specialize (IH s1). cbn zeta in IH.
      destruct (DatabaseLoops.regenerate_users s1 in_loop env rest cs)
        as [[n2 m2] s2].
      cbn [fst snd] in *.
      destruct IH as [[tail [Ht Htail]] [Hseq [Hn Hcalls]]].
      split; [|split; [lia|split]].
      * exists (tail1 ++ tail). rewrite Ht, Ht1, <- List.app_assoc.
        split; [reflexivity|]. intros l Hl. apply in_app_or in Hl.
        destruct Hl as [Hl|Hl].
        -- destruct (Htail1 l Hl) as [B0 [B1 [B2 B3]]].
           repeat split; auto. exists u.
           split; [left; reflexivity|]. auto.
        -- destruct (Htail l Hl) as [B0 [B1 [[u' [Hu' B2]] B3]]].
           repeat split; auto; [lia|].
           exists u'. split; [right; exact Hu'|exact B2].
      * cbn [List.length]. nia.
      * intros Hl. rewrite (Hcalls1 Hl), (Hcalls Hl). reflexivity.
Qed.

(** X23.  After [force_regenerate_all_links] every link that existed before
    is inactive, and the only rows added are new links of users that are not
    banned on channels that are active: an active link afterwards is always
    one created by this call for an unbanned user.  The number returned is
    at most users times active channels, and inside a running event loop no
    Telegram API call is made. *)
Theorem force_regenerate_all_links_fresh :
  forall s in_loop env,
    let r := DatabaseLoops.force_regenerate_all_links s in_loop env in
    (exists tail,
        personal_invite_links (snd r)
        = map (set_active false) (personal_invite_links s) ++ tail
        /\ forall l, In l tail ->
             seq_links s < id l /\ is_active l = true
             /\ (exists u, In u (users s) /\ u_user_id u = user_id l
                           /\ u_is_banned u = false)
             /\ exists c, In c (channels s) /\ ch_is_active c = true
                          /\ ch_id c = channel_id l)
    /\ (forall l, In l (personal_invite_links (snd r)) -> is_active l = true ->
          seq_links s < id l
          /\ exists u, In u (users s) /\ u_user_id u = user_id l
                       /\ u_is_banned u = false)
    /\ 0 <= fst (fst r)
       <= Z.of_nat (List.length (users s))
          * Z.of_nat (List.length (Database.get_active_channels s))
    /\ (in_loop = true -> snd (fst r) = 0%nat).
Proof.
  intros s in_loop env. cbn zeta.
  unfold DatabaseLoops.force_regenerate_all_links.
  destruct (regenerate_users_spec in_loop env
              (Database.get_active_channels (Database.deactivate_all_links s))
              (DatabaseLoops.get_all_users (Database.deactivate_all_links s))
              (Database.deactivate_all_links s))
    as [[tail [Ht Htail]] [_ [Hn Hcalls]]].
  set (r := DatabaseLoops.regenerate_users _ _ _ _ _) in *.
  unfold DatabaseLoops.get_all_users, Database.get_active_channels,
    Database.deactivate_all_links in Ht, Htail, Hn.
  cbn [with_links personal_invite_links users channels seq_links] in Ht, Htail, Hn.
  assert (Htail' : forall l, In l tail ->
             seq_links s < id l /\ is_active l = true
             /\ (exists u, In u (users s) /\ u_user_id u = user_id l
                           /\ u_is_banned u = false)
             /\ exists c, In c (channels s) /\ ch_is_active c = true
                          /\ ch_id c = channel_id l).
  { intros l Hl. destruct (Htail l Hl) as [B0 [B1 [[u [Hu B2]] [c [Hc B3]]]]].
    repeat split; auto.
    - exists u. split; [apply in_rev; exact Hu|exact B2].
    - apply filter_In in Hc. exists c. destruct Hc. auto. }
  split; [exists tail; auto|]. split; [|split; [|exact Hcalls]].
  - intros l Hl Ha. rewrite Ht in Hl. apply in_app_or in Hl.
    destruct Hl as [Hl|Hl].
    + apply in_map_iff in Hl. destruct Hl as [l0 [<- _]]. discriminate.
    + destruct (Htail' l Hl) as [B0 [_ [B2 _]]]. auto.
  - rewrite length_rev in Hn. exact Hn.
Qed.

Lemma regenerate_skips_banned_example :
  map (fun l => (user_id l, is_active l))
    (personal_invite_links
       (snd (DatabaseLoops.force_regenerate_all_links mixed_store true
               (fun uid _ =>
                  mkGenInput Refused (if uid =? 8 then "tok-c" else "tok-d")
                    40 41 41 0))))
  = [(7, false); (8, false); (8, true)].
Proof. reflexivity. Qed.

(** ** Deleting channels *)

Lemma hit_false (p : Channel -> bool) (rows : list Channel) (cid : Z) :
  existsb (fun ch => ch_id ch =? cid) (filter p rows) = false
  <-> forall c, In c rows -> ch_id c = cid -> p c = false.
Proof.
  split.
  - intros H c Hc Hid. destruct (p c) eqn:E; [|reflexivity].
    assert (existsb (fun ch => ch_id ch =? cid) (filter p rows) = true).
    { apply existsb_exists. exists c. split; [apply filter_In; auto|].
      apply Z.eqb_eq. exact Hid. }
    congruence.
  - intros H.
    destruct (existsb (fun ch => ch_id ch =? cid) (filter p rows)) eqn:E;
      [|reflexivity].
    apply existsb_exists in E. destruct E as [c [Hc Hid]].
    apply filter_In in Hc. destruct Hc as [Hc Hp]. apply Z.eqb_eq in Hid.
    rewrite (H c Hc Hid) in Hp. discriminate.
Qed.

Lemma delete_channels_rows p s :
  channels (delete_channels p s) = Sql.delete_where p (channels s)
  /\ personal_invite_links (delete_channels p s)
     = Sql.delete_where
         (fun l => existsb (fun ch => ch_id ch =? channel_id l)
                     (filter p (channels s)))
         (personal_invite_links s)
  /\ channel_stats (delete_channels p s)
     = Sql.delete_where
         (fun st => existsb (fun ch => ch_id ch =? cs_channel_id st)
                      (filter p (channels s)))
         (channel_stats s)
  /\ users (delete_channels p s) = users s.
Proof. repeat split. Qed.


(** X25.  [cleanup_specific_channel_data] leaves no trace of the channel:
    its row, its links and its statistics are gone, while the channels,
    links and statistics of every other channel id, and the users, are kept
    as they are. *)
Theorem cleanup_specific_channel_data_removes_all :
  forall s cid,
    let s' := LinkCleanupService.cleanup_specific_channel_data s cid in
    Database.get_channel_by_id s' cid = None
    /\ (forall c, In c (channels s') <-> In c (channels s) /\ ch_id c <> cid)
    /\ (forall l, In l (personal_invite_links s')
                  <-> In l (personal_invite_links s) /\ channel_id l <> cid)
    /\ (forall st, In st (channel_stats s')
                   <-> In st (channel_stats s) /\ cs_channel_id st <> cid)
    /\ users s' = users s.
Proof.
  intros s cid. cbn zeta.
  unfold LinkCleanupService.cleanup_specific_channel_data.
  set (s2 := with_stats _ _).
  assert (L2 : personal_invite_links s2
               = Sql.delete_where (fun l => channel_id l =? cid)
                   (personal_invite_links s)) by reflexivity.
  assert (S2 : channel_stats s2
               = Sql.delete_where (fun st => cs_channel_id st =? cid)
                   (channel_stats s)) by reflexivity.
  destruct (delete_channels_rows (fun c => ch_id c =? cid) s2)
    as [Hc [Hl [Hst Hu]]].
  assert (Hhit : forall x,
             x <> cid ->
             existsb (fun ch => ch_id ch =? x)
               (filter (fun c => ch_id c =? cid) (channels s2)) = false).
  { intros x Hx. apply hit_false. intros c _ Hid.
    apply Z.eqb_neq. congruence. }
  split; [|split; [|split; [|split]]].
  - unfold Database.get_channel_by_id, Sql.fetchone. rewrite Hc.
    apply find_delete_none.
  - intros c. rewrite Hc, delete_where_spec, Z.eqb_neq. reflexivity.
  - intros l. rewrite Hl, delete_where_spec, L2, delete_where_spec, Z.eqb_neq.
    split; [intros [H _]; exact H|].
    intros [Hin Hn]. split; [auto|]. apply Hhit. exact Hn.
  - intros st. rewrite Hst, delete_where_spec, S2, delete_where_spec, Z.eqb_neq.
    split; [intros [H _]; exact H|].
    intros [Hin Hn]. split; [auto|]. apply Hhit. exact Hn.
  - rewrite Hu. reflexivity.
Qed.

(** ** [perform_full_cleanup] *)

Lemma reaping_keeps_usable s now pynow t uid cid :
  now <= t ->
  usable_rows (snd (Database.cleanup_expired_links s now pynow)) t uid cid
  = usable_rows s t uid cid.
Proof.
  intros Ht. unfold usable_rows, Database.cleanup_expired_links. cbn [snd].
  unfold delete_links.
  cbn [with_usage with_links personal_invite_links LINK_EXPIRE_HOURS].
  rewrite filter_delete_same.
  - apply filter_update_same. intros l _ Hp.
    apply andb_true_iff in Hp. destruct Hp as [He _]. apply Z.leb_le in He.
    unfold Database.is_usable. cbn.
    replace (t <? expire_date l) with false
      by (symmetry; apply Z.ltb_ge; lia).
    rewrite !andb_false_r. auto.
  - intros l _ Hp. apply andb_true_iff in Hp. destruct Hp as [_ Hi].
    unfold Database.is_usable. destruct (is_active l); [discriminate|].
    rewrite !andb_false_r. reflexivity.
Qed.

Lemma reaping_keeps_channels s now pynow :
  channels (snd (Database.cleanup_expired_links s now pynow)) = channels s.
Proof. reflexivity. Qed.

(** X26.  [perform_full_cleanup] does not touch a working link: for a
    channel id whose rows are all active, the links of any user that are
    usable at the time of the sweep or later are the same before and after,
    and so is the answer of [get_active_personal_link]; every active channel
    is kept as it is. *)
Theorem perform_full_cleanup_spares_usable :
  forall s now pynow pynow' pynow'' today t uid cid,
    now <= t ->
    (forall c, In c (channels s) -> ch_id c = cid -> ch_is_active c = true) ->
    let s' := snd (FullCleanup.perform_full_cleanup s now pynow pynow' pynow'' today) in
    usable_rows s' t uid cid = usable_rows s t uid cid
    /\ Database.get_active_personal_link s' uid cid t
       = Database.get_active_personal_link s uid cid t
    /\ (forall c, In c (channels s) -> ch_is_active c = true -> In c (channels s')).
Proof.
  intros s now pynow pynow' pynow'' today t uid cid Ht Hact. cbn zeta.
  unfold FullCleanup.perform_full_cleanup.
  assert (H1 := @reaping_keeps_usable s now pynow t uid cid Ht).
  assert (C1 := reaping_keeps_channels s now pynow).
  destruct (Database.cleanup_expired_links s now pynow) as [n1 s1].
  cbn [snd] in H1, C1.
  unfold Database.cleanup_old_usage_records,
    LinkCleanupService._cleanup_old_inactive_channels,
    FullCleanup._cleanup_old_stats.
  cbn [snd].
  set (s2 := with_usage s1 _).
  set (old := fun c : Channel =>
         negb (ch_is_active c) && (ch_updated_at c <=? pynow'' - 7 * 86400)).
  destruct (delete_channels_rows old s2) as [Hc [Hl _]].
  assert (Hrows : usable_rows
                    (with_stats (delete_channels old s2)
                       (Sql.delete_where (fun st => cs_date st <=? today - 90)
                          (channel_stats (delete_channels old s2)))) t uid cid
                  = usable_rows s t uid cid).
  { rewrite <- H1. unfold usable_rows.
    cbn [with_stats personal_invite_links]. rewrite Hl.
    subst s2. cbn [with_usage personal_invite_links channels].
    apply filter_delete_same. intros l _ Hhit.
    destruct (Database.is_usable t uid cid l) eqn:U; [|reflexivity].
    apply usable_active in U. destruct U as [_ [Hcid _]].
    assert (Hno : existsb (fun ch => ch_id ch =? channel_id l)
                    (filter old (channels s1)) = false).
    { apply hit_false. intros c Hcin Hid. unfold old.
      rewrite C1 in Hcin. rewrite (Hact c Hcin) by congruence. reflexivity. }
    congruence. }
  split; [exact Hrows|]. split.
  - unfold Database.get_active_personal_link. unfold usable_rows in Hrows.
    rewrite Hrows. reflexivity.
  - intros c Hcin Ha. cbn [with_stats channels]. rewrite Hc.
    apply delete_where_spec. subst s2. cbn [with_usage channels].
    rewrite C1. split; [exact Hcin|]. unfold old. rewrite Ha. reflexivity.
Qed.

Lemma perform_full_cleanup_spares_usable_witness :
  Database.get_active_personal_link
    (snd (FullCleanup.perform_full_cleanup demo_store 30 30 31 32 5)) 7 1 40
  = Database.get_active_personal_link demo_store 7 1 40.
Proof.
  refine (proj1 (proj2 (@perform_full_cleanup_spares_usable demo_store 30 30 31 32
                          5 40 7 1 ltac:(lia) _))).
  intros c [<-|[]] _. reflexivity.
Defined.

(** ** More on [set_setting] and [get_setting] *)

(** X27.  [set_setting] keeps one row per key: after it the key has exactly
    one row, holding the text of the value just written; the rows of the
    other keys are the same as before; and writing the key twice leaves the
    same table as writing the second value alone. *)
Theorem set_setting_overwrites :
  forall s key value text,
    Database.value_text value = Some text ->
    let s' := snd (Database.set_setting s key value) in
    filter (fun kv => String.eqb (fst kv) key) (bot_settings s') = [(key, text)]
    /\ (forall kv, fst kv <> key ->
          (In kv (bot_settings s') <-> In kv (bot_settings s)))
    /\ (forall value' text',
          Database.value_text value' = Some text' ->
          snd (Database.set_setting s' key value')
          = snd (Database.set_setting s key value'))
    /\ personal_invite_links s' = personal_invite_links s.
Proof.
  intros s key value text Hv. cbn zeta. unfold Database.set_setting.
  rewrite Hv. cbn [snd with_settings bot_settings personal_invite_links].
  split; [|split; [|split]].
  - rewrite filter_app, (@filter_nil _ _ (Sql.delete_where _ _)).
    + cbn. rewrite String.eqb_refl. reflexivity.
    + intros kv Hkv. apply delete_where_spec in Hkv. apply Hkv.
  - intros kv Hn. rewrite in_app_iff, delete_where_spec. split.
    + intros [[H _]|[<-|[]]]; [exact H|]. cbn in Hn. congruence.
    + intros H. left. split; [exact H|]. apply String.eqb_neq. exact Hn.
  - intros value' text' Hv'. rewrite Hv'.
    cbn [snd with_settings bot_settings]. unfold with_settings. cbn. f_equal.
    f_equal. unfold Sql.delete_where. rewrite filter_app. cbn.
    rewrite String.eqb_refl. cbn. rewrite List.app_nil_r.
    fold (Sql.delete_where (fun kv : string * string => String.eqb (fst kv) key)
            (bot_settings s)).
    apply delete_where_id. intros kv Hkv. apply delete_where_spec in Hkv.
    apply Hkv.
  - reflexivity.
Qed.

Lemma set_setting_overwrites_witness :
  filter (fun kv => String.eqb (fst kv) "max_link_uses")
    (bot_settings
       (snd (Database.set_setting
               (snd (Database.set_setting demo_store "max_link_uses" (PyInt 3)))
               "max_link_uses" (PyInt 5))))
  = [("max_link_uses", "5")].
Proof.
  exact (proj1 (@set_setting_overwrites
                  (snd (Database.set_setting demo_store "max_link_uses" (PyInt 3)))
                  "max_link_uses" (PyInt 5) "5" eq_refl)).
Defined.

Lemma digit_not_space c : Chars.is_digit c = true -> Chars.is_py_space c = false.
Proof.
  unfold Chars.is_digit, Chars.is_py_space. cbn zeta.
  rewrite andb_true_iff, !Z.leb_le. intros H.
  rewrite !orb_false_iff, !andb_false_iff, !Z.leb_gt, !Z.eqb_neq. lia.
Qed.

Lemma lstrip_head l :
  match l with [] => True | c :: _ => Chars.is_py_space c = false end ->
  Chars.lstrip l = l.
Proof. destruct l as [|c r]; cbn; [reflexivity|]. intros ->. reflexivity. Qed.

Lemma digits_strip ds :
  forallb Chars.is_digit ds = true -> Chars.strip ds = ds.
Proof.
  intros H. unfold Chars.strip.
  assert (Hall : forall l, forallb Chars.is_digit l = true ->
                           Chars.lstrip l = l).
  { intros l Hl. apply lstrip_head. destruct l as [|c r]; [exact I|].
    cbn in Hl. apply andb_true_iff in Hl. apply digit_not_space. apply Hl. }
  rewrite (Hall ds H).
  rewrite Hall; [apply rev_involutive|].
  apply forallb_forall. intros c Hc. apply in_rev in Hc.
  rewrite forallb_forall in H. auto.
Qed.

Lemma digits_lower ds :
  forallb Chars.is_digit ds = true -> Chars.lower ds = ds.
Proof.
  unfold Chars.lower. induction ds as [|c r IH]; cbn; [reflexivity|].
  intros H. apply andb_true_iff in H. destruct H as [Hc Hr].
  rewrite (IH Hr). f_equal. unfold Chars.lower_chr.
  unfold Chars.is_digit in Hc. apply andb_true_iff in Hc.
  rewrite !Z.leb_le in Hc.
  replace ((65 <=? Chars.code c) && (Chars.code c <=? 90)) with false;
    [reflexivity|].
  symmetry. apply andb_false_iff. left. apply Z.leb_gt. lia.
Qed.

Lemma digit_head_scan c r :
  Chars.is_digit c = true ->
  Json.scan_frac (c :: r) = None /\ Json.scan_exp (c :: r) = None
  /\ Json.is_ws c = false.
Proof.
  intros H. assert (H' := H). unfold Chars.is_digit in H'.
  apply andb_true_iff in H'. rewrite !Z.leb_le in H'.
  assert (E1 : (Chars.code c =? 46) = false) by (apply Z.eqb_neq; lia).
  assert (E2 : (Chars.code c =? 101) = false) by (apply Z.eqb_neq; lia).
  assert (E3 : (Chars.code c =? 69) = false) by (apply Z.eqb_neq; lia).
  split; [|split].
  - unfold Json.scan_frac. destruct r; [reflexivity|]. rewrite E1. reflexivity.
  - unfold Json.scan_exp. rewrite E2, E3. reflexivity.
  - apply JsonFacts.number_head_not_ws. left. exact H.
Qed.

Lemma digits_loads c r :
  forallb Chars.is_digit (c :: r) = true ->
  Json.loads (string_of_list_ascii (c :: r)) = Some (PyInt (Chars.digits_to_Z (c :: r)))
  \/ Json.loads (string_of_list_ascii (c :: r)) = None.
Proof.
  intros H. assert (H' := H). cbn [forallb] in H'.
  apply andb_true_iff in H'. destruct H' as [Hc Hr].
  unfold Json.loads. rewrite list_ascii_of_string_of_list_ascii.
  destruct (@digit_head_scan c r Hc) as [_ [_ Hws]].
  cbn [Json.skip_ws]. rewrite Hws.
  replace (2 * List.length (c :: r) + 2)%nat
    with (S (2 * List.length (c :: r) + 1))%nat by lia.
  assert (Hnum : exists res,
             Json.scan_number (c :: r) = Some res
             /\ (res = (PyInt (Chars.digits_to_Z (c :: r)), [])
                 \/ exists d r', snd res = d :: r' /\ Chars.is_digit d = true)).
  { unfold Json.scan_number. rewrite (@JsonFacts.digit_not_minus c Hc).
    unfold Json.scan_int_part. destruct (Chars.code c =? 48) eqn:Z0.
    - destruct r as [|d r'].
      + eexists. split; [reflexivity|]. left. reflexivity.
      + cbn [forallb] in Hr. apply andb_true_iff in Hr. destruct Hr as [Hd _].
        destruct (@digit_head_scan d r' Hd) as [F [E _]]. rewrite F, E.
        eexists. split; [reflexivity|]. right. exists d, r'. auto.
    - rewrite Hc.
      assert (Hspan := @JsonFacts.span_all_digits r [] Hr I).
      rewrite List.app_nil_r in Hspan. rewrite Hspan. cbn.
      eexists. split; [reflexivity|]. left. reflexivity. }
  destruct Hnum as [res [Hnum Hres]].
  rewrite (@JsonFacts.scan_once_number _ c r res (or_introl Hc) Hnum).
  destruct Hres as [->|[d [r' [Hs Hd]]]].
  - left. reflexivity.
  - right. destruct res as [v rest]. cbn [snd] in Hs. subst rest.
    cbn [Json.skip_ws]. destruct (@digit_head_scan d r' Hd) as [_ [_ Hw]].
    rewrite Hw. reflexivity.
Qed.

(** X28.  A setting stored as a text of decimal digits (of a length Python
    converts to an integer, at most 4300 digits by default) comes back from
    [get_setting] as the integer it spells, leading zeros dropped, whether
    the text is valid JSON or not. *)
Theorem digit_text_is_read_as_int :
  forall ds,
    ds <> [] ->
    (List.length ds <= 4300)%nat ->
    forallb Chars.is_digit ds = true ->
    Database.decode_setting (string_of_list_ascii ds)
    = PyInt (Chars.digits_to_Z ds)
    /\ forall s key d,
         Database.get_setting
           (snd (Database.set_setting s key (PyStr (string_of_list_ascii ds))))
           key d
         = PyInt (Chars.digits_to_Z ds).
Proof.
  intros ds Hne _ Hd.
  assert (Hdec : Database.decode_setting (string_of_list_ascii ds)
                 = PyInt (Chars.digits_to_Z ds)).
  { destruct ds as [|c r]; [congruence|].
    unfold Database.decode_setting.
    destruct (@digits_loads c r Hd) as [-> | ->]; [reflexivity|].
    rewrite list_ascii_of_string_of_list_ascii.
    rewrite (@digits_strip (c :: r) Hd), (@digits_lower (c :: r) Hd).
    assert (Hc : Chars.is_digit c = true)
      by (cbn in Hd; apply andb_true_iff in Hd; apply Hd).
    assert (Ht : String.eqb (string_of_list_ascii (c :: r)) "true" = false).
    { cbn. destruct (Ascii.eqb_spec c "t"); [subst; discriminate|reflexivity]. }
    assert (Hf : String.eqb (string_of_list_ascii (c :: r)) "false" = false).
    { cbn. destruct (Ascii.eqb_spec c "f"); [subst; discriminate|reflexivity]. }
    rewrite Ht, Hf. cbn [orb].
    unfold Chars.isdigit. rewrite Hd. reflexivity. }
  split; [exact Hdec|].
  intros s key d.
  destruct (@get_after_set s key (PyStr (string_of_list_ascii ds))
              (string_of_list_ascii ds) d eq_refl) as [_ ->].
  exact Hdec.
Qed.

Lemma digit_text_is_read_as_int_witness :
  Database.get_setting
    (snd (Database.set_setting demo_store "max_link_uses" (PyStr "007")))
    "max_link_uses" (PyInt 1)
  = PyInt 7.
Proof.
  exact (proj2 (@digit_text_is_read_as_int
                  (list_ascii_of_string "007") ltac:(discriminate)
                  ltac:(cbn; lia) eq_refl)
           demo_store "max_link_uses" (PyInt 1)).
Defined.

